(** * Flooreno invoice generator: totals, invoice layout and the download gate

    A shallow embedding of [invoice.py].

    - Numbers are the program's: prices, tax, totals and cash amounts are
      IEEE-754 binary64 values (Rocq's primitive floats, the format of a
      Python [float]); quantities are unbounded ints.  An operation that
      mixes the two converts the int first and raises when the int has no
      finite float value.  Formatting with [.2f] rounds the exact binary
      value, ties to even.
    - The built-in [sum] depends on the interpreter: CPython before 3.12
      adds the floats from left to right, CPython 3.12 and later carries a
      compensation term.  The totals take the summation as a parameter, and
      a statement that holds for one of the two only says so.
    - [None] stands for the exceptions of the program's own arithmetic and
      formatting.  What reportlab and Streamlit raise on their own is outside
      the model: the markup parser of [Paragraph] on a text it rejects (an
      unclosed tag in an item name, for one), [pdf.build], a widget that is
      given a default outside its bounds.  So the model returns a document
      or a page wherever the program does, and the same one; it also returns
      one where only a library call raises.  The statements about documents
      and pages speak of calls and runs that return; that a call returns is
      stated only where no such library call can fail.
    - The document is what [create_invoice_pdf] hands to [pdf.build]: the
      page size, the edits made to the style sheet and the list of flowables
      (paragraphs, spacers, one table with its style commands).  Paragraph
      text is kept as the string given to the constructor.
    - The clock is an input: each call of [datetime.datetime.now()] is a
      reading supplied by the caller.
    - The page is one run of the script from the totals to the download
      button, on a settled item list; what it shows is collected in order.
    - The session is what the script keeps between runs: the item list, the
      pending message and the three inputs of the Add row.  The Add
      callback, the display of the message and the editable list act on it;
      the values of the widgets are inputs of each run. *)

From Stdlib Require Import ZArith List String Ascii Bool Lia.
From Stdlib Require Import Floats DecimalString.
Import ListNotations.

Set Warnings "-inexact-float".

Open Scope string_scope.
Open Scope Z_scope.

(** ** Errors

    A Python exception aborts the call; [None] stands for it. *)

Declare Scope err_scope.
Delimit Scope err_scope with err.

Notation "x <- c ;; k" :=
  (match c with Some x => k | None => None end)
  (at level 61, c at next level, right associativity) : err_scope.

Notation "' pat <- c ;; k" :=
  (match c with Some pat => k | None => None end)
  (at level 61, pat pattern, c at next level, right associativity) : err_scope.

Open Scope err_scope.

Fixpoint mapM {A B : Type} (f : A -> option B) (l : list A) : option (list B) :=
  match l with
  | [] => Some []
  | a :: l' => b <- f a ;; bs <- mapM f l' ;; Some (b :: bs)
  end.

(** ** Python numbers *)

Module Py.

(** An [int] or a [float]. *)
Inductive number : Type :=
| Int (z : Z)
| Float (f : float).

(** [float(z)]: the nearest binary64 value, ties to even;
    [OverflowError] when that value is not finite. *)
Definition float_of_int (z : Z) : option float :=
  match binary_normalize prec emax z 0 false with
  | S754_infinity _ => None
  | sf => Some (SF2Prim sf)
  end.

(** The operand of a mixed operation, taken to [float]. *)
Definition as_float (n : number) : option float :=
  match n with
  | Int z => float_of_int z
  | Float f => Some f
  end.

(** [a * b] and [a + b]: exact on two ints, otherwise both operands are
    taken to [float] first. *)
Definition mul (a b : number) : option number :=
  match a, b with
  | Int x, Int y => Some (Int (x * y))
  | _, _ => x <- as_float a ;; y <- as_float b ;; Some (Float (x * y)%float)
  end.

Definition add (a b : number) : option number :=
  match a, b with
  | Int x, Int y => Some (Int (x + y))
  | _, _ => x <- as_float a ;; y <- as_float b ;; Some (Float (x + y)%float)
  end.

(** The built-in [sum] over floats.  Two interpreters are told apart:
    CPython before 3.12 adds from left to right; CPython 3.12 and later
    carries a compensation term beside the running sum (Neumaier's variant
    of Kahan's summation). *)
Inductive summation : Type := left_to_right | compensated.

(** The compensated loop: [f_result] is the running sum of the plain
    additions and [c] collects what each addition rounded away; at the end
    [c] is added unless it is zero or not finite. *)
Fixpoint neumaier (f_result c : float) (xs : list float) : float :=
  match xs with
  | [] =>
      if negb (c =? 0)%float && is_finite c then (f_result + c)%float
      else f_result
  | x :: xs' =>
      let t := (f_result + x)%float in
      let c' :=
        if (abs x <=? abs f_result)%float
        then (c + ((f_result - t) + x))%float
        else (c + ((x - t) + f_result))%float in
      neumaier t c' xs'
  end.

(** [sum(xs)] for floats: starts from the int [0], so the sum of no terms
    is that int; the first addition is [0 + x] with the int converted, and
    the result is a float from then on. *)
Definition sum (v : summation) (xs : list float) : number :=
  match xs with
  | [] => Int 0
  | x :: xs' =>
      let first := (0 + x)%float in
      Float match v with
            | left_to_right => fold_left PrimFloat.add xs' first
            | compensated => neumaier first 0 xs'
            end
  end.

(** [str(z)] for an int. *)
Definition str_int (z : Z) : string := NilZero.string_of_int (Z.to_int z).

Fixpoint repeat_char (c : ascii) (n : nat) : string :=
  match n with
  | O => EmptyString
  | S n' => String c (repeat_char c n')
  end.

(** Decimal digits of [z], for [0 <= z], zero-padded on the left to
    [width]. *)
Definition zero_pad (width : nat) (z : Z) : string :=
  let s := str_int z in
  repeat_char "0" (width - String.length s) ++ s.

(** Quotient of [n] by [d] rounded to nearest, ties to even
    ([0 <= n], [0 < d]). *)
Definition div_half_even (n d : Z) : Z :=
  let q := n / d in
  let r := n mod d in
  match 2 * r ?= d with
  | Lt => q
  | Gt => q + 1
  | Eq => if Z.even q then q else q + 1
  end.

(** The integer nearest to [m * 2^e * 10^digits]. *)
Definition scaled (digits : nat) (m : positive) (e : Z) : Z :=
  let n := Z.pos m * 10 ^ Z.of_nat digits in
  if 0 <=? e then n * 2 ^ e else div_half_even n (2 ^ (- e)).

Definition fixed_digits (digits : nat) (k : Z) : string :=
  let p := 10 ^ Z.of_nat digits in
  str_int (k / p) ++
  match digits with
  | O => ""
  | _ => "." ++ zero_pad digits (k mod p)
  end.

Definition sign_str (s : bool) : string := if s then "-" else "".

(** [format(x, '.<digits>f')] for a float: the exact binary value rounded
    to [digits] decimals, ties to even. *)
Definition format_float (digits : nat) (x : float) : string :=
  match Prim2SF x with
  | S754_nan => "nan"
  | S754_infinity s => sign_str s ++ "inf"
  | S754_zero s => sign_str s ++ fixed_digits digits 0
  | S754_finite s m e => sign_str s ++ fixed_digits digits (scaled digits m e)
  end.

(** The same format applied to a number; an int is converted first. *)
Definition format_f (digits : nat) (n : number) : option string :=
  x <- as_float n ;; Some (format_float digits x).

(** [s.replace(old, new)] for one-character [old] and [new]. *)
Fixpoint replace (old new : ascii) (s : string) : string :=
  match s with
  | EmptyString => EmptyString
  | String c s' =>
      String (if Ascii.eqb c old then new else c) (replace old new s')
  end.

(** Truth value of a string and of a list. *)
Definition truthy_str (s : string) : bool :=
  match s with EmptyString => false | _ => true end.

Definition truthy_list {A : Type} (l : list A) : bool :=
  match l with [] => false | _ => true end.

End Py.

(** ** Constants *)

Definition TAX_RATE : float := 0.13%float.

(** ** Line items

    The item list holds tuples [(name, price, quantity)]; the price comes from
    a float input and the quantity from an integer input. *)

Record item : Type := Item {
  description : string;
  price : float;
  quantity : Z
}.

(** [price * quantity] for one item: the quantity is converted to float,
    which raises when it has no finite float value, and the product is a
    float. *)
Definition line_total (it : item) : option float :=
  q <- Py.float_of_int (quantity it) ;; Some (price it * q)%float.

(** ** Totals

    The terms of the sum are the line totals, in the order of the list; [v]
    is the summation of the interpreter that runs the program.  The rate is
    a float, so the tax and the total are floats whatever the subtotal is;
    the final match records that and none of its other cases can occur. *)

Definition calculate_totals (v : Py.summation) (items : list item)
  : option (Py.number * float * float) :=
  terms <- mapM line_total items ;;
  let subtotal := Py.sum v terms in
  tax <- Py.mul subtotal (Py.Float TAX_RATE) ;;
  total <- Py.add subtotal tax ;;
  match tax, total with
  | Py.Float tax', Py.Float total' => Some (subtotal, tax', total')
  | _, _ => None
  end.

(** ** The clock

    [datetime.datetime.now()] is an input of the model: the value the clock
    returns at the call. *)

Record datetime : Type := DateTime {
  year : Z; month : Z; day : Z;
  hour : Z; minute : Z; second : Z
}.

Definition directive (c : ascii) (t : datetime) : string :=
  if Ascii.eqb c "Y" then Py.zero_pad 4 (year t)
  else if Ascii.eqb c "m" then Py.zero_pad 2 (month t)
  else if Ascii.eqb c "d" then Py.zero_pad 2 (day t)
  else if Ascii.eqb c "H" then Py.zero_pad 2 (hour t)
  else if Ascii.eqb c "M" then Py.zero_pad 2 (minute t)
  else if Ascii.eqb c "S" then Py.zero_pad 2 (second t)
  else String "%" (String c EmptyString).

(** [t.strftime(fmt)] for the directives the program uses. *)
Fixpoint strftime (fmt : string) (t : datetime) : string :=
  match fmt with
  | EmptyString => EmptyString
  | String c rest =>
      if Ascii.eqb c "%" then
        match rest with
        | String d rest' => directive d t ++ strftime rest' t
        | EmptyString => String c EmptyString
        end
      else String c (strftime rest t)
  end.

(** ** The document

    The flowables of the layout library, as data. *)

(** Entries of the sample style sheet the program uses.  [small_style] is the
    sheet's [Normal] entry itself, not a copy. *)
Inductive style_name : Type := Title | Normal | Italic.

Definition small_style : style_name := Normal.

(** An attribute assignment on an entry of the sheet. *)
Record style_edit : Type := StyleEdit {
  edited : style_name;
  attribute : string;
  value : Z
}.

Inductive color : Type := lightgrey | whitesmoke | black.

Inductive command : Type :=
| FONTSIZE | BACKGROUND | TEXTCOLOR | FONTNAME | ALIGN | VALIGN
| INNERGRID | BOX | SPAN | LINEABOVE.

Inductive arg : Type :=
| AInt (z : Z)
| ANum (x : float)
| AColor (c : color)
| AStr (s : string).

(** A table style command [(name, (sc, sr), (ec, er), args...)]: cell
    coordinates are (column, row). *)
Record style_cmd : Type := Cmd {
  cmd : command;
  start : Z * Z;
  stop : Z * Z;
  args : list arg
}.

(** A table cell: a paragraph or a plain string. *)
Inductive cell : Type :=
| P (text : string) (style : style_name)
| Str (s : string).

Definition row : Type := list cell.

Inductive flowable : Type :=
| Paragraph (text : string) (style : style_name)
| Spacer (width height : Z)
| Table (data : list row) (colWidths : list Z) (style : list style_cmd).

Inductive pagesize : Type := letter.

Record document : Type := Document {
  page : pagesize;
  sheet_edits : list style_edit;
  elements : list flowable
}.

(** ** The invoice *)

Definition nl : string := String (ascii_of_nat 10) EmptyString.

Definition header_row : row :=
  [ P "<b>Item Description</b>" small_style;
    P "<b>Unit Price</b>" small_style;
    P "<b>Qty</b>" small_style;
    P "<b>SubTotal</b>" small_style;
    P "<b>Total</b>" small_style ].

(** The body of the loop over the items: one table row. *)
Definition item_row (it : item) : option row :=
  line_total_pre_tax <- line_total it ;;
  let line_total_post_tax := (line_total_pre_tax * (1 + TAX_RATE))%float in
  Some [ P (description it) small_style;
         P (Py.format_float 2 (price it)) small_style;
         P (Py.str_int (quantity it)) small_style;
         P (Py.format_float 2 line_total_pre_tax) small_style;
         P (Py.format_float 2 line_total_post_tax) small_style ].

(** The loop: each item appends its row to [data]. *)
Fixpoint populate (data : list row) (items : list item) : option (list row) :=
  match items with
  | [] => Some data
  | it :: rest => r <- item_row it ;; populate (data ++ [r])%list rest
  end.

Definition summary_rows (subtotal tax total : Py.number) : option (list row) :=
  s <- Py.format_f 2 subtotal ;;
  t <- Py.format_f 2 tax ;;
  tot <- Py.format_f 2 total ;;
  Some [ [ Str ""; Str ""; Str ""; P "Subtotal" small_style; P s small_style ];
         [ Str ""; Str ""; Str "";
           P ("Tax (" ++ Py.format_float 0 (TAX_RATE * 100)%float ++ "%)")
             small_style;
           P t small_style ];
         [ Str ""; Str ""; Str ""; P "<b>TOTAL</b>" small_style;
           P ("<b>" ++ tot ++ "</b>") small_style ] ].

Definition table_style (grid_end_row : Z) : list style_cmd :=
  [ Cmd FONTSIZE (0, 0) (-1, -1) [AInt 8];
    Cmd BACKGROUND (0, 0) (-1, 0) [AColor lightgrey];
    Cmd TEXTCOLOR (0, 0) (-1, 0) [AColor whitesmoke];
    Cmd FONTNAME (0, 0) (-1, 0) [AStr "Helvetica-Bold"];

    Cmd ALIGN (1, 1) (-1, -1) [AStr "RIGHT"];
    Cmd VALIGN (0, 0) (-1, -1) [AStr "TOP"];

    Cmd INNERGRID (0, 0) (-1, grid_end_row) [ANum 0.25; AColor black];
    Cmd BOX (0, 0) (-1, grid_end_row) [ANum 0.25; AColor black];

    Cmd SPAN (0, -3) (2, -3) [];
    Cmd SPAN (0, -2) (2, -2) [];
    Cmd SPAN (0, -1) (2, -1) [];

    Cmd LINEABOVE (3, -3) (4, -3) [ANum 0.5; AColor black];

    Cmd FONTNAME (3, -1) (4, -1) [AStr "Helvetica-Bold"];
    Cmd BACKGROUND (3, -1) (4, -1) [AColor lightgrey] ].

(** The customer block before the cash lines. *)
Definition client_base (client_name phone payment_type : string)
    (now : datetime) : string :=
  nl ++ "    <b>Customer Name:</b> " ++ client_name ++ "<br/>" ++
  nl ++ "    <b>Phone Number:</b> " ++ phone ++ "<br/>" ++
  nl ++ "    <b>Date:</b> " ++ strftime "%Y-%m-%d %H:%M:%S" now ++ "<br/>" ++
  nl ++ "    <b>Payment Type:</b> " ++ payment_type ++ "<br/>" ++
  nl ++ "    ".

Definition cash_lines (cash_given change : float) : string :=
  "<b>Cash Given:</b> $" ++ Py.format_float 2 cash_given ++
  "<br/><b>Change:</b> $" ++ Py.format_float 2 change ++ "<br/>".

Definition client_info (client_name phone payment_type : string)
    (cash_given change : option float) (now : datetime) : string :=
  let base := client_base client_name phone payment_type now in
  if String.eqb payment_type "Cash" then
    match cash_given, change with
    | Some cg, Some ch => base ++ cash_lines cg ch
    | _, _ => base
    end
  else base.

(** The renderer, up to the list of flowables it hands to [pdf.build].
    [None] is an exception of the arithmetic or the formatting in the body.
    The constructor [Paragraph] parses its text as markup and raises on a
    text it rejects, and [pdf.build] can raise as well: neither is modelled,
    so a document here is what the call builds when reportlab accepts every
    paragraph and the build. *)
Definition create_invoice_pdf (client_name phone : string) (items : list item)
    (payment_type : string) (subtotal tax total : Py.number)
    (location : string) (cash_given change : option float)
    (now : datetime) : option document :=
  let info := client_info client_name phone payment_type cash_given change now in
  let edits := [ StyleEdit Normal "fontSize" 8; StyleEdit Normal "leading" 10 ] in
  data <- populate [header_row] items ;;
  summary <- summary_rows subtotal tax total ;;
  let data := (data ++ summary)%list in
  let item_count := Z.of_nat (List.length items) in
  let grid_end_row := item_count in
  let table := Table data [220; 60; 40; 70; 80] (table_style grid_end_row) in
  Some (Document letter edits
    [ Paragraph "<b>Flooreno Store Invoice</b>" Title;
      Spacer 1 12;
      Paragraph ("<b>Store Location:</b> " ++ location) Normal;
      Spacer 1 6;
      Paragraph info Normal;
      Spacer 1 12;
      table;
      Spacer 1 24;
      Paragraph "Thank you for shopping at Flooreno!" Italic ]).

(** ** The page: payment, validation and the download button

    One run of the script from the totals down, on a settled item list.
    What the run shows is collected in order. *)

Inductive payment : Type := Cash | Debit | Credit.

Definition payment_label (p : payment) : string :=
  match p with
  | Cash => "Cash"
  | Debit => "Debit"
  | Credit => "Credit"
  end.

Definition is_cash (p : payment) : bool :=
  String.eqb (payment_label p) "Cash".

(** The values of the input widgets during the run. *)
Record form : Type := Form {
  client_name : string;
  phone : string;
  location : string;
  invoice_items : list item;
  payment_type : payment;
  cash_input : float
}.

Inductive output : Type :=
| markdown (body : string)
| success (body : string)
| warning (body : string)
| error (body : string)
| balloons
| download_button (label : string) (data : document) (file_name : string)
    (mime : string)
| button (label : string) (disabled : bool).

Record cash_state : Type := CashState {
  cash_given : option float;
  change : option float;
  cash_error_message : option string
}.

(** The cash block: the amount is read only for a cash payment, and change is
    computed only against a positive total that the amount covers. *)
Definition cash_handling (selected_payment_type : payment) (total : float)
    (cash : float) : cash_state * list output :=
  if is_cash selected_payment_type then
    if (0 <? total)%float then
      if (total <=? cash)%float then
        let change := (cash - total)%float in
        (CashState (Some cash) (Some change) None,
         [success ("Change to return: **$" ++ Py.format_float 2 change ++ "**")])
      else
        let msg := "Cash given is less than total **$" ++
                   Py.format_float 2 total ++
                   "**. Please input sufficient cash." in
        (CashState (Some cash) None (Some msg), [warning msg])
    else (CashState (Some cash) None None, [])
  else (CashState None None None, []).

Definition required_msg : string :=
  "Client Name, Phone, and at least one item are required.".

Definition insufficient_msg : string :=
  "Insufficient cash provided for the total amount.".

(** The two validations; returns [can_generate_pdf] and [error_messages]. *)
Definition validate (client_name phone : string) (items : list item)
    (selected_payment_type : payment) (total : float)
    (cash_given : option float) : bool * list string :=
  let '(can_generate_pdf, error_messages) :=
    if negb (Py.truthy_str client_name) || negb (Py.truthy_str phone)
       || negb (Py.truthy_list items)
    then (false, [required_msg])
    else (true, []) in
  if is_cash selected_payment_type && (0 <? total)%float
     && match cash_given with
        | None => true
        | Some c => (c <? total)%float
        end
  then (false, (error_messages ++ [insufficient_msg])%list)
  else (can_generate_pdf, error_messages).

Definition file_name_of (client_name phone : string) (now : datetime) : string :=
  "Invoice_" ++ Py.replace " " "_" client_name ++ "_" ++ phone ++ "_" ++
  strftime "%Y%m%d_%H%M%S" now ++ ".pdf".

(** The run.  [clock k] is the value of the [k]-th reading of the clock:
    the renderer takes the first, the file name the second.  The renderer is
    called only when the validations pass; what reportlab raises inside it
    is not modelled (see [create_invoice_pdf]), so a page with a download is
    what the run shows when the renderer returns. *)
Definition run (v : Py.summation) (f : form) (clock : nat -> datetime)
  : option (list output) :=
  '(subtotal, tax, total) <- calculate_totals v (invoice_items f) ;;
  let selected_payment_type := payment_type f in
  let '(cs, shown_cash) :=
    cash_handling selected_payment_type total (cash_input f) in
  let '(can_generate_pdf, error_messages) :=
    validate (client_name f) (phone f) (invoice_items f)
      selected_payment_type total (cash_given cs) in
  let shown :=
    ([markdown ("#### Total Due: $" ++ Py.format_float 2 total)]
     ++ shown_cash ++ map error error_messages)%list in
  if can_generate_pdf then
    pdf_buffer <-
      create_invoice_pdf (client_name f) (phone f) (invoice_items f)
        (payment_label selected_payment_type)
        subtotal (Py.Float tax) (Py.Float total) (location f)
        (cash_given cs) (change cs) (clock 0%nat) ;;
    Some (shown ++
          [ balloons;
            download_button "✅ Download Invoice PDF" pdf_buffer
              (file_name_of (client_name f) (phone f) (clock 1%nat))
              "application/pdf";
            success "Invoice PDF has been generated and is ready for download." ])%list
  else
    Some (shown ++
          [ button "Download Invoice PDF (Validation Pending)" true ])%list.

(** ** Reading a document back *)

Fixpoint first_table (fs : list flowable)
  : option (list row * list Z * list style_cmd) :=
  match fs with
  | [] => None
  | Table data widths style :: _ => Some (data, widths, style)
  | _ :: rest => first_table rest
  end.

Definition table_of (d : document) : option (list row * list Z * list style_cmd) :=
  first_table (elements d).

(** Cell coordinates of a style command, as the layout library reads them: a
    negative index counts back from the end of the table, [-1] being the last
    column or row. *)
Definition resolve (n i : Z) : Z := if i <? 0 then i + n else i.

Definition within (lo hi x : Z) : bool := (lo <=? x) && (x <=? hi).

(** Does the command's cell range contain the cell at column [col], row [r],
    in a table of [nrows] rows and [ncols] columns? *)
Definition covers (nrows ncols : Z) (c : style_cmd) (col r : Z) : bool :=
  within (resolve ncols (fst (start c))) (resolve ncols (fst (stop c))) col
  && within (resolve nrows (snd (start c))) (resolve nrows (snd (stop c))) r.

(** Does the command rule the upper edge of that cell?  [LINEABOVE] rules
    above every row of its range, [BOX] the outline of its range, [INNERGRID]
    the edges between the cells of its range. *)
Definition rules_above (nrows ncols : Z) (c : style_cmd) (col r : Z) : bool :=
  match cmd c with
  | LINEABOVE => covers nrows ncols c col r
  | BOX =>
      within (resolve ncols (fst (start c))) (resolve ncols (fst (stop c))) col
      && ((r =? resolve nrows (snd (start c)))
          || (r =? resolve nrows (snd (stop c)) + 1))
  | INNERGRID => covers nrows ncols c col r && covers nrows ncols c col (r - 1)
  | _ => false
  end.

Definition is_grid (c : style_cmd) : bool :=
  match cmd c with
  | BOX | INNERGRID => true
  | _ => false
  end.

Definition ncols_of (data : list row) : Z :=
  Z.of_nat (List.length (hd [] data)).

Definition nrows_of (data : list row) : Z := Z.of_nat (List.length data).

(** Substring test. *)
Fixpoint contains (needle hay : string) : bool :=
  prefix needle hay ||
  match hay with
  | EmptyString => false
  | String _ rest => contains needle rest
  end.

(** The conversion of an int to a float, without the range check. *)
Definition to_float (z : Z) : float :=
  SF2Prim (binary_normalize prec emax z 0 false).

(** The int has a finite [float] value. *)
Definition convertible (z : Z) : Prop :=
  exists x, Py.float_of_int z = Some x.

(** A number that [format] accepts. *)
Definition formattable (n : Py.number) : Prop :=
  exists x, Py.as_float n = Some x.

(** The float sum of a list, from left to right. *)
Definition float_sum (xs : list float) : float :=
  fold_left PrimFloat.add xs 0%float.

(** The value of [sum] as a float. *)
Definition sum_value (v : Py.summation) (xs : list float) : float :=
  match Py.sum v xs with
  | Py.Float s => s
  | Py.Int z => to_float z
  end.

(** [price * quantity] as a float. *)
Definition line_float (it : item) : float :=
  (price it * to_float (quantity it))%float.

(** A value of the calendar clock. *)
Definition valid_datetime (t : datetime) : Prop :=
  1000 <= year t <= 9999 /\ 1 <= month t <= 12 /\ 1 <= day t <= 31 /\
  0 <= hour t <= 23 /\ 0 <= minute t <= 59 /\ 0 <= second t <= 59.

Definition is_digit (c : ascii) : bool :=
  (48 <=? nat_of_ascii c)%nat && (nat_of_ascii c <=? 57)%nat.

Fixpoint all_chars (p : ascii -> bool) (s : string) : bool :=
  match s with
  | EmptyString => true
  | String c rest => p c && all_chars p rest
  end.

(** What the run offers. *)
Definition offered (out : list output) : Prop :=
  exists label d file_name mime,
    In (download_button label d file_name mime) out.

Definition disabled_button : output :=
  button "Download Invoice PDF (Validation Pending)" true.

(** ** Definitions used in the statements and proofs *)

(** Items agree on price and quantity; the descriptions are free. *)
Definition same_amounts (a b : item) : Prop :=
  price a = price b /\ quantity a = quantity b.

Definition oak_and_nails : list item :=
  [ Item "Oak Plank" 12.5 4; Item "Nail Box" 5 2 ].

(** The row of an item, with the arithmetic written out. *)
Definition row_of (it : item) (q : float) : row :=
  let pre := (price it * q)%float in
  let post := (pre * 1.13)%float in
  [ P (description it) Normal;
    P (Py.format_float 2 (price it)) Normal;
    P (Py.str_int (quantity it)) Normal;
    P (Py.format_float 2 pre) Normal;
    P (Py.format_float 2 post) Normal ].

Definition summary_of (s t tot : float) : list row :=
  [ [ Str ""; Str ""; Str ""; P "Subtotal" Normal;
      P (Py.format_float 2 s) Normal ];
    [ Str ""; Str ""; Str ""; P "Tax (13%)" Normal;
      P (Py.format_float 2 t) Normal ];
    [ Str ""; Str ""; Str ""; P "<b>TOTAL</b>" Normal;
      P ("<b>" ++ Py.format_float 2 tot ++ "</b>") Normal ] ].

(** The assembled document. *)
Definition layout (location info : string) (data : list row)
    (grid_end_row : Z) : document :=
  Document letter
    [ StyleEdit Normal "fontSize" 8; StyleEdit Normal "leading" 10 ]
    [ Paragraph "<b>Flooreno Store Invoice</b>" Title;
      Spacer 1 12;
      Paragraph ("<b>Store Location:</b> " ++ location) Normal;
      Spacer 1 6;
      Paragraph info Normal;
      Spacer 1 12;
      Table data [220; 60; 40; 70; 80] (table_style grid_end_row);
      Spacer 1 24;
      Paragraph "Thank you for shopping at Flooreno!" Italic ].

(** A sample request: the two-item invoice, paid in cash. *)
Definition morning : datetime := DateTime 2024 3 7 9 5 2.

Definition sample_render (now : datetime) : option document :=
  create_invoice_pdf "Ann Lee" "555 0100" oak_and_nails "Cash"
    (Py.Float 60) (Py.Float 7.8000000000000007) (Py.Float 67.799999999999997)
    "NY" (Some 70%float) (Some (70 - 67.799999999999997)%float) now.

Ltac split_commands H :=
  repeat (destruct H as [<- | H]; [| try contradiction]);
  try contradiction.

Ltac geometry :=
  unfold rules_above, covers, within, resolve;
  cbn [cmd start stop fst snd Z.ltb Z.compare];
  repeat match goal with
         | |- context [Z.ltb ?a ?b] => destruct (Z.ltb_spec a b)
         | |- context [Z.leb ?a ?b] => destruct (Z.leb_spec a b)
         | |- context [Z.eqb ?a ?b] => destruct (Z.eqb_spec a b)
         end;
  cbn [andb orb];
  try lia;
  try (split; intros; try discriminate; try reflexivity; lia).

(** The claims as worded, for one document. *)
Definition grid_encloses_whole_table (d : document) : Prop :=
  exists data widths style,
    table_of d = Some (data, widths, style) /\
    forall c, In c style -> is_grid c = true ->
    forall col r, 0 <= col < ncols_of data -> 0 <= r < nrows_of data ->
      covers (nrows_of data) (ncols_of data) c col r = true.

Definition total_row_ruled_above (d : document) : Prop :=
  exists data widths style,
    table_of d = Some (data, widths, style) /\
    exists c col,
      In c style /\
      rules_above (nrows_of data) (ncols_of data) c col (nrows_of data - 1)
        = true.

Definition is_number (x : float) : Prop := Prim2SF x <> S754_nan.

(** Zero-padded fields of the clock. *)
Definition field_ok (width : nat) (z : Z) : bool :=
  (String.length (Py.zero_pad width z) =? width)%nat
  && all_chars is_digit (Py.zero_pad width z).

(** What the run shows above the button. *)
Definition shown_above (f : form) (total : float) : list output :=
  let cash := cash_handling (payment_type f) total (cash_input f) in
  let checks := validate (client_name f) (phone f) (invoice_items f)
                  (payment_type f) total (cash_given (fst cash)) in
  ([markdown ("#### Total Due: $" ++ Py.format_float 2 total)]
   ++ snd cash ++ map error (snd checks))%list.

(** The cash check of the validation, as a test. *)
Definition cash_short (p : payment) (total : float) (cg : option float) : bool :=
  is_cash p && (0 <? total)%float
  && match cg with
     | None => true
     | Some c => (c <? total)%float
     end.

Definition ann : form :=
  Form "Ann Lee" "555 0100" "NY" oak_and_nails Cash 70.

Definition steady (n : nat) : datetime := morning.

(** A zero-priced item paid in cash. *)
Definition free_tile : form :=
  Form "Ann Lee" "555 0100" "NY" [ Item "Tile" 0 5 ] Cash 0.

(** One plank priced so that the total is exactly 100.00. *)
Definition hundred (cash : float) : form :=
  Form "Ann Lee" "555 0100" "NY" [ Item "Oak Plank" 88.49557522123894 1 ]
    Cash cash.

Definition date_format : string := "%Y-%m-%d %H:%M:%S".

(** The client block around the date. *)
Definition info_before (client_name phone : string) : string :=
  nl ++ "    <b>Customer Name:</b> " ++ client_name ++ "<br/>" ++
  nl ++ "    <b>Phone Number:</b> " ++ phone ++ "<br/>" ++
  nl ++ "    <b>Date:</b> ".

Definition info_after (payment_type : string)
    (cash_given change : option float) : string :=
  ("<br/>" ++ nl ++ "    <b>Payment Type:</b> " ++ payment_type ++ "<br/>" ++
   nl ++ "    ") ++
  if String.eqb payment_type "Cash" then
    match cash_given, change with
    | Some cg, Some ch => cash_lines cg ch
    | _, _ => ""
    end
  else "".

Definition evening : datetime := DateTime 2024 3 7 18 30 0.

(** ** Stripping a string

    Strings are the UTF-8 bytes of the text.  [str.strip()] removes the
    white-space characters at both ends: the one-byte ones ([\t] to [\r],
    [\x1c] to [\x1f] and the space), the two-byte ones (U+0085, U+00A0) and
    the three-byte ones (U+1680, U+2000 to U+200A, U+2028, U+2029, U+202F,
    U+205F, U+3000). *)

Module PyStr.

Definition byte_in (lo hi : nat) (c : ascii) : bool :=
  (lo <=? nat_of_ascii c)%nat && (nat_of_ascii c <=? hi)%nat.

Definition byte_is (n : nat) (c : ascii) : bool :=
  (nat_of_ascii c =? n)%nat.

Definition space1 (a : ascii) : bool :=
  byte_in 9 13 a || byte_in 28 32 a.

Definition space2 (a b : ascii) : bool :=
  byte_is 194 a && (byte_is 133 b || byte_is 160 b).

Definition space3 (a b c : ascii) : bool :=
  (byte_is 225 a && byte_is 154 b && byte_is 128 c)
  || (byte_is 226 a && byte_is 128 b
      && (byte_in 128 138 c || byte_is 168 c || byte_is 169 c
          || byte_is 175 c))
  || (byte_is 226 a && byte_is 129 b && byte_is 159 c)
  || (byte_is 227 a && byte_is 128 b && byte_is 128 c).

(** [s.lstrip()]. *)
Fixpoint lstrip (s : string) : string :=
  match s with
  | EmptyString => s
  | String a r =>
      if space1 a then lstrip r
      else
        match r with
        | EmptyString => s
        | String b r' =>
            if space2 a b then lstrip r'
            else
              match r' with
              | EmptyString => s
              | String c r'' => if space3 a b c then lstrip r'' else s
              end
        end
  end.

(** The string is white space only. *)
Definition blank (s : string) : bool :=
  match lstrip s with
  | EmptyString => true
  | _ => false
  end.

(** [s.rstrip()]: the string up to its longest blank tail. *)
Fixpoint rstrip (s : string) : string :=
  match s with
  | EmptyString => s
  | String a r => if blank s then EmptyString else String a (rstrip r)
  end.

(** [s.strip()]. *)
Definition strip (s : string) : string := rstrip (lstrip s).

End PyStr.

(** ** The session

    The values the script keeps between runs, and what changes them: the
    callback of the Add button, the display of the pending message and the
    editable list of the current items. *)

Module Session.

(** The pending message: [{"type": ..., "text": ...}]. *)
Inductive notice : Type :=
| no_notice
| notice_success (text : string)
| notice_error (text : string).

Record state : Type := State {
  invoice_items : list item;
  message : notice;
  temp_name : string;
  temp_price : float;
  temp_qty : Z
}.

(** The state the initialisation gives a new session. *)
Definition initial : state := State [] no_notice "" 0 1.

Definition invalid_msg : string :=
  "Please ensure item name, price, and quantity are valid.".

(** The callback of the Add button. *)
Definition add_item_and_reset (st : state) : state :=
  let name := PyStr.strip (temp_name st) in
  let price := temp_price st in
  let quantity := temp_qty st in
  if Py.truthy_str name && (0 <? price)%float && (0 <? quantity) then
    State (invoice_items st ++ [Item name price quantity])%list
      (notice_success ("Added " ++ Py.str_int quantity ++ " x " ++ name ++
                       " @ $" ++ Py.format_float 2 price))
      "" 0 1
  else
    State (invoice_items st) (notice_error invalid_msg)
      (temp_name st) (temp_price st) (temp_qty st).

(** The display of the message of the previous click, which clears it. *)
Definition show_message (st : state) : list output * state :=
  match message st with
  | notice_success text =>
      ([success text],
       State (invoice_items st) no_notice (temp_name st) (temp_price st)
         (temp_qty st))
  | notice_error text =>
      ([error text],
       State (invoice_items st) no_notice (temp_name st) (temp_price st)
         (temp_qty st))
  | no_notice => ([], st)
  end.

(** The widgets of one row of the editable list: the price and quantity
    inputs and the remove button. *)
Record reading : Type := Reading {
  new_price : float;
  new_quantity : Z;
  remove : bool
}.

(** What a row of the list shows: the name and the two line totals. *)
Record line : Type := Line {
  shown_name : string;
  shown_total : string;
  shown_with_tax : string
}.

Definition list_header : list string :=
  [ "**Description**"; "**Unit Price ($)**"; "**Quantity**"; "**Total ($)**";
    "**Total After Tax (" ++ Py.format_float 0 (TAX_RATE * 100)%float
    ++ "%)**" ].

(** The loop over the items; [widgets i] are the widgets of row [i], as
    read.  Streamlit refuses to build a number input whose default lies
    outside its bounds or is an int beyond 2^53 - 1; that exception is not
    modelled, so the loop here is the loop over widgets that were built. *)
Fixpoint edit_rows (i : nat) (rows : list item) (widgets : nat -> reading)
    (items_to_keep : list item) (shown : list line)
  : option (list item * list line) :=
  match rows with
  | [] => Some (items_to_keep, shown)
  | it :: rest =>
      let w := widgets i in
      line_total_pre_tax <-
        Py.mul (Py.Float (new_price w)) (Py.Int (new_quantity w)) ;;
      line_total_with_tax <-
        Py.mul line_total_pre_tax (Py.Float (1 + TAX_RATE)%float) ;;
      pre <- Py.format_f 2 line_total_pre_tax ;;
      post <- Py.format_f 2 line_total_with_tax ;;
      let shown' :=
        (shown ++ [Line (description it) ("**$" ++ pre ++ "**")
                     ("**$" ++ post ++ "**")])%list in
      if remove w then edit_rows (S i) rest widgets items_to_keep shown'
      else
        edit_rows (S i) rest widgets
          (items_to_keep
           ++ [Item (description it) (new_price w) (new_quantity w)])%list
          shown'
  end.

(** [a == b] on two item tuples and on two item lists. *)
Definition item_eq (a b : item) : bool :=
  String.eqb (description a) (description b)
  && (price a =? price b)%float
  && (quantity a =? quantity b).

Fixpoint items_eq (a b : list item) : bool :=
  match a, b with
  | [], [] => true
  | x :: a', y :: b' => item_eq x y && items_eq a' b'
  | _, _ => false
  end.

(** The outcome of the list section: the script starts over with an updated
    list, or goes on with what it has shown. *)
Inductive listing : Type :=
| rerun (items : list item)
| table (header : list string) (lines : list line)
| info (body : string).

Definition edit_list (items : list item) (widgets : nat -> reading)
  : option listing :=
  if Py.truthy_list items then
    '(items_to_keep, shown) <- edit_rows 0 items widgets [] [] ;;
    if negb (List.length items_to_keep =? List.length items)%nat then
      Some (rerun items_to_keep)
    else if negb (items_eq items items_to_keep) then
      Some (rerun items_to_keep)
    else Some (table list_header shown)
  else Some (info "No items added yet.").

(** What the rest of the script reads from the widgets. *)
Record inputs : Type := Inputs {
  in_client_name : string;
  in_phone : string;
  in_location : string;
  in_payment : payment;
  in_cash : float;
  in_rows : nat -> reading
}.

(** One execution of the script: a restart with an updated list, or a
    finished page.  [None] is an exception of the program's arithmetic or
    formatting; the exceptions of the libraries are as in [edit_rows] and
    [create_invoice_pdf]. *)
Inductive outcome : Type :=
| restarted (st : state)
| finished (notices : list output) (items : listing) (page : list output)
    (st : state).

Definition script (v : Py.summation) (st : state) (w : inputs)
    (clock : nat -> datetime) : option outcome :=
  let '(notices, st) := show_message st in
  _ <- calculate_totals v (invoice_items st) ;;
  shown <- edit_list (invoice_items st) (in_rows w) ;;
  match shown with
  | rerun items =>
      Some (restarted (State items (message st) (temp_name st)
                         (temp_price st) (temp_qty st)))
  | _ =>
      page <- run v (Form (in_client_name w) (in_phone w) (in_location w)
                       (invoice_items st) (in_payment w) (in_cash w)) clock ;;
      Some (finished notices shown page st)
  end.

End Session.

(** ** Definitions for the session properties *)

(** A line item as the session keeps it: a name that is not empty and has no
    white space at its ends, a price not below zero and a quantity of at
    least one. *)
Definition valid_item (it : item) : Prop :=
  description it <> "" /\ PyStr.strip (description it) = description it /\
  (0 <=? price it)%float = true /\ 1 <= quantity it.

(** The widgets of every row respect the bounds of their inputs. *)
Definition rows_in_bounds (widgets : nat -> Session.reading) : Prop :=
  forall i, (0 <=? Session.new_price (widgets i))%float = true /\
            1 <= Session.new_quantity (widgets i).

(** The items the loop keeps, from row [i] on. *)
Fixpoint kept (i : nat) (rows : list item) (widgets : nat -> Session.reading)
  : list item :=
  match rows with
  | [] => []
  | it :: rest =>
      if Session.remove (widgets i) then kept (S i) rest widgets
      else Item (description it) (Session.new_price (widgets i))
             (Session.new_quantity (widgets i)) :: kept (S i) rest widgets
  end.

(** The items whose remove button is not pressed, from row [i] on. *)
Fixpoint unpressed (i : nat) (rows : list item)
    (widgets : nat -> Session.reading) : list item :=
  match rows with
  | [] => []
  | it :: rest =>
      if Session.remove (widgets i) then unpressed (S i) rest widgets
      else it :: unpressed (S i) rest widgets
  end.

(** Row [i] shows the values of its item and is not removed. *)
Definition echoes (w : Session.reading) (it : item) : Prop :=
  Session.remove w = false /\
  (price it =? Session.new_price w)%float = true /\
  quantity it = Session.new_quantity w.

Definition state_of (o : Session.outcome) : Session.state :=
  match o with
  | Session.restarted st => st
  | Session.finished _ _ _ st => st
  end.

Definition notices_of (o : Session.outcome) : list output :=
  match o with
  | Session.restarted _ => []
  | Session.finished notices _ _ _ => notices
  end.

(** What the user does between two executions of the script: types into the
    inputs of the Add row, clicks Add, or lets the script run with the
    widgets of the list within their bounds. *)
Inductive step : Session.state -> Session.state -> Prop :=
| step_type st name price qty :
    step st (Session.State (Session.invoice_items st) (Session.message st)
               name price qty)
| step_add st : step st (Session.add_item_and_reset st)
| step_script st v w clock o :
    rows_in_bounds (Session.in_rows w) ->
    Session.script v st w clock = Some o ->
    step st (state_of o).

Inductive reachable : Session.state -> Prop :=
| reach_initial : reachable Session.initial
| reach_step st st' : reachable st -> step st st' -> reachable st'.

Definition accepts (st : Session.state) : Prop :=
  PyStr.blank (Session.temp_name st) = false /\
  (0 <? Session.temp_price st)%float = true /\ 0 < Session.temp_qty st.

Fixpoint all_echo (i : nat) (rows : list item)
    (widgets : nat -> Session.reading) : bool :=
  match rows with
  | [] => true
  | it :: rest =>
      negb (Session.remove (widgets i))
      && (price it =? Session.new_price (widgets i))%float
      && (quantity it =? Session.new_quantity (widgets i))
      && all_echo (S i) rest widgets
  end.

(** The rows of a list with their indices, from index [i] on. *)
Definition enumerate_from {A : Type} (i : nat) (l : list A) : list (nat * A) :=
  combine (seq i (List.length l)) l.

(** The list the editable section keeps, written without the loop: the rows
    whose remove button is not pressed, in order, each with the name of its
    item and the price and quantity of its widgets. *)
Definition rows_kept (items : list item) (widgets : nat -> Session.reading)
  : list item :=
  map (fun r => Item (description (snd r))
                  (Session.new_price (widgets (fst r)))
                  (Session.new_quantity (widgets (fst r))))
    (filter (fun r => negb (Session.remove (widgets (fst r))))
       (enumerate_from 0 items)).

(** The number of remove buttons pressed among the first [n] rows. *)
Definition pressed (n : nat) (widgets : nat -> Session.reading) : nat :=
  List.length (filter (fun k => Session.remove (widgets k)) (seq 0 n)).

(** Sample widgets for the two-item list: the first row removed and the
    second repriced, and both rows as they are. *)
Definition first_removed (k : nat) : Session.reading :=
  match k with
  | O => Session.Reading 12.5 4 true
  | _ => Session.Reading 6 2 false
  end.

Definition untouched (k : nat) : Session.reading :=
  match k with
  | O => Session.Reading 12.5 4 false
  | _ => Session.Reading 5 2 false
  end.

(** A session after one accepted click, and the widgets of a customer at the
    counter who leaves the list as it is. *)
Definition after_click : Session.state :=
  Session.add_item_and_reset
    (Session.State [] Session.no_notice "  Oak Plank " 12.5 4).

Definition at_counter : Session.inputs :=
  Session.Inputs "Ann Lee" "555 0100" "NY" Cash 70 untouched.

(** The quantity has no float value: [price * quantity] raises. *)
Definition overflows (z : Z) : Prop := Py.float_of_int z = None.

Definition pine_board : item := Item "Pine Board" 7.25 3.

(** A message line of the page, as opposed to a button or the balloons. *)
Definition is_message (o : output) : bool :=
  match o with
  | markdown _ | success _ | warning _ | error _ => true
  | _ => false
  end.

(** The sample customer with too little cash, and with no phone number. *)
Definition ann_short : form :=
  Form "Ann Lee" "555 0100" "NY" oak_and_nails Cash 50.

Definition ann_no_phone : form :=
  Form "Ann Lee" "" "NY" oak_and_nails Debit 0.

(** The two-item session with a third item typed into the Add row, and the
    widgets of the three rows left as they are. *)
Definition pine_typed : Session.state :=
  Session.State oak_and_nails Session.no_notice "  Pine Board " 7.25 3.

Definition three_untouched (k : nat) : Session.reading :=
  match k with
  | 0%nat => Session.Reading 12.5 4 false
  | 1%nat => Session.Reading 5 2 false
  | _ => Session.Reading 7.25 3 false
  end.

Definition by_card : Session.inputs :=
  Session.Inputs "Ann Lee" "555 0100" "NY" Debit 0 three_untouched.

(** The float is a zero, a positive number or plus infinity. *)
Definition sf_nonneg (x : spec_float) : Prop :=
  match x with
  | S754_zero _ | S754_infinity false | S754_finite false _ _ => True
  | _ => False
  end.

(** A line item within the bounds of the inputs, with a quantity that is
    converted to float without rounding. *)
Definition in_bounds (it : item) : Prop :=
  (0 <=? price it)%float = true /\ 1 <= quantity it < 2 ^ 53.

(** Nine tiles at 0.15 each, and a tenth. *)
Definition nine_tiles : list item := repeat (Item "Tile" 0.15 1) 9.

Definition tenth_tile : item := Item "Tile" 0.15 1.

(** A quantity too large for a float. *)
Definition too_many : list item := [ Item "Oak Plank" 12.5 (2 ^ 1024) ].

(** * Properties *)

(** ** The error monad on lists *)

Section MapM.
Context {A B : Type} (f : A -> option B).

Lemma mapM_cons_Some a l bs :
  mapM f (a :: l) = Some bs ->
  exists b bs', f a = Some b /\ mapM f l = Some bs' /\ bs = b :: bs'.
Proof.
  simpl. destruct (f a) as [b|]; [|discriminate].
  destruct (mapM f l) as [bs'|]; [|discriminate].
  intros [= <-]. eauto.
Qed.

Lemma mapM_total l :
  Forall (fun a => exists b, f a = Some b) l -> exists bs, mapM f l = Some bs.
Proof.
  induction 1 as [|a l [b Hb] _ [bs Hbs]]; simpl.
  - eauto.
  - rewrite Hb, Hbs. eauto.
Qed.

Lemma mapM_Some_Forall l : forall bs,
  mapM f l = Some bs -> Forall (fun a => exists b, f a = Some b) l.
Proof.
  induction l as [|a l IH]; intros bs H; constructor.
  - apply mapM_cons_Some in H as (b & _ & Hb & _). eauto.
  - apply mapM_cons_Some in H as (_ & bs' & _ & H & _). eauto.
Qed.

Lemma mapM_map (g : A -> B) l :
  (forall a, In a l -> f a = Some (g a)) -> mapM f l = Some (map g l).
Proof.
  induction l as [|a l IH]; intros H; simpl.
  - reflexivity.
  - rewrite (H a (or_introl eq_refl)), IH; auto using in_cons.
Qed.
End MapM.

(** ** Numbers *)

Lemma float_of_int_to_float z x :
  Py.float_of_int z = Some x -> x = to_float z.
Proof.
  unfold Py.float_of_int, to_float.
  destruct (binary_normalize prec emax z 0 false); congruence.
Qed.

(** The conversion on small ints: the mantissa is shifted into 53 bits and
    nothing is rounded. *)
Lemma digits2_pos_bound (k : nat) : forall m,
  Z.pos m < 2 ^ Z.of_nat k -> Z.pos (digits2_pos m) <= Z.of_nat k.
Proof.
  induction k as [|k IH]; intros m Hm.
  - simpl in Hm. lia.
  - rewrite Nat2Z.inj_succ, Z.pow_succ_r in Hm by lia.
    destruct m as [p|p|]; cbn [digits2_pos].
    + rewrite Pos2Z.inj_succ. specialize (IH p). lia.
    + rewrite Pos2Z.inj_succ. specialize (IH p). lia.
    + lia.
Qed.

Lemma digits2_pos_iter_xO m d :
  digits2_pos (Pos.iter xO m d) = (digits2_pos m + d)%positive.
Proof.
  induction d as [|d IH] using Pos.peano_ind.
  - simpl. lia.
  - rewrite Pos.iter_succ. cbn [digits2_pos]. rewrite IH. lia.
Qed.

Lemma binary_round_small sx m :
  Z.pos m < 2 ^ 53 ->
  exists mz ez, binary_round prec emax sx m 0 = S754_finite sx mz ez.
Proof.
  intros Hm.
  pose proof (digits2_pos_bound 53 m Hm) as Hd.
  assert (Hd1 : 1 <= Z.pos (digits2_pos m)) by lia.
  set (d := Z.pos (digits2_pos m)) in *.
  assert (E1 : fexp prec emax (d + 0) = d - 53)
    by (unfold fexp, emin, prec, emax; lia).
  assert (E2 : fexp prec emax (53 + (d - 53)) = d - 53)
    by (unfold fexp, emin, prec, emax; lia).
  assert (Hal : exists mz, shl_align m 0 (d - 53) = (mz, d - 53)
                 /\ Z.pos (digits2_pos mz) = 53).
  { unfold shl_align. destruct (d - 53 - 0) as [|p|p] eqn:E.
    - exists m. split; [f_equal; lia | fold d; lia].
    - lia.
    - exists (Pos.iter xO m p). split; [reflexivity|].
      rewrite digits2_pos_iter_xO, Pos2Z.inj_add. fold d. lia. }
  destruct Hal as (mz & Hal & Hmz).
  exists mz, (d - 53).
  unfold binary_round. fold d. rewrite E1, Hal.
  unfold binary_round_aux, shr_fexp. cbn [Zdigits2 shr_record_of_loc].
  rewrite Hmz, E2, Z.sub_diag.
  cbn [shr shr_m loc_of_shr_record round_nearest_even Zdigits2].
  rewrite Hmz, E2, Z.sub_diag. cbn [shr shr_m shr_record_of_loc].
  destruct (Z.leb_spec (d - 53) (emax - prec)) as [_|H]; [reflexivity|].
  unfold emax, prec in H. lia.
Qed.

(** Every int below [2^53] in magnitude has a float value. *)
Lemma convertible_below_2_53 z : Z.abs z < 2 ^ 53 -> convertible z.
Proof.
  intros Hz. unfold convertible, Py.float_of_int.
  destruct z as [|m|m]; cbn [binary_normalize].
  - eauto.
  - destruct (binary_round_small false m) as (mz & ez & ->); [lia | eauto].
  - destruct (binary_round_small true m) as (mz & ez & ->); [lia | eauto].
Qed.

(** The largest quantity the conversion accepts, and the first it refuses. *)
Lemma convertible_edge :
  convertible (2 ^ 1024 - 2 ^ 970 - 1) /\ ~ convertible (2 ^ 1024 - 2 ^ 970).
Proof.
  split.
  - eexists. vm_compute. reflexivity.
  - intros [x Hx]. vm_compute in Hx. discriminate.
Qed.

Lemma line_total_eq it :
  line_total it =
  (q <- Py.float_of_int (quantity it) ;; Some (price it * q)%float).
Proof. reflexivity. Qed.

Lemma line_total_convertible it :
  convertible (quantity it) -> line_total it = Some (line_float it).
Proof.
  intros [q Hq]. rewrite line_total_eq, Hq.
  apply float_of_int_to_float in Hq. subst q. reflexivity.
Qed.

Lemma line_total_Some it x :
  line_total it = Some x ->
  convertible (quantity it) /\ x = line_float it.
Proof.
  rewrite line_total_eq.
  destruct (Py.float_of_int (quantity it)) as [q|] eqn:Hq; [|discriminate].
  intros [= <-]. split; [exists q; exact Hq|].
  apply float_of_int_to_float in Hq. subst q. reflexivity.
Qed.

Lemma sum_cases v xs :
  Py.sum v xs = match xs with
                | [] => Py.Int 0
                | _ => Py.Float (sum_value v xs)
                end.
Proof. destruct xs; reflexivity. Qed.

Lemma sum_value_nil v : sum_value v [] = 0%float.
Proof. reflexivity. Qed.

Lemma sum_value_left_to_right xs :
  sum_value Py.left_to_right xs = float_sum xs.
Proof. destruct xs; reflexivity. Qed.

Lemma sum_value_compensated xs :
  sum_value Py.compensated xs =
  match xs with
  | [] => 0%float
  | x :: rest => Py.neumaier (0 + x) 0 rest
  end.
Proof. destruct xs; reflexivity. Qed.

Lemma sum_as_float v xs : Py.as_float (Py.sum v xs) = Some (sum_value v xs).
Proof. destruct xs; reflexivity. Qed.

Lemma mapM_line_total items :
  Forall (fun it => convertible (quantity it)) items ->
  mapM line_total items = Some (map line_float items).
Proof.
  intros H. apply mapM_map.
  intros it Hin. apply line_total_convertible.
  rewrite Forall_forall in H. auto.
Qed.

(** ** Totals *)

Lemma mapM_line_total_same_amounts l1 l2 :
  Forall2 same_amounts l1 l2 -> mapM line_total l1 = mapM line_total l2.
Proof.
  induction 1 as [|a b l1 l2 [Hp Hq] _ IH]; simpl.
  - reflexivity.
  - rewrite !line_total_eq, Hp, Hq, IH. reflexivity.
Qed.

Lemma calculate_totals_value v items :
  Forall (fun it => convertible (quantity it)) items ->
  calculate_totals v items =
    Some (match items with
          | [] => Py.Int 0
          | _ => Py.Float (sum_value v (map line_float items))
          end,
          (sum_value v (map line_float items) * 0.13)%float,
          (sum_value v (map line_float items)
           + sum_value v (map line_float items) * 0.13)%float).
Proof.
  intros H. unfold calculate_totals.
  rewrite (mapM_line_total items H).
  destruct items as [|it rest]; reflexivity.
Qed.

Lemma calculate_totals_Some v items subtotal tax total :
  calculate_totals v items = Some (subtotal, tax, total) ->
  Forall (fun it => convertible (quantity it)) items /\ formattable subtotal.
Proof.
  intros H.
  assert (Hq : Forall (fun it => convertible (quantity it)) items).
  { unfold calculate_totals in H.
    destruct (mapM line_total items) as [terms|] eqn:E; [|discriminate].
    apply mapM_Some_Forall in E.
    eapply Forall_impl; [|exact E].
    intros it [n Hn]. apply line_total_Some in Hn. tauto. }
  split; [exact Hq|].
  rewrite (calculate_totals_value v items Hq) in H.
  injection H as <- _ _.
  destruct items; eexists; reflexivity.
Qed.

(** The only error of [calculate_totals] is a quantity without a float
    value. *)
Lemma calculate_totals_raises v items :
  calculate_totals v items = None <->
  ~ Forall (fun it => convertible (quantity it)) items.
Proof.
  split.
  - intros H Hq. rewrite (calculate_totals_value v items Hq) in H.
    discriminate.
  - intros Hn.
    destruct (calculate_totals v items) as [[[subtotal tax] total]|] eqn:E;
      [|reflexivity].
    exfalso. apply Hn. eapply calculate_totals_Some. exact E.
Qed.

(** The two summations differ: on ten items of 0.10 the sum from left to
    right is 0.9999999999999999 and the compensated sum is 1.0; on ten items
    of 0.15 the tax prints as 0.19 and as 0.20. *)
Lemma summations_differ :
  sum_value Py.left_to_right (repeat 0.1%float 10) = 0.99999999999999989%float
  /\ sum_value Py.compensated (repeat 0.1%float 10) = 1%float
  /\ Py.format_float 2
       (sum_value Py.left_to_right (repeat 0.15%float 10) * TAX_RATE) = "0.19"
  /\ Py.format_float 2
       (sum_value Py.compensated (repeat 0.15%float 10) * TAX_RATE) = "0.20".
Proof. repeat split; vm_compute; reflexivity. Qed.

(** C1 (amended).  For every list of line items whose quantities have a
    finite float value, in particular whenever every quantity is below
    [2^53] in magnitude (the empty list included), [calculate_totals] returns
    without error the triple (subtotal, tax, total) where subtotal is the
    value the built-in [sum] gives for the products [price * quantity] in
    the order of the items, tax is [subtotal * 0.13] and total is
    [subtotal + tax]; for the empty list the three values are the int [0]
    and the floats [0.0] and [0.0].  The value of [sum] is that of the
    interpreter: the float additions from left to right starting from zero
    before CPython 3.12, the compensated sum from 3.12 on. *)
Theorem calculate_totals_spec (v : Py.summation) (items : list item) :
  let terms := map line_float items in
  let s := sum_value v terms in
  let result :=
    Some (match items with [] => Py.Int 0 | _ => Py.Float s end,
          (s * 0.13)%float, (s + s * 0.13)%float) in
  (Forall (fun it => convertible (quantity it)) items ->
   calculate_totals v items = result)
  /\ (Forall (fun it => Z.abs (quantity it) < 2 ^ 53) items ->
      calculate_totals v items = result)
  /\ calculate_totals v [] = Some (Py.Int 0, 0%float, 0%float)
  /\ Py.sum v terms = match items with [] => Py.Int 0 | _ => Py.Float s end
  /\ sum_value Py.left_to_right terms = fold_left PrimFloat.add terms 0%float
  /\ sum_value Py.compensated terms =
       match terms with
       | [] => 0%float
       | x :: rest => Py.neumaier (0 + x) 0 rest
       end.
Proof.
  intros terms s result. split; [|split; [|split; [|split; [|split]]]].
  - exact (calculate_totals_value v items).
  - intros H. apply calculate_totals_value.
    eapply Forall_impl; [|exact H].
    intros it. apply convertible_below_2_53.
  - reflexivity.
  - subst s terms. rewrite sum_cases. destruct items; reflexivity.
  - apply sum_value_left_to_right.
  - apply sum_value_compensated.
Qed.

Lemma calculate_totals_spec_witness :
  Forall (fun it => Z.abs (quantity it) < 2 ^ 53) oak_and_nails /\
  calculate_totals Py.left_to_right oak_and_nails =
    Some (Py.Float 60, 7.8000000000000007%float, 67.799999999999997%float) /\
  calculate_totals Py.compensated oak_and_nails =
    Some (Py.Float 60, 7.8000000000000007%float, 67.799999999999997%float).
Proof.
  assert (H : Forall (fun it => Z.abs (quantity it) < 2 ^ 53) oak_and_nails)
    by (repeat constructor; simpl; lia).
  split; [exact H|]. split.
  - exact (proj1 (proj2 (calculate_totals_spec Py.left_to_right oak_and_nails))
             H).
  - exact (proj1 (proj2 (calculate_totals_spec Py.compensated oak_and_nails))
             H).
Defined.

(** C1 as stated fails: a quantity too large for a float makes
    [price * quantity] raise, so the function is not total over all item
    lists, under either summation. *)
Lemma calculate_totals_overflow :
  calculate_totals Py.left_to_right [ Item "Oak Plank" 12.5 (2 ^ 1024) ] = None
  /\ calculate_totals Py.compensated [ Item "Oak Plank" 12.5 (2 ^ 1024) ]
     = None.
Proof. split; reflexivity. Qed.

(** C10.  [calculate_totals] does not read descriptions: two item lists of
    equal length that agree, item by item, on price and quantity give the
    same result, under either summation. *)
Theorem calculate_totals_ignores_descriptions (v : Py.summation)
    (l1 l2 : list item) :
  Forall2 same_amounts l1 l2 -> calculate_totals v l1 = calculate_totals v l2.
Proof.
  intros H. unfold calculate_totals.
  rewrite (mapM_line_total_same_amounts l1 l2 H). reflexivity.
Qed.

Lemma calculate_totals_ignores_descriptions_witness :
  Forall2 same_amounts oak_and_nails
    [ Item "Pine Board" 12.5 4; Item "" 5 2 ] /\
  calculate_totals Py.compensated oak_and_nails =
  calculate_totals Py.compensated [ Item "Pine Board" 12.5 4; Item "" 5 2 ].
Proof.
  assert (H : Forall2 same_amounts oak_and_nails
                [ Item "Pine Board" 12.5 4; Item "" 5 2 ]).
  { repeat constructor. }
  split; [exact H|].
  exact (calculate_totals_ignores_descriptions _ _ _ H).
Defined.

(** ** The renderer *)

Lemma mapM_Forall2 {A B : Type} (f : A -> option B) l : forall bs,
  mapM f l = Some bs -> Forall2 (fun a b => f a = Some b) l bs.
Proof.
  induction l as [|a l IH]; intros bs H.
  - injection H as <-. constructor.
  - apply mapM_cons_Some in H as (b & bs' & Hb & H & ->).
    constructor; auto.
Qed.

Lemma populate_mapM items : forall data,
  populate data items =
  (rows <- mapM item_row items ;; Some (data ++ rows)%list).
Proof.
  induction items as [|it rest IH]; intros data; simpl.
  - rewrite app_nil_r. reflexivity.
  - destruct (item_row it) as [r|]; [|reflexivity].
    rewrite IH. destruct (mapM item_row rest) as [rows|]; [|reflexivity].
    rewrite <- app_assoc. reflexivity.
Qed.

Lemma item_row_eq it :
  item_row it =
  (q <- Py.float_of_int (quantity it) ;; Some (row_of it q)).
Proof.
  unfold item_row. rewrite line_total_eq.
  destruct (Py.float_of_int (quantity it)); reflexivity.
Qed.

Lemma item_row_convertible it :
  convertible (quantity it) <-> exists r, item_row it = Some r.
Proof.
  rewrite item_row_eq. unfold convertible.
  destruct (Py.float_of_int (quantity it)) as [q|].
  - split; eauto.
  - split; intros [? ?]; discriminate.
Qed.

Lemma summary_rows_eq subtotal tax total :
  summary_rows subtotal tax total =
  (s <- Py.as_float subtotal ;; t <- Py.as_float tax ;;
   tot <- Py.as_float total ;; Some (summary_of s t tot)).
Proof.
  unfold summary_rows, Py.format_f.
  destruct (Py.as_float subtotal), (Py.as_float tax), (Py.as_float total);
    reflexivity.
Qed.

Section Render.
Variables (client_name phone : string) (items : list item)
  (payment_type : string) (subtotal tax total : Py.number)
  (location : string) (cash_given change : option float).

Let render := create_invoice_pdf client_name phone items payment_type
                subtotal tax total location cash_given change.

Lemma render_eq now :
  render now =
  (rows <- mapM item_row items ;;
   summary <- summary_rows subtotal tax total ;;
   Some (layout location
           (client_info client_name phone payment_type cash_given change now)
           (header_row :: rows ++ summary)
           (Z.of_nat (List.length items)))).
Proof.
  unfold render, create_invoice_pdf. rewrite populate_mapM.
  destruct (mapM item_row items); [|reflexivity].
  destruct (summary_rows subtotal tax total); reflexivity.
Qed.

Lemma render_Some now d :
  render now = Some d ->
  exists rows s t tot,
    Forall2 (fun it r => item_row it = Some r) items rows /\
    Py.as_float subtotal = Some s /\ Py.as_float tax = Some t /\
    Py.as_float total = Some tot /\
    d = layout location
          (client_info client_name phone payment_type cash_given change now)
          (header_row :: rows ++ summary_of s t tot)
          (Z.of_nat (List.length items)).
Proof.
  rewrite render_eq, summary_rows_eq.
  destruct (mapM item_row items) as [rows|] eqn:Hrows; [|discriminate].
  destruct (Py.as_float subtotal) as [s|]; [|discriminate].
  destruct (Py.as_float tax) as [t|]; [|discriminate].
  destruct (Py.as_float total) as [tot|]; [|discriminate].
  intros [= <-]. exists rows, s, t, tot.
  auto using mapM_Forall2.
Qed.
End Render.

Lemma Forall2_nth_error {A B : Type} (R : A -> B -> Prop) l l' :
  Forall2 R l l' -> forall n a,
  nth_error l n = Some a -> exists b, nth_error l' n = Some b /\ R a b.
Proof.
  induction 1 as [|x y l l' Hxy _ IH]; intros n a Hn.
  - destruct n; discriminate.
  - destruct n as [|n]; simpl in Hn.
    + injection Hn as <-. exists y. auto.
    + simpl. auto.
Qed.

Lemma nth_error_item_rows items rows tail n it :
  Forall2 (fun it r => item_row it = Some r) items rows ->
  nth_error items n = Some it ->
  exists r, item_row it = Some r /\
            nth_error (header_row :: rows ++ tail) (S n) = Some r.
Proof.
  intros H Hn.
  destruct (Forall2_nth_error _ _ _ H n it Hn) as (r & Hr & Hit).
  exists r. split; [exact Hit|].
  simpl. rewrite nth_error_app1; [exact Hr|].
  apply nth_error_Some. congruence.
Qed.

Section Rendered.
Variables (client_name phone : string) (items : list item)
  (payment_type : string) (subtotal tax total : Py.number)
  (location : string) (cash_given change : option float).

Let render := create_invoice_pdf client_name phone items payment_type
                subtotal tax total location cash_given change.

(** C2.  In the document [create_invoice_pdf] returns, the table row of
    every item shows the description, the unit price to two decimals, the
    quantity, the pre-tax line total [price * quantity] to two decimals and
    the post-tax line total, the pre-tax total times [1.13] (which is
    [1 + TAX_RATE]), to two decimals. *)
Theorem item_rows_show_line_totals (now : datetime) :
  (forall d, render now = Some d ->
     exists data widths style,
       table_of d = Some (data, widths, style) /\
       forall n it, nth_error items n = Some it ->
         exists q,
           Py.float_of_int (quantity it) = Some q /\
           nth_error data (S n) =
             Some [ P (description it) Normal;
                    P (Py.format_float 2 (price it)) Normal;
                    P (Py.str_int (quantity it)) Normal;
                    P (Py.format_float 2 (price it * q)%float) Normal;
                    P (Py.format_float 2 (price it * q * 1.13)%float) Normal ])
  /\ (1.13 = 1 + TAX_RATE)%float.
Proof.
  split; [|reflexivity].
  intros d Hd.
  apply render_Some in Hd as (rows & s & t & tot & Hrows & _ & _ & _ & ->).
  eexists _, _, _. split; [reflexivity|].
  intros n it Hn.
  destruct (nth_error_item_rows _ _ (summary_of s t tot) _ _ Hrows Hn)
    as (r & Hr & Hnth).
  rewrite item_row_eq in Hr.
  destruct (Py.float_of_int (quantity it)) as [q|]; [|discriminate].
  injection Hr as <-. exists q. split; [reflexivity | exact Hnth].
Qed.

(** C3.  In the document [create_invoice_pdf] returns, the table holds the
    header row, then exactly one row per item in the order of the input list
    (row [N] of the items is the row of item [N]), then the three summary
    rows. *)
Theorem rows_follow_items (now : datetime) (d : document) :
  render now = Some d ->
     exists rows summary widths style,
       table_of d = Some (header_row :: rows ++ summary, widths, style) /\
       List.length rows = List.length items /\
       List.length summary = 3%nat /\
       Forall2 (fun it r => item_row it = Some r) items rows /\
       forall n it, nth_error items n = Some it ->
         exists r, item_row it = Some r /\
           nth_error (header_row :: rows ++ summary) (S n) = Some r.
Proof.
  intros Hd.
  apply render_Some in Hd as (rows & s & t & tot & Hrows & _ & _ & _ & ->).
  exists rows, (summary_of s t tot). eexists _, _.
  split; [reflexivity|].
  split; [symmetry; eapply Forall2_length; exact Hrows|].
  split; [reflexivity|].
  split; [exact Hrows|].
  intros n it Hn. eapply nth_error_item_rows; eauto.
Qed.
End Rendered.

Lemma item_rows_show_line_totals_witness :
  exists d data widths style,
    sample_render morning = Some d /\
    table_of d = Some (data, widths, style) /\
    nth_error data 1 =
      Some [ P "Oak Plank" Normal; P "12.50" Normal; P "4" Normal;
             P "50.00" Normal; P "56.50" Normal ] /\
    nth_error data 2 =
      Some [ P "Nail Box" Normal; P "5.00" Normal; P "2" Normal;
             P "10.00" Normal; P "11.30" Normal ].
Proof.
  assert (H : exists d, sample_render morning = Some d)
    by (vm_compute; eexists; reflexivity).
  destruct H as [d Hd].
  destruct (proj1 (item_rows_show_line_totals "Ann Lee" "555 0100"
                     oak_and_nails "Cash" (Py.Float 60)
                     (Py.Float 7.8000000000000007)
                     (Py.Float 67.799999999999997) "NY" (Some 70%float)
                     (Some (70 - 67.799999999999997)%float) morning) d Hd)
    as (data & widths & style & Htable & Hrow).
  exists d, data, widths, style.
  split; [exact Hd|]. split; [exact Htable|].
  split.
  - destruct (Hrow 0%nat (Item "Oak Plank" 12.5 4) eq_refl) as (q & Hq0 & Hn).
    vm_compute in Hq0. injection Hq0 as <-. exact Hn.
  - destruct (Hrow 1%nat (Item "Nail Box" 5 2) eq_refl) as (q & Hq1 & Hn).
    vm_compute in Hq1. injection Hq1 as <-. exact Hn.
Defined.

Lemma rows_follow_items_witness :
  exists d rows summary widths style,
    sample_render morning = Some d /\
    table_of d = Some (header_row :: rows ++ summary, widths, style) /\
    List.length rows = 2%nat /\ List.length summary = 3%nat /\
    exists r, item_row (Item "Nail Box" 5 2) = Some r /\
              nth_error (header_row :: rows ++ summary) 2 = Some r.
Proof.
  assert (H : exists d, sample_render morning = Some d)
    by (vm_compute; eexists; reflexivity).
  destruct H as [d Hd].
  destruct (rows_follow_items "Ann Lee" "555 0100" oak_and_nails "Cash"
              (Py.Float 60) (Py.Float 7.8000000000000007)
              (Py.Float 67.799999999999997) "NY" (Some 70%float)
              (Some (70 - 67.799999999999997)%float) morning d Hd)
    as (rows & summary & widths & style & Htable & Hlen & Hsum & _ & Hnth).
  exists d, rows, summary, widths, style.
  split; [exact Hd|]. split; [exact Htable|].
  split; [exact Hlen|]. split; [exact Hsum|].
  exact (Hnth 1%nat (Item "Nail Box" 5 2) eq_refl).
Defined.

(** ** The grid and the summary block *)

Lemma table_style_grid n :
  filter is_grid (table_style n) =
  [ Cmd INNERGRID (0, 0) (-1, n) [ANum 0.25; AColor black];
    Cmd BOX (0, 0) (-1, n) [ANum 0.25; AColor black] ].
Proof. reflexivity. Qed.

(** The grid commands cover the header row and the item rows, and nothing
    below them. *)
Lemma grid_region (k : nat) c col r :
  let n := Z.of_nat k in
  In c (table_style n) -> is_grid c = true ->
  0 <= col < 5 -> 0 <= r < n + 4 ->
  (covers (n + 4) 5 c col r = true <-> r <= n).
Proof.
  intros n Hin Hgrid Hcol Hr.
  assert (Hc : In c (filter is_grid (table_style n)))
    by (apply filter_In; auto).
  rewrite table_style_grid in Hc. simpl in Hc.
  destruct Hc as [<- | [<- | []]]; geometry.
Qed.

(** No command of the table style rules the upper edge of the last row. *)
Lemma no_rule_above_last_row (k : nat) c col :
  let n := Z.of_nat k in
  In c (table_style n) -> rules_above (n + 4) 5 c col (n + 3) = false.
Proof.
  intros n Hin. simpl in Hin. split_commands Hin; geometry.
Qed.

Lemma span_region (k : nat) (j col r : Z) :
  let n := Z.of_nat k in
  1 <= j <= 3 -> 0 <= col < 5 -> 0 <= r < n + 4 ->
  (covers (n + 4) 5 (Cmd SPAN (0, j - 4) (2, j - 4) []) col r = true
   <-> col <= 2 /\ r = n + j).
Proof.
  intros n Hj Hcol Hr.
  assert (E : resolve (n + 4) (j - 4) = n + j).
  { unfold resolve. destruct (Z.ltb_spec (j - 4) 0); lia. }
  unfold covers, within. cbn [start stop fst snd]. rewrite E.
  unfold resolve. cbn [Z.ltb Z.compare].
  destruct (Z.leb_spec 0 col), (Z.leb_spec col 2), (Z.leb_spec (n + j) r),
    (Z.leb_spec r (n + j)); cbn [andb];
    split; intros; try discriminate; try reflexivity; lia.
Qed.

Lemma last_two_cells_region (k : nat) (name : command) (a : list arg)
    (j col r : Z) :
  let n := Z.of_nat k in
  1 <= j <= 3 -> 0 <= col < 5 -> 0 <= r < n + 4 ->
  (covers (n + 4) 5 (Cmd name (3, j - 4) (4, j - 4) a) col r = true
   <-> 3 <= col /\ r = n + j).
Proof.
  intros n Hj Hcol Hr.
  assert (E : resolve (n + 4) (j - 4) = n + j).
  { unfold resolve. destruct (Z.ltb_spec (j - 4) 0); lia. }
  unfold covers, within. cbn [start stop fst snd]. rewrite E.
  unfold resolve. cbn [Z.ltb Z.compare].
  destruct (Z.leb_spec 3 col), (Z.leb_spec col 4), (Z.leb_spec (n + j) r),
    (Z.leb_spec r (n + j)); cbn [andb];
    split; intros; try discriminate; try reflexivity; lia.
Qed.

Lemma lineabove_unique n c :
  In c (table_style n) -> cmd c = LINEABOVE ->
  c = Cmd LINEABOVE (3, -3) (4, -3) [ANum 0.5; AColor black].
Proof.
  intros Hin Hc. simpl in Hin.
  split_commands Hin; try discriminate Hc; reflexivity.
Qed.

Lemma table_dimensions (rows tail : list row) :
  nrows_of (header_row :: rows ++ tail) =
    Z.of_nat (List.length rows) + Z.of_nat (List.length tail) + 1
  /\ ncols_of (header_row :: rows ++ tail) = 5.
Proof.
  unfold nrows_of, ncols_of. simpl List.length. rewrite length_app.
  split; [lia | reflexivity].
Qed.

Lemma skipn_summary (rows tail : list row) :
  skipn (S (List.length rows)) (header_row :: rows ++ tail) = tail.
Proof.
  simpl. rewrite skipn_app, skipn_all, Nat.sub_diag. reflexivity.
Qed.

Section Grid.
Variables (client_name phone : string) (items : list item)
  (payment_type : string) (subtotal tax total : Py.number)
  (location : string) (cash_given change : option float).

Let render := create_invoice_pdf client_name phone items payment_type
                subtotal tax total location cash_given change.

Lemma render_table now d :
  render now = Some d ->
  exists rows s t tot,
    List.length rows = List.length items /\
    Py.as_float subtotal = Some s /\ Py.as_float tax = Some t /\
    Py.as_float total = Some tot /\
    table_of d =
      Some (header_row :: rows ++ summary_of s t tot,
            [220; 60; 40; 70; 80],
            table_style (Z.of_nat (List.length items))) /\
    nrows_of (header_row :: rows ++ summary_of s t tot) =
      Z.of_nat (List.length items) + 4 /\
    ncols_of (header_row :: rows ++ summary_of s t tot) = 5.
Proof.
  intros Hd.
  apply render_Some in Hd as (rows & s & t & tot & Hrows & Hs & Ht & Htot & ->).
  exists rows, s, t, tot.
  assert (Hlen : List.length rows = List.length items)
    by (symmetry; eapply Forall2_length; exact Hrows).
  destruct (table_dimensions rows (summary_of s t tot)) as [Hn Hc].
  repeat split; auto.
  rewrite Hn, Hlen. simpl. lia.
Qed.

(** C4 (amended).  In the document [create_invoice_pdf] returns, the outer
    border (BOX) and the interior grid (INNERGRID) are given once each, over
    all five columns, and cover the header row and the item rows (rows [0] to
    [len(items)]) and no other row: the three summary rows lie outside the
    ruled region. *)
Theorem grid_encloses_header_and_items (now : datetime) (d : document) :
  render now = Some d ->
     exists data widths style,
       table_of d = Some (data, widths, style) /\
       nrows_of data = Z.of_nat (List.length items) + 4 /\
       ncols_of data = 5 /\
       filter is_grid style =
         [ Cmd INNERGRID (0, 0) (-1, Z.of_nat (List.length items))
             [ANum 0.25; AColor black];
           Cmd BOX (0, 0) (-1, Z.of_nat (List.length items))
             [ANum 0.25; AColor black] ] /\
       forall c, In c style -> is_grid c = true ->
       forall col r, 0 <= col < ncols_of data -> 0 <= r < nrows_of data ->
         (covers (nrows_of data) (ncols_of data) c col r = true
          <-> r <= Z.of_nat (List.length items)).
Proof.
  intros Hd.
  apply render_table in Hd
    as (rows & s & t & tot & _ & _ & _ & _ & Htable & Hn & Hc).
  eexists _, _, _. split; [exact Htable|].
  split; [exact Hn|]. split; [exact Hc|].
  split; [apply table_style_grid|].
  intros c Hin Hgrid col r. rewrite Hn, Hc.
  apply grid_region; assumption.
Qed.

(** C5 (amended).  In the document [create_invoice_pdf] returns, the last
    three rows of the table are the summary rows: each has three empty cells
    merged by a SPAN over the first three columns, then a label and a value
    ("Subtotal", "Tax (13%)", "<b>TOTAL</b>" with the value in bold markup).
    The last two cells of the TOTAL row, the last row, are set in
    Helvetica-Bold on a light grey background.  The one LINEABOVE command
    rules above the last two cells of the first summary row (Subtotal); no
    command rules the upper edge of the TOTAL row. *)
Theorem summary_block (now : datetime) (d : document) :
  render now = Some d ->
     exists data widths style s t tot,
       let n := Z.of_nat (List.length items) in
       let nrows := nrows_of data in
       let ncols := ncols_of data in
       let in_table col r := 0 <= col < ncols /\ 0 <= r < nrows in
       table_of d = Some (data, widths, style) /\
       nrows = n + 4 /\ ncols = 5 /\
       Py.as_float subtotal = Some s /\ Py.as_float tax = Some t /\
       Py.as_float total = Some tot /\
       skipn (S (List.length items)) data =
         [ [ Str ""; Str ""; Str ""; P "Subtotal" Normal;
             P (Py.format_float 2 s) Normal ];
           [ Str ""; Str ""; Str ""; P "Tax (13%)" Normal;
             P (Py.format_float 2 t) Normal ];
           [ Str ""; Str ""; Str ""; P "<b>TOTAL</b>" Normal;
             P ("<b>" ++ Py.format_float 2 tot ++ "</b>") Normal ] ] /\
       (forall j, 1 <= j <= 3 ->
          exists c, In c style /\ cmd c = SPAN /\
            forall col r, in_table col r ->
              (covers nrows ncols c col r = true <-> col <= 2 /\ r = n + j)) /\
       (exists c, In c style /\ cmd c = FONTNAME /\
          args c = [AStr "Helvetica-Bold"] /\
          forall col r, in_table col r ->
            (covers nrows ncols c col r = true <-> 3 <= col /\ r = n + 3)) /\
       (exists c, In c style /\ cmd c = BACKGROUND /\
          args c = [AColor lightgrey] /\
          forall col r, in_table col r ->
            (covers nrows ncols c col r = true <-> 3 <= col /\ r = n + 3)) /\
       (exists c, In c style /\ cmd c = LINEABOVE) /\
       (forall c, In c style -> cmd c = LINEABOVE ->
          forall col r, in_table col r ->
            (rules_above nrows ncols c col r = true
             <-> 3 <= col /\ r = n + 1)) /\
       (forall c col, In c style ->
          rules_above nrows ncols c col (nrows - 1) = false).
Proof.
  intros Hd.
  apply render_table in Hd
    as (rows & s & t & tot & Hlen & Hs & Ht & Htot & Htable & Hn & Hc).
  eexists _, _, _, s, t, tot. cbv zeta.
  split; [exact Htable|]. rewrite Hn, Hc.
  split; [reflexivity|]. split; [reflexivity|].
  split; [exact Hs|]. split; [exact Ht|]. split; [exact Htot|].
  split; [rewrite <- Hlen; apply skipn_summary|].
  set (k := List.length items).
  split.
  { intros j Hj. exists (Cmd SPAN (0, j - 4) (2, j - 4) []).
    split.
    - assert (Ej : j = 1 \/ j = 2 \/ j = 3) by lia.
      destruct Ej as [-> | [-> | ->]]; simpl; tauto.
    - split; [reflexivity|].
      intros col r [Hcol Hr]. apply span_region; assumption. }
  split.
  { exists (Cmd FONTNAME (3, 3 - 4) (4, 3 - 4) [AStr "Helvetica-Bold"]).
    split; [simpl; tauto|]. split; [reflexivity|]. split; [reflexivity|].
    intros col r [Hcol Hr]. apply last_two_cells_region; [lia | |]; assumption. }
  split.
  { exists (Cmd BACKGROUND (3, 3 - 4) (4, 3 - 4) [AColor lightgrey]).
    split; [simpl; tauto|]. split; [reflexivity|]. split; [reflexivity|].
    intros col r [Hcol Hr]. apply last_two_cells_region; [lia | |]; assumption. }
  split.
  { exists (Cmd LINEABOVE (3, -3) (4, -3) [ANum 0.5; AColor black]).
    split; [simpl; tauto | reflexivity]. }
  split.
  { intros c Hin Hcmd col r [Hcol Hr].
    rewrite (lineabove_unique _ c Hin Hcmd).
    change (rules_above (Z.of_nat k + 4) 5
              (Cmd LINEABOVE (3, -3) (4, -3) [ANum 0.5; AColor black]) col r)
      with (covers (Z.of_nat k + 4) 5
              (Cmd LINEABOVE (3, 1 - 4) (4, 1 - 4) [ANum 0.5; AColor black])
              col r).
    apply last_two_cells_region; [lia | |]; assumption. }
  intros c col Hin.
  replace (Z.of_nat k + 4 - 1) with (Z.of_nat k + 3) by lia.
  apply no_rule_above_last_row. exact Hin.
Qed.
End Grid.

Lemma grid_encloses_header_and_items_witness :
  exists d data widths style,
    sample_render morning = Some d /\
    table_of d = Some (data, widths, style) /\
    nrows_of data = 6 /\ ncols_of data = 5 /\
    filter is_grid style =
      [ Cmd INNERGRID (0, 0) (-1, 2) [ANum 0.25; AColor black];
        Cmd BOX (0, 0) (-1, 2) [ANum 0.25; AColor black] ].
Proof.
  assert (H : exists d, sample_render morning = Some d)
    by (vm_compute; eexists; reflexivity).
  destruct H as [d Hd].
  destruct (grid_encloses_header_and_items "Ann Lee" "555 0100" oak_and_nails
              "Cash" (Py.Float 60) (Py.Float 7.8000000000000007)
              (Py.Float 67.799999999999997) "NY" (Some 70%float)
              (Some (70 - 67.799999999999997)%float) morning d Hd)
    as (data & widths & style & Htable & Hn & Hc & Hf & _).
  exists d, data, widths, style.
  repeat split; assumption.
Defined.

(** C4 as stated fails: on the two-item invoice the border and the grid stop
    at the last item row, and the summary rows are not enclosed. *)
Lemma grid_leaves_summary_rows_out :
  exists d, sample_render morning = Some d /\ ~ grid_encloses_whole_table d.
Proof.
  eexists. split; [vm_compute; reflexivity|].
  intros (data & widths & style & Htable & Hall).
  vm_compute in Htable. injection Htable as <- <- <-.
  specialize (Hall (Cmd BOX (0, 0) (-1, 2) [ANum 0.25; AColor black])).
  assert (Hcov : covers 6 5 (Cmd BOX (0, 0) (-1, 2) [ANum 0.25; AColor black])
                   4 5 = true).
  { apply Hall.
    - simpl. tauto.
    - reflexivity.
    - vm_compute. split; [discriminate | reflexivity].
    - vm_compute. split; [discriminate | reflexivity]. }
  discriminate Hcov.
Qed.

Lemma summary_block_witness :
  exists d data widths style,
    sample_render morning = Some d /\
    table_of d = Some (data, widths, style) /\
    skipn 3 data =
      [ [ Str ""; Str ""; Str ""; P "Subtotal" Normal; P "60.00" Normal ];
        [ Str ""; Str ""; Str ""; P "Tax (13%)" Normal; P "7.80" Normal ];
        [ Str ""; Str ""; Str ""; P "<b>TOTAL</b>" Normal;
          P "<b>67.80</b>" Normal ] ] /\
    forall c col, In c style ->
      rules_above (nrows_of data) (ncols_of data) c col (nrows_of data - 1)
        = false.
Proof.
  assert (H : exists d, sample_render morning = Some d)
    by (vm_compute; eexists; reflexivity).
  destruct H as [d Hd].
  destruct (summary_block "Ann Lee" "555 0100" oak_and_nails
              "Cash" (Py.Float 60) (Py.Float 7.8000000000000007)
              (Py.Float 67.799999999999997) "NY" (Some 70%float)
              (Some (70 - 67.799999999999997)%float) morning d Hd)
    as (data & widths & style & s & t & tot & Htable & _ & _ & Es & Et & Etot
        & Hrows & _ & _ & _ & _ & _ & Hno).
  injection Es as <-. injection Et as <-. injection Etot as <-.
  exists d, data, widths, style.
  split; [exact Hd|]. split; [exact Htable|].
  split; [exact Hrows | exact Hno].
Defined.

(** C5 as stated fails: on the two-item invoice no style command rules the
    upper edge of the TOTAL row. *)
Lemma total_row_has_no_rule_above :
  exists d, sample_render morning = Some d /\ ~ total_row_ruled_above d.
Proof.
  eexists. split; [vm_compute; reflexivity|].
  intros (data & widths & style & Htable & c & col & Hin & Hrule).
  vm_compute in Htable. injection Htable as <- <- <-.
  assert (Hno := no_rule_above_last_row 2 c col Hin).
  exact (eq_true_false_abs _ Hrule Hno).
Qed.

(** ** Float comparisons *)

Lemma SFcompare_swap a b :
  SFcompare b a = option_map CompOpp (SFcompare a b).
Proof.
  destruct a as [sa | sa | | sa ma ea], b as [sb | sb | | sb mb eb];
    simpl; try reflexivity;
    try (destruct sa; reflexivity); try (destruct sb; reflexivity);
    try (destruct sa, sb; reflexivity).
  assert (H : PosDef.Pos.compare_cont Eq mb ma =
              CompOpp (PosDef.Pos.compare_cont Eq ma mb))
    by (symmetry; exact (Pos.compare_cont_antisym ma mb Eq)).
  rewrite (Z.compare_antisym ea eb).
  destruct sa, sb; simpl; try reflexivity;
    destruct (ea ?= eb); simpl; try reflexivity;
    rewrite H; destruct (PosDef.Pos.compare_cont Eq ma mb); reflexivity.
Qed.

Lemma SFcompare_None a b :
  SFcompare a b = None -> a = S754_nan \/ b = S754_nan.
Proof.
  destruct a, b; simpl; try discriminate; auto.
Qed.

Lemma leb_is_number x y :
  (x <=? y)%float = true -> is_number x /\ is_number y.
Proof.
  rewrite leb_spec. unfold SFleb, is_number.
  destruct (SFcompare (Prim2SF x) (Prim2SF y)) eqn:E; [|discriminate].
  intros _. split; intros H; rewrite H in E;
    [|destruct (Prim2SF x)]; discriminate.
Qed.

Lemma ltb_is_number x y :
  (x <? y)%float = true -> is_number x /\ is_number y.
Proof.
  rewrite ltb_spec. unfold SFltb, is_number.
  destruct (SFcompare (Prim2SF x) (Prim2SF y)) eqn:E; [|discriminate].
  intros _. split; intros H; rewrite H in E;
    [|destruct (Prim2SF x)]; discriminate.
Qed.

(** On numbers, [not (c < t)] is [c >= t]. *)
Lemma not_ltb_iff_geb c t :
  is_number c -> is_number t ->
  ((c <? t)%float = false <-> (t <=? c)%float = true).
Proof.
  unfold is_number. intros Hc Ht.
  rewrite ltb_spec, leb_spec. unfold SFltb, SFleb.
  rewrite (SFcompare_swap (Prim2SF c) (Prim2SF t)).
  destruct (SFcompare (Prim2SF c) (Prim2SF t)) as [[]|] eqn:E; simpl;
    try (split; intros; (discriminate || reflexivity)).
  apply SFcompare_None in E. tauto.
Qed.

(** ** Strings *)

Lemma append_assoc (a b c : string) : ((a ++ b) ++ c = a ++ (b ++ c))%string.
Proof. induction a as [|x a IH]; simpl; [reflexivity | now rewrite IH]. Qed.

Lemma length_append (a b : string) :
  String.length (a ++ b) = (String.length a + String.length b)%nat.
Proof. induction a as [|x a IH]; simpl; [reflexivity | now rewrite IH]. Qed.

Lemma all_chars_append p (a b : string) :
  all_chars p (a ++ b) = all_chars p a && all_chars p b.
Proof.
  induction a as [|x a IH]; simpl; [reflexivity|].
  rewrite IH. apply andb_assoc.
Qed.

Lemma replace_length old new s :
  String.length (Py.replace old new s) = String.length s.
Proof. induction s as [|c s IH]; simpl; [reflexivity | now rewrite IH]. Qed.

Lemma replace_get old new s : forall i,
  String.get i (Py.replace old new s) =
  option_map (fun c => if Ascii.eqb c old then new else c) (String.get i s).
Proof.
  induction s as [|c s IH]; intros i; simpl.
  - reflexivity.
  - destruct i as [|i]; [reflexivity | apply IH].
Qed.

Lemma replace_no_old old new s :
  old <> new ->
  all_chars (fun c => negb (Ascii.eqb c old)) (Py.replace old new s) = true.
Proof.
  intros Hne. induction s as [|c s IH]; simpl; [reflexivity|].
  rewrite IH, andb_true_r.
  destruct (Ascii.eqb_spec c old) as [->|Hc].
  - destruct (Ascii.eqb_spec new old); [congruence | reflexivity].
  - destruct (Ascii.eqb_spec c old); [congruence | reflexivity].
Qed.

Lemma field_ok_below (width : nat) (bound : Z) :
  forallb (fun n => field_ok width (Z.of_nat n)) (seq 0 (Z.to_nat bound))
    = true ->
  forall z, 0 <= z < bound -> field_ok width z = true.
Proof.
  intros H z Hz. rewrite forallb_forall in H.
  rewrite <- (Z2Nat.id z) by lia.
  apply H. apply in_seq. lia.
Qed.

Lemma field2_ok z : 0 <= z <= 99 -> field_ok 2 z = true.
Proof.
  intros Hz. apply (field_ok_below 2 100); [vm_compute; reflexivity | lia].
Qed.

Lemma field4_ok z : 0 <= z <= 9999 -> field_ok 4 z = true.
Proof.
  intros Hz. apply (field_ok_below 4 10000); [vm_compute; reflexivity | lia].
Qed.

Lemma file_stamp_eq t :
  strftime "%Y%m%d_%H%M%S" t =
  Py.zero_pad 4 (year t) ++ Py.zero_pad 2 (month t) ++ Py.zero_pad 2 (day t) ++ "_" ++
  Py.zero_pad 2 (hour t) ++ Py.zero_pad 2 (minute t) ++ Py.zero_pad 2 (second t) ++ "".
Proof. reflexivity. Qed.

Lemma file_stamp_shape t :
  valid_datetime t ->
  String.length (strftime "%Y%m%d_%H%M%S" t) = 15%nat /\
  all_chars (fun c => is_digit c || Ascii.eqb c "_")
    (strftime "%Y%m%d_%H%M%S" t) = true.
Proof.
  intros (Hy & Hm & Hd & HH & HM & HS).
  rewrite file_stamp_eq.
  pose proof (field4_ok (year t) ltac:(lia)) as Fy.
  pose proof (field2_ok (month t) ltac:(lia)) as Fm.
  pose proof (field2_ok (day t) ltac:(lia)) as Fd.
  pose proof (field2_ok (hour t) ltac:(lia)) as FH.
  pose proof (field2_ok (minute t) ltac:(lia)) as FM.
  pose proof (field2_ok (second t) ltac:(lia)) as FS.
  unfold field_ok in *.
  apply andb_true_iff in Fy as [Ly Dy], Fm as [Lm Dm], Fd as [Ld Dd],
    FH as [LH DH], FM as [LM DM], FS as [LS DS].
  apply Nat.eqb_eq in Ly, Lm, Ld, LH, LM, LS.
  split.
  - rewrite !length_append, Ly, Lm, Ld, LH, LM, LS. reflexivity.
  - assert (W : forall s, all_chars is_digit s = true ->
               all_chars (fun c => is_digit c || Ascii.eqb c "_") s = true).
    { induction s as [|c s IH]; simpl; [reflexivity|].
      intros H. apply andb_true_iff in H as [-> H]. simpl. auto. }
    rewrite !all_chars_append.
    rewrite (W _ Dy), (W _ Dm), (W _ Dd), (W _ DH), (W _ DM), (W _ DS).
    reflexivity.
Qed.

(** ** The page *)

Lemma run_eq v f clock :
  run v f clock =
  ('(subtotal, tax, total) <- calculate_totals v (invoice_items f) ;;
   let cs := fst (cash_handling (payment_type f) total (cash_input f)) in
   if fst (validate (client_name f) (phone f) (invoice_items f)
             (payment_type f) total (cash_given cs))
   then
     d <- create_invoice_pdf (client_name f) (phone f) (invoice_items f)
            (payment_label (payment_type f)) subtotal (Py.Float tax)
            (Py.Float total) (location f) (cash_given cs) (change cs)
            (clock 0%nat) ;;
     Some (shown_above f total ++
           [ balloons;
             download_button "✅ Download Invoice PDF" d
               (file_name_of (client_name f) (phone f) (clock 1%nat))
               "application/pdf";
             success "Invoice PDF has been generated and is ready for download." ])%list
   else Some (shown_above f total ++ [disabled_button])%list).
Proof.
  unfold run, shown_above.
  destruct (calculate_totals v (invoice_items f)) as [[[subtotal tax] total]|];
    [|reflexivity].
  destruct (cash_handling (payment_type f) total (cash_input f)) as [cs shown].
  cbn [fst snd].
  destruct (validate (client_name f) (phone f) (invoice_items f)
              (payment_type f) total (cash_given cs)) as [[] errs];
    reflexivity.
Qed.

Lemma shown_above_no_download f total label d name mime :
  ~ In (download_button label d name mime) (shown_above f total).
Proof.
  unfold shown_above. intros H.
  apply in_app_or in H as [H | H]; [destruct H as [H | []]; discriminate|].
  apply in_app_or in H as [H | H].
  - unfold cash_handling in H.
    destruct (is_cash (payment_type f)), (0 <? total)%float,
      (total <=? cash_input f)%float; simpl in H;
      repeat (destruct H as [H | H]; try discriminate H); assumption.
  - apply in_map_iff in H as (msg & Hmsg & _). discriminate.
Qed.

Lemma truthy_str_true s : Py.truthy_str s = true <-> s <> "".
Proof. destruct s; simpl; split; congruence. Qed.

Lemma truthy_list_true {A : Type} (l : list A) :
  Py.truthy_list l = true <-> l <> [].
Proof. destruct l; simpl; split; congruence. Qed.

Lemma is_cash_true p : is_cash p = true <-> p = Cash.
Proof. destruct p; simpl; split; (reflexivity || discriminate). Qed.

Lemma validate_eq name phone items p total cg :
  validate name phone items p total cg =
  let filled := Py.truthy_str name && Py.truthy_str phone
                && Py.truthy_list items in
  (filled && negb (cash_short p total cg),
   ((if filled then [] else [required_msg])
    ++ (if cash_short p total cg then [insufficient_msg] else []))%list).
Proof.
  unfold validate, cash_short.
  destruct (Py.truthy_str name), (Py.truthy_str phone), (Py.truthy_list items),
    (is_cash p), (0 <? total)%float;
    simpl; try reflexivity; destruct cg as [c|];
    try destruct (c <? total)%float; reflexivity.
Qed.

Lemma cash_given_of_handling p total cash :
  cash_given (fst (cash_handling p total cash)) =
  if is_cash p then Some cash else None.
Proof.
  unfold cash_handling.
  destruct (is_cash p), (0 <? total)%float, (total <=? cash)%float;
    reflexivity.
Qed.

Lemma change_of_handling p total cash :
  change (fst (cash_handling p total cash)) =
  if is_cash p && (0 <? total)%float && (total <=? cash)%float
  then Some (cash - total)%float else None.
Proof.
  unfold cash_handling.
  destruct (is_cash p), (0 <? total)%float, (total <=? cash)%float;
    reflexivity.
Qed.

Lemma Some_eq {A : Type} (x y : A) : Some x = Some y -> y = x.
Proof. congruence. Qed.

Lemma run_offered v f clock out label d name mime :
  run v f clock = Some out ->
  In (download_button label d name mime) out ->
  exists subtotal tax total,
    calculate_totals v (invoice_items f) = Some (subtotal, tax, total) /\
    let cs := fst (cash_handling (payment_type f) total (cash_input f)) in
    fst (validate (client_name f) (phone f) (invoice_items f)
           (payment_type f) total (cash_given cs)) = true /\
    create_invoice_pdf (client_name f) (phone f) (invoice_items f)
      (payment_label (payment_type f)) subtotal (Py.Float tax)
      (Py.Float total) (location f) (cash_given cs) (change cs)
      (clock 0%nat) = Some d /\
    name = file_name_of (client_name f) (phone f) (clock 1%nat).
Proof.
  rewrite run_eq.
  destruct (calculate_totals v (invoice_items f)) as [[[subtotal tax] total]|];
    [|discriminate].
  cbv zeta.
  destruct (fst (validate _ _ _ _ _ _)) eqn:Hok.
  - destruct (create_invoice_pdf _ _ _ _ _ _ _ _ _ _ _) as [d'|] eqn:Hd;
      [|discriminate].
    intros H Hin. apply Some_eq in H. subst out.
    exists subtotal, tax, total.
    apply in_app_or in Hin as [Hin | Hin].
    + now apply shown_above_no_download in Hin.
    + simpl in Hin. destruct Hin as [Hin | [Hin | [Hin | []]]];
        try discriminate Hin.
      injection Hin as _ <- <- _. auto.
  - intros H Hin. apply Some_eq in H. subst out.
    apply in_app_or in Hin as [Hin | Hin].
    + now apply shown_above_no_download in Hin.
    + destruct Hin as [Hin | []]. discriminate.
Qed.

Lemma not_offered_blocked f total :
  ~ offered (shown_above f total ++ [disabled_button])%list.
Proof.
  intros (label & d & name & mime & Hin).
  apply in_app_or in Hin as [Hin | [Hin | []]];
    [apply shown_above_no_download in Hin; exact Hin | discriminate Hin].
Qed.

(** A run whose validations fail makes no document and ends with the
    disabled button. *)
Lemma run_blocked v f clock subtotal tax total :
  calculate_totals v (invoice_items f) = Some (subtotal, tax, total) ->
  fst (validate (client_name f) (phone f) (invoice_items f)
         (payment_type f) total
         (cash_given (fst (cash_handling (payment_type f) total
                             (cash_input f))))) = false ->
  run v f clock = Some (shown_above f total ++ [disabled_button])%list.
Proof.
  intros Htot Hok. rewrite run_eq, Htot. cbv zeta. rewrite Hok. reflexivity.
Qed.

(** A run that ends has either passed the validations and offers the
    download, or failed them and shows the disabled button. *)
Lemma run_ends v f clock subtotal tax total out :
  calculate_totals v (invoice_items f) = Some (subtotal, tax, total) ->
  run v f clock = Some out ->
  let ok := fst (validate (client_name f) (phone f) (invoice_items f)
                   (payment_type f) total
                   (cash_given (fst (cash_handling (payment_type f) total
                                       (cash_input f))))) in
  (ok = true /\ offered out /\
   exists tail, out = (shown_above f total ++ tail)%list)
  \/ (ok = false /\ out = (shown_above f total ++ [disabled_button])%list).
Proof.
  intros Htot Hrun. rewrite run_eq, Htot in Hrun. cbv zeta in Hrun |- *.
  destruct (fst (validate _ _ _ _ _ _)) eqn:Hok.
  - left. split; [reflexivity|].
    destruct (create_invoice_pdf _ _ _ _ _ _ _ _ _ _ _) as [d|];
      [|discriminate].
    apply Some_eq in Hrun. subst out. split; [|eauto].
    unfold offered. do 4 eexists.
    apply in_or_app. right. right. left. reflexivity.
  - right. apply Some_eq in Hrun. auto.
Qed.

Lemma in_shown_above_error f total msg :
  In msg (snd (validate (client_name f) (phone f) (invoice_items f)
                 (payment_type f) total
                 (cash_given (fst (cash_handling (payment_type f) total
                                     (cash_input f)))))) ->
  In (error msg) (shown_above f total).
Proof.
  intros H. unfold shown_above. apply in_or_app. right.
  apply in_or_app. right. apply in_map. exact H.
Qed.

Lemma client_info_of_page p total cash name phone now :
  client_info name phone (payment_label p)
    (cash_given (fst (cash_handling p total cash)))
    (change (fst (cash_handling p total cash))) now =
  if is_cash p && (0 <? total)%float && (total <=? cash)%float
  then client_base name phone (payment_label p) now
       ++ cash_lines cash (cash - total)%float
  else client_base name phone (payment_label p) now.
Proof.
  unfold client_info.
  rewrite cash_given_of_handling, change_of_handling.
  change (String.eqb (payment_label p) "Cash") with (is_cash p).
  destruct (is_cash p), (0 <? total)%float, (total <=? cash)%float;
    reflexivity.
Qed.

(** C6 (amended).  The renderer appends the cash-given and change lines, each
    amount to two decimals, to the client block exactly when the payment type
    is "Cash" and both amounts are supplied.  On the page that is a cash
    payment against a positive total that the cash covers, the only case in
    which change is computed; for a cash payment with a total not above zero,
    and for Debit and Credit, the lines are absent. *)
Theorem cash_lines_in_client_block :
  (forall client_name phone items payment_type subtotal tax total location
          cash_given change now d,
     create_invoice_pdf client_name phone items payment_type subtotal tax
       total location cash_given change now = Some d ->
     let base := client_base client_name phone payment_type now in
     nth_error (elements d) 4 =
       Some (Paragraph
               (client_info client_name phone payment_type cash_given change
                  now) Normal) /\
     client_info client_name phone payment_type cash_given change now =
       match String.eqb payment_type "Cash", cash_given, change with
       | true, Some cg, Some ch =>
           base ++ "<b>Cash Given:</b> $" ++ Py.format_float 2 cg ++
           "<br/><b>Change:</b> $" ++ Py.format_float 2 ch ++ "<br/>"
       | _, _, _ => base
       end)
  /\ (forall v f clock out label d name mime,
        run v f clock = Some out ->
        In (download_button label d name mime) out ->
        exists subtotal tax total info,
          calculate_totals v (invoice_items f) = Some (subtotal, tax, total) /\
          nth_error (elements d) 4 = Some (Paragraph info Normal) /\
          let base := client_base (client_name f) (phone f)
                        (payment_label (payment_type f)) (clock 0%nat) in
          let cash := cash_input f in
          info =
            match payment_type f with
            | Cash =>
                if (0 <? total)%float && (total <=? cash)%float
                then base ++ "<b>Cash Given:</b> $" ++ Py.format_float 2 cash
                     ++ "<br/><b>Change:</b> $"
                     ++ Py.format_float 2 (cash - total)%float ++ "<br/>"
                else base
            | Debit | Credit => base
            end).
Proof.
  split.
  - intros client_name phone items payment_type subtotal tax total location
      cash_given change now d Hd.
    apply render_Some in Hd as (rows & s & t & tot & _ & _ & _ & _ & ->).
    split; [reflexivity|].
    unfold client_info.
    destruct (String.eqb payment_type "Cash"), cash_given, change;
      reflexivity.
  - intros v f clock out label d name mime Hrun Hin.
    destruct (run_offered _ _ _ _ _ _ _ _ Hrun Hin)
      as (subtotal & tax & total & Htot & _ & Hd & _).
    apply render_Some in Hd as (rows & s & t & tot & _ & _ & _ & _ & ->).
    exists subtotal, tax, total.
    eexists. split; [exact Htot|]. split; [reflexivity|].
    rewrite client_info_of_page.
    destruct (payment_type f); reflexivity.
Qed.

Lemma cash_lines_in_client_block_witness :
  exists out label d name mime info,
    run Py.compensated ann steady = Some out /\
    In (download_button label d name mime) out /\
    nth_error (elements d) 4 = Some (Paragraph info Normal) /\
    info = client_base "Ann Lee" "555 0100" "Cash" morning ++
           "<b>Cash Given:</b> $70.00<br/><b>Change:</b> $2.20<br/>".
Proof.
  assert (Hoffer : exists out label d name mime,
            run Py.compensated ann steady = Some out /\
            In (download_button label d name mime) out).
  { vm_compute. eexists _, _, _, _, _. split; [reflexivity|].
    do 3 right. left. reflexivity. }
  destruct Hoffer as (out & label & d & name & mime & Hrun & Hin).
  destruct (proj2 cash_lines_in_client_block Py.compensated ann steady out
              label d name mime
              Hrun Hin)
    as (subtotal & tax & total & info & Htot & Hnth & Hinfo).
  vm_compute in Htot. injection Htot as <- <- <-.
  exists out, label, d, name, mime, info.
  split; [exact Hrun|]. split; [exact Hin|]. split; [exact Hnth|].
  exact Hinfo.
Defined.

(** C6 as stated fails: a cash invoice with a zero total is rendered without
    the cash-given and change lines. *)
Lemma cash_render_without_cash_lines :
  exists out label d name mime info,
    run Py.compensated free_tile steady = Some out /\
    In (download_button label d name mime) out /\
    nth_error (elements d) 4 = Some (Paragraph info Normal) /\
    contains "Cash Given" info = false /\
    contains "Change" info = false.
Proof.
  vm_compute. eexists _, _, _, _, _, _.
  split; [reflexivity|].
  split; [do 2 right; left; reflexivity|].
  split; [reflexivity|].
  split; reflexivity.
Qed.

Lemma cash_short_of_page p total cash :
  cash_short p total (cash_given (fst (cash_handling p total cash))) =
  is_cash p && (0 <? total)%float && (cash <? total)%float.
Proof.
  rewrite cash_given_of_handling. unfold cash_short.
  destruct (is_cash p); reflexivity.
Qed.

(** The gate of the page, as the two validations decide it. *)
Lemma gate_open_iff f total :
  (payment_type f = Cash -> (0 <=? cash_input f)%float = true) ->
  fst (validate (client_name f) (phone f) (invoice_items f) (payment_type f)
         total
         (cash_given (fst (cash_handling (payment_type f) total
                             (cash_input f))))) = true
  <-> client_name f <> "" /\ phone f <> "" /\ invoice_items f <> [] /\
      (payment_type f = Cash -> (0 <? total)%float = true ->
       (total <=? cash_input f)%float = true).
Proof.
  intros Hcash.
  rewrite validate_eq. cbv zeta. cbn [fst].
  rewrite cash_short_of_page.
  rewrite !andb_true_iff, negb_true_iff.
  rewrite truthy_str_true, truthy_str_true, truthy_list_true.
  destruct (is_cash (payment_type f)) eqn:Hp.
  - apply is_cash_true in Hp.
    pose proof (Hcash Hp) as Hnum. apply leb_is_number in Hnum as [_ Hnum].
    destruct (0 <? total)%float eqn:Hpos; cbn [andb].
    + apply ltb_is_number in Hpos as [_ Htotal].
      rewrite (not_ltb_iff_geb _ _ Hnum Htotal). tauto.
    + split; [intros [[[? ?] ?] _] | intros (? & ? & ? & _)];
        repeat split; auto; discriminate.
  - assert (Hne : payment_type f <> Cash).
    { intros E. apply is_cash_true in E. congruence. }
    cbn [andb]. tauto.
Qed.

(** C7.  With the cash amount a number not below zero, as its input field
    gives it: the validations of the page pass ([can_generate_pdf] is true,
    so that the document is generated and the download built) if and only if
    the client name, the phone and the item list are all non-empty and, for
    a cash payment with a total above zero, the cash given is at least the
    total.  In every run of the page that ends, the download is offered under
    exactly these conditions, and otherwise the disabled button is shown.  A
    run in which the conditions fail makes no document and always ends, with
    the disabled button; when the cash is short it shows the
    insufficient-cash error.  At a total of 100.00, cash of 100.00 passes the
    validations with change 0.00 and cash of 99.99 is blocked.  (A run in
    which the conditions hold calls the renderer, and ends when that call
    returns.) *)
Theorem download_gate (v : Py.summation) (f : form) (clock : nat -> datetime)
    subtotal tax total :
  (payment_type f = Cash -> (0 <=? cash_input f)%float = true) ->
  calculate_totals v (invoice_items f) = Some (subtotal, tax, total) ->
  (fst (validate (client_name f) (phone f) (invoice_items f) (payment_type f)
          total
          (cash_given (fst (cash_handling (payment_type f) total
                              (cash_input f))))) = true
   <-> client_name f <> "" /\ phone f <> "" /\ invoice_items f <> [] /\
       (payment_type f = Cash -> (0 <? total)%float = true ->
        (total <=? cash_input f)%float = true)) /\
  (forall out, run v f clock = Some out ->
     (offered out <->
        client_name f <> "" /\ phone f <> "" /\ invoice_items f <> [] /\
        (payment_type f = Cash -> (0 <? total)%float = true ->
         (total <=? cash_input f)%float = true)) /\
     (~ offered out -> In disabled_button out)) /\
  (~ (client_name f <> "" /\ phone f <> "" /\ invoice_items f <> [] /\
      (payment_type f = Cash -> (0 <? total)%float = true ->
       (total <=? cash_input f)%float = true)) ->
   exists out, run v f clock = Some out /\ ~ offered out /\
     In disabled_button out) /\
  (payment_type f = Cash -> (0 <? total)%float = true ->
   (total <=? cash_input f)%float = false ->
   exists out, run v f clock = Some out /\
     In (error insufficient_msg) out /\ ~ offered out /\
     In disabled_button out) /\
  (payment_type f = Cash -> total = 100%float ->
   (cash_input f = 100%float ->
    (fst (validate (client_name f) (phone f) (invoice_items f)
            (payment_type f) total
            (cash_given (fst (cash_handling (payment_type f) total
                                (cash_input f))))) = true <->
     client_name f <> "" /\ phone f <> "" /\ invoice_items f <> []) /\
    change (fst (cash_handling Cash total (cash_input f))) = Some 0%float /\
    forall out, run v f clock = Some out ->
      In (success "Change to return: **$0.00**") out /\
      (offered out <->
         client_name f <> "" /\ phone f <> "" /\ invoice_items f <> [])) /\
   (cash_input f = 99.99%float ->
    exists out, run v f clock = Some out /\
      In (error insufficient_msg) out /\ ~ offered out /\
      In disabled_button out)).
Proof.
  intros Hcash Htot.
  pose proof (gate_open_iff f total Hcash) as Hgate.
  pose proof (run_blocked v f clock subtotal tax total Htot) as Hblocked.
  assert (Hends : forall out, run v f clock = Some out ->
            (offered out <->
               client_name f <> "" /\ phone f <> "" /\ invoice_items f <> [] /\
               (payment_type f = Cash -> (0 <? total)%float = true ->
                (total <=? cash_input f)%float = true)) /\
            (~ offered out -> In disabled_button out) /\
            exists tail, out = (shown_above f total ++ tail)%list).
  { intros out Hrun.
    destruct (run_ends v f clock subtotal tax total out Htot Hrun)
      as [(Hok & Hoff & Htail) | (Hok & ->)].
    - split; [|split; [|exact Htail]].
      + split; [intros _; apply Hgate, Hok | intros _; exact Hoff].
      + intros Hno. contradiction.
    - split; [|split; [|eauto]].
      + split.
        * intros Hoff. exfalso. exact (not_offered_blocked _ _ Hoff).
        * intros Hc. apply Hgate in Hc. congruence.
      + intros _. apply in_or_app. right. left. reflexivity. }
  assert (Hclosed : fst (validate (client_name f) (phone f) (invoice_items f)
                           (payment_type f) total
                           (cash_given (fst (cash_handling (payment_type f)
                                               total (cash_input f)))))
                    = false ->
            exists out, run v f clock = Some out /\ ~ offered out /\
              In disabled_button out /\
              out = (shown_above f total ++ [disabled_button])%list).
  { intros Hok. eexists. split; [exact (Hblocked Hok)|].
    split; [apply not_offered_blocked|].
    split; [apply in_or_app; right; left; reflexivity | reflexivity]. }
  assert (Hshort : payment_type f = Cash -> (0 <? total)%float = true ->
            (total <=? cash_input f)%float = false ->
            exists out, run v f clock = Some out /\
              In (error insufficient_msg) out /\ ~ offered out /\
              In disabled_button out).
  { intros Hp Hpos Hlt.
    destruct Hclosed as (out & Hrun & Hno & Hbutton & ->).
    { apply not_true_is_false. intros Hok.
      apply Hgate in Hok as (_ & _ & _ & H). specialize (H Hp Hpos).
      congruence. }
    eexists. split; [exact Hrun|].
    split; [|split; [exact Hno | exact Hbutton]].
    apply in_or_app. left. apply in_shown_above_error.
    rewrite validate_eq. cbv zeta. cbn [snd].
    rewrite cash_short_of_page, Hp, Hpos. cbn [is_cash payment_label andb].
    change (String.eqb "Cash" "Cash") with true. cbn [andb].
    assert (Hc : (cash_input f <? total)%float = true).
    { destruct (cash_input f <? total)%float eqn:E; [reflexivity|].
      pose proof (Hcash Hp) as Hc. apply leb_is_number in Hc as [_ Hc].
      apply ltb_is_number in Hpos as [_ Ht].
      apply (not_ltb_iff_geb _ _ Hc Ht) in E. congruence. }
    rewrite Hc. apply in_or_app. right. left. reflexivity. }
  split; [exact Hgate|].
  split; [|split; [|split]].
  - intros out Hrun. destruct (Hends out Hrun) as (Hiff & Hdis & _).
    split; assumption.
  - intros Hno.
    destruct Hclosed as (out & Hrun & Hn & Hbutton & _).
    { apply not_true_is_false. intros Hok.
      apply Hgate in Hok. contradiction. }
    exists out. auto.
  - exact Hshort.
  - intros Hp ->. split.
    + intros Hc. split; [|split].
      * rewrite Hgate, Hc. split; [tauto|].
        intros (? & ? & ? ); repeat split; auto.
      * rewrite Hc. reflexivity.
      * intros out Hrun. destruct (Hends out Hrun) as (Hiff & _ & tail & ->).
        split.
        -- apply in_or_app. left. unfold shown_above. rewrite Hp, Hc.
           apply in_or_app. right. apply in_or_app. left. left. reflexivity.
        -- rewrite Hiff, Hc. split; [tauto|].
           intros (? & ? & ? ); repeat split; auto.
    + intros Hc. apply Hshort; [exact Hp | reflexivity |].
      rewrite Hc. reflexivity.
Qed.

Lemma download_gate_witness :
  (exists out, run Py.compensated (hundred 100) steady = Some out /\
     offered out /\ In (success "Change to return: **$0.00**") out) /\
  (exists out, run Py.compensated (hundred 99.99) steady = Some out /\
     ~ offered out /\ In (error insufficient_msg) out /\
     In disabled_button out).
Proof.
  split.
  - assert (Htotal : exists subtotal tax,
              calculate_totals Py.compensated (invoice_items (hundred 100)) =
              Some (subtotal, tax, 100%float))
      by (vm_compute; eexists _, _; reflexivity).
    destruct Htotal as (subtotal & tax & Htot).
    assert (Hrun : exists out,
              run Py.compensated (hundred 100) steady = Some out)
      by (vm_compute; eexists; reflexivity).
    destruct Hrun as (out & Hrun).
    destruct (download_gate Py.compensated (hundred 100) steady subtotal tax
                100 (fun _ => eq_refl) Htot)
      as (_ & _ & _ & _ & Hedge).
    destruct (Hedge eq_refl eq_refl) as [Hpass _].
    destruct (Hpass eq_refl) as (_ & _ & Hout).
    destruct (Hout out Hrun) as (Hchange & Hoff).
    exists out. split; [exact Hrun|]. split; [|exact Hchange].
    apply Hoff. repeat split; discriminate.
  - assert (Htotal : exists subtotal tax,
              calculate_totals Py.compensated (invoice_items (hundred 99.99))
              = Some (subtotal, tax, 100%float))
      by (vm_compute; eexists _, _; reflexivity).
    destruct Htotal as (subtotal & tax & Htot).
    destruct (download_gate Py.compensated (hundred 99.99) steady subtotal tax
                100 (fun _ => eq_refl) Htot)
      as (_ & _ & _ & _ & Hedge).
    destruct (Hedge eq_refl eq_refl) as [_ Hblock].
    destruct (Hblock eq_refl) as (out & Hrun & Herr & Hno & Hbutton).
    exists out. auto.
Defined.

(** C8.  Whenever the download is offered, the suggested file name is
    "Invoice_", the client name with every space replaced by an underscore,
    "_", the phone, "_", the time stamp and ".pdf"; the stamp is the clock
    read when the name is built, written as year, month, day, "_", hour,
    minute, second, zero-padded to fifteen characters [YYYYMMDD_HHMMSS]. *)
Theorem suggested_file_name (v : Py.summation) (f : form) (clock : nat -> datetime)
    out label d name mime :
  run v f clock = Some out ->
  In (download_button label d name mime) out ->
  let t := clock 1%nat in
  let stamp := strftime "%Y%m%d_%H%M%S" t in
  let client := Py.replace " " "_" (client_name f) in
  name = "Invoice_" ++ client ++ "_" ++ phone f ++ "_" ++ stamp ++ ".pdf" /\
  String.length client = String.length (client_name f) /\
  (forall i, String.get i client =
     option_map (fun c => if Ascii.eqb c " " then "_"%char else c)
       (String.get i (client_name f))) /\
  all_chars (fun c => negb (Ascii.eqb c " ")) client = true /\
  stamp = Py.zero_pad 4 (year t) ++ Py.zero_pad 2 (month t) ++ Py.zero_pad 2 (day t)
          ++ "_" ++ Py.zero_pad 2 (hour t) ++ Py.zero_pad 2 (minute t)
          ++ Py.zero_pad 2 (second t) /\
  (valid_datetime t ->
   String.length stamp = 15%nat /\
   all_chars (fun c => is_digit c || Ascii.eqb c "_") stamp = true).
Proof.
  intros Hrun Hin t stamp client.
  destruct (run_offered _ _ _ _ _ _ _ _ Hrun Hin)
    as (subtotal & tax & total & _ & _ & _ & ->).
  split; [reflexivity|].
  split; [apply replace_length|].
  split; [apply replace_get|].
  split; [apply replace_no_old; discriminate|].
  split.
  - subst stamp. rewrite file_stamp_eq.
    repeat (f_equal; try reflexivity).
    induction (Py.zero_pad 2 (second t)) as [|c s IH]; simpl; congruence.
  - apply file_stamp_shape.
Qed.

Lemma suggested_file_name_witness :
  exists out label d name mime,
    run Py.compensated ann steady = Some out /\
    In (download_button label d name mime) out /\
    name = "Invoice_Ann_Lee_555 0100_20240307_090502.pdf".
Proof.
  assert (Hoffer : exists out label d name mime,
            run Py.compensated ann steady = Some out /\
            In (download_button label d name mime) out).
  { vm_compute. eexists _, _, _, _, _. split; [reflexivity|].
    do 3 right. left. reflexivity. }
  destruct Hoffer as (out & label & d & name & mime & Hrun & Hin).
  exists out, label, d, name, mime.
  split; [exact Hrun|]. split; [exact Hin|].
  exact (proj1 (suggested_file_name Py.compensated ann steady out label d name mime Hrun Hin)).
Defined.

(** ** The clock in the document *)

Lemma append_empty (s : string) : s ++ "" = s.
Proof. induction s as [|c s IH]; simpl; congruence. Qed.

Lemma client_info_split client_name phone payment_type cash_given change now :
  client_info client_name phone payment_type cash_given change now =
  info_before client_name phone ++ strftime date_format now ++
  info_after payment_type cash_given change.
Proof.
  assert (Hbase : forall tail,
            client_base client_name phone payment_type now ++ tail =
            info_before client_name phone ++ strftime date_format now ++
            ("<br/>" ++ nl ++ "    <b>Payment Type:</b> " ++ payment_type
             ++ "<br/>" ++ nl ++ "    ") ++ tail).
  { intros tail. unfold client_base, info_before, date_format.
    rewrite !append_assoc. reflexivity. }
  unfold client_info, info_after.
  destruct (String.eqb payment_type "Cash"), cash_given, change;
    try apply Hbase;
    rewrite <- (append_empty (client_base _ _ _ _)); apply Hbase.
Qed.

Section Clock.
Variables (client_name phone : string) (items : list item)
  (payment_type : string) (subtotal tax total : Py.number)
  (location : string) (cash_given change : option float).

Let render := create_invoice_pdf client_name phone items payment_type
                subtotal tax total location cash_given change.

(** C9.  The renderer is a function of its arguments and the clock, and reads
    the clock only for the date line.  Two calls with the same arguments
    whose clock readings format to the same time stamp give the same result;
    two calls with the same arguments and any two clock readings both return
    a document or both fail, and the documents have the same page, style
    edits and table (same rows and cell values) and the same flowables
    except the client paragraph, where they differ only in the time stamp
    between the same text before and after. *)
Theorem render_reads_clock_for_date_only (now1 now2 : datetime) :
  (strftime date_format now1 = strftime date_format now2 ->
   render now1 = render now2)
  /\ (render now1 = None <-> render now2 = None)
  /\ (forall d1 d2,
        render now1 = Some d1 -> render now2 = Some d2 ->
        page d1 = page d2 /\
        sheet_edits d1 = sheet_edits d2 /\
        table_of d1 = table_of d2 /\
        List.length (elements d1) = List.length (elements d2) /\
        (forall i, i <> 4%nat ->
           nth_error (elements d1) i = nth_error (elements d2) i) /\
        exists before after,
          nth_error (elements d1) 4 =
            Some (Paragraph (before ++ strftime date_format now1 ++ after)
                    Normal) /\
          nth_error (elements d2) 4 =
            Some (Paragraph (before ++ strftime date_format now2 ++ after)
                    Normal)).
Proof.
  unfold render. rewrite !render_eq.
  destruct (mapM item_row items) as [rows|];
    [|repeat split; (reflexivity || discriminate)].
  destruct (summary_rows subtotal tax total) as [summary|];
    [|repeat split; (reflexivity || discriminate)].
  rewrite !client_info_split.
  split; [intros ->; reflexivity|].
  split; [split; discriminate|].
  intros d1 d2 H1 H2. apply Some_eq in H1, H2. subst d1 d2.
  split; [reflexivity|]. split; [reflexivity|]. split; [reflexivity|].
  split; [reflexivity|].
  split.
  - intros i Hi.
    do 9 (destruct i as [|i]; [reflexivity || contradiction|]).
    reflexivity.
  - eexists _, _. split; reflexivity.
Qed.
End Clock.

Lemma render_reads_clock_for_date_only_witness :
  exists d1 d2,
    sample_render morning = Some d1 /\ sample_render evening = Some d2 /\
    table_of d1 = table_of d2 /\
    nth_error (elements d1) 6 = nth_error (elements d2) 6.
Proof.
  destruct (render_reads_clock_for_date_only "Ann Lee" "555 0100" oak_and_nails
              "Cash" (Py.Float 60) (Py.Float 7.8000000000000007)
              (Py.Float 67.799999999999997) "NY" (Some 70%float)
              (Some (70 - 67.799999999999997)%float) morning evening)
    as (_ & _ & Hsame).
  assert (H1 : exists d1, sample_render morning = Some d1)
    by (vm_compute; eexists; reflexivity).
  assert (H2 : exists d2, sample_render evening = Some d2)
    by (vm_compute; eexists; reflexivity).
  destruct H1 as [d1 H1]. destruct H2 as [d2 H2].
  destruct (Hsame d1 d2 H1 H2) as (_ & _ & Htable & _ & Hnth & _).
  exists d1, d2.
  split; [exact H1|]. split; [exact H2|]. split; [exact Htable|].
  apply Hnth. discriminate.
Defined.

(** * The session *)

(** ** Stripping *)

Lemma string_length_ind (P : string -> Prop) :
  (forall s, (forall t, (String.length t < String.length s)%nat -> P t) -> P s) ->
  forall s, P s.
Proof.
  intros step s.
  assert (H : forall n t, (String.length t < n)%nat -> P t).
  { induction n as [|n IH]; intros t Ht; [lia|].
    apply step. intros u Hu. apply IH. lia. }
  apply (H (S (String.length s))). lia.
Qed.

Lemma lstrip_blank_append p : forall w,
  PyStr.lstrip p = "" -> PyStr.lstrip (p ++ w) = PyStr.lstrip w.
Proof.
  induction p as [p IH] using string_length_ind. intros w H.
  destruct p as [|a r]; [reflexivity|].
  cbn [PyStr.lstrip append] in *.
  destruct (PyStr.space1 a).
  { apply IH; [simpl; lia | exact H]. }
  destruct r as [|b r']; [discriminate|].
  cbn [append].
  destruct (PyStr.space2 a b).
  { apply IH; [simpl; lia | exact H]. }
  destruct r' as [|c r'']; [discriminate|].
  cbn [append].
  destruct (PyStr.space3 a b c); [|discriminate].
  apply IH; [simpl; lia | exact H].
Qed.

Lemma lstrip_idem s : PyStr.lstrip (PyStr.lstrip s) = PyStr.lstrip s.
Proof.
  induction s as [s IH] using string_length_ind.
  destruct s as [|a r]; [reflexivity|].
  cbn [PyStr.lstrip].
  destruct (PyStr.space1 a) eqn:E1.
  { apply IH. simpl. lia. }
  destruct r as [|b r'].
  { cbn [PyStr.lstrip]. rewrite E1. reflexivity. }
  destruct (PyStr.space2 a b) eqn:E2.
  { apply IH. simpl. lia. }
  destruct r' as [|c r''].
  { cbn [PyStr.lstrip]. rewrite E1, E2. reflexivity. }
  destruct (PyStr.space3 a b c) eqn:E3.
  { apply IH. simpl. lia. }
  cbn [PyStr.lstrip]. rewrite E1, E2, E3. reflexivity.
Qed.

(** A string that does not start with white space keeps that on every
    prefix. *)
Lemma lstrip_prefix_fixed u : forall w,
  PyStr.lstrip (u ++ w) = u ++ w -> PyStr.lstrip u = u.
Proof.
  intros w H.
  assert (Hlen : forall s, (String.length (PyStr.lstrip s) <= String.length s)%nat).
  { induction s as [s IH] using string_length_ind.
    destruct s as [|a r]; [simpl; lia|].
    cbn [PyStr.lstrip].
    destruct (PyStr.space1 a).
    { specialize (IH r). simpl in *. lia. }
    destruct r as [|b r']; [lia|].
    destruct (PyStr.space2 a b).
    { specialize (IH r'). simpl in *. lia. }
    destruct r' as [|c r'']; [lia|].
    destruct (PyStr.space3 a b c); [|lia].
    specialize (IH r''). simpl in *. lia. }
  assert (Hshort : forall s t, (String.length t < String.length s)%nat ->
            PyStr.lstrip t <> s).
  { intros s t Hlt E. specialize (Hlen t). rewrite E in Hlen. lia. }
  destruct u as [|a r]; [reflexivity|].
  cbn [PyStr.lstrip append] in *.
  destruct (PyStr.space1 a).
  { exfalso. eapply Hshort; [|exact H]. simpl. lia. }
  destruct r as [|b r']; [reflexivity|].
  cbn [append] in *.
  destruct (PyStr.space2 a b).
  { exfalso. eapply Hshort; [|exact H]. simpl. lia. }
  destruct r' as [|c r'']; [reflexivity|].
  cbn [append] in *.
  destruct (PyStr.space3 a b c); [|reflexivity].
  exfalso. eapply Hshort; [|exact H]. simpl. lia.
Qed.

Lemma rstrip_split s :
  exists w, s = PyStr.rstrip s ++ w /\ PyStr.blank w = true.
Proof.
  induction s as [|a r (w & Hr & Hw)].
  - exists "". split; reflexivity.
  - cbn [PyStr.rstrip].
    destruct (PyStr.blank (String a r)) eqn:E.
    + exists (String a r). split; [reflexivity | exact E].
    + exists w. split; [simpl; congruence | exact Hw].
Qed.

Lemma blank_append p w :
  PyStr.blank p = true -> PyStr.blank w = true -> PyStr.blank (p ++ w) = true.
Proof.
  unfold PyStr.blank. intros Hp Hw.
  rewrite lstrip_blank_append; [exact Hw|].
  destruct (PyStr.lstrip p); [reflexivity | discriminate].
Qed.

Lemma rstrip_idem s : PyStr.rstrip (PyStr.rstrip s) = PyStr.rstrip s.
Proof.
  induction s as [|a r IH]; [reflexivity|].
  cbn [PyStr.rstrip].
  destruct (PyStr.blank (String a r)) eqn:E; [reflexivity|].
  cbn [PyStr.rstrip].
  destruct (PyStr.blank (String a (PyStr.rstrip r))) eqn:E'.
  - exfalso. destruct (rstrip_split r) as (w & Hr & Hw).
    pose proof (blank_append _ _ E' Hw) as Hb.
    simpl in Hb. rewrite <- Hr in Hb. congruence.
  - rewrite IH. reflexivity.
Qed.

(** [strip] leaves nothing to strip: its result is a fixed point. *)
Lemma strip_idem s : PyStr.strip (PyStr.strip s) = PyStr.strip s.
Proof.
  unfold PyStr.strip.
  destruct (rstrip_split (PyStr.lstrip s)) as (w & Hs & _).
  assert (H : PyStr.lstrip (PyStr.rstrip (PyStr.lstrip s))
              = PyStr.rstrip (PyStr.lstrip s)).
  { apply (lstrip_prefix_fixed _ w). rewrite <- Hs. apply lstrip_idem. }
  rewrite H. apply rstrip_idem.
Qed.

(** The stripped string is empty exactly when the string is blank. *)
Lemma strip_empty_iff s : PyStr.strip s = "" <-> PyStr.blank s = true.
Proof.
  unfold PyStr.strip, PyStr.blank.
  destruct (PyStr.lstrip s) as [|a r] eqn:E.
  - split; reflexivity.
  - split; [|discriminate].
    cbn [PyStr.rstrip].
    destruct (PyStr.blank (String a r)) eqn:B; [|discriminate].
    unfold PyStr.blank in B.
    assert (I := lstrip_idem s). rewrite E in I. rewrite I in B. discriminate.
Qed.

(** ** The Add callback *)

Lemma truthy_strip s : Py.truthy_str (PyStr.strip s) = negb (PyStr.blank s).
Proof.
  destruct (PyStr.blank s) eqn:B.
  - apply strip_empty_iff in B. rewrite B. reflexivity.
  - destruct (PyStr.strip s) eqn:E; [|reflexivity].
    apply strip_empty_iff in E. congruence.
Qed.

Lemma add_item_test st :
  Py.truthy_str (PyStr.strip (Session.temp_name st))
  && (0 <? Session.temp_price st)%float && (0 <? Session.temp_qty st) = true
  <-> accepts st.
Proof.
  unfold accepts. rewrite !andb_true_iff, truthy_strip, negb_true_iff, Z.ltb_lt.
  tauto.
Qed.

Lemma add_item_taken st :
  accepts st ->
  Session.add_item_and_reset st =
  Session.State
    (Session.invoice_items st ++
     [Item (PyStr.strip (Session.temp_name st)) (Session.temp_price st)
        (Session.temp_qty st)])%list
    (Session.notice_success
       ("Added " ++ Py.str_int (Session.temp_qty st) ++ " x "
        ++ PyStr.strip (Session.temp_name st) ++ " @ $"
        ++ Py.format_float 2 (Session.temp_price st)))
    "" 0 1.
Proof.
  intros H. apply add_item_test in H. unfold Session.add_item_and_reset.
  rewrite H. reflexivity.
Qed.

Lemma add_item_refused st :
  ~ accepts st ->
  Session.add_item_and_reset st =
  Session.State (Session.invoice_items st)
    (Session.notice_error Session.invalid_msg)
    (Session.temp_name st) (Session.temp_price st) (Session.temp_qty st).
Proof.
  intros H. unfold Session.add_item_and_reset.
  destruct (Py.truthy_str (PyStr.strip (Session.temp_name st))
            && (0 <? Session.temp_price st)%float
            && (0 <? Session.temp_qty st)) eqn:T; [|reflexivity].
  exfalso. apply H, add_item_test, T.
Qed.

Lemma add_item_resets st : ~ accepts (Session.add_item_and_reset st).
Proof.
  unfold Session.add_item_and_reset.
  destruct (Py.truthy_str (PyStr.strip (Session.temp_name st))
            && (0 <? Session.temp_price st)%float
            && (0 <? Session.temp_qty st)) eqn:T.
  - intros (B & _). discriminate B.
  - intros H. apply add_item_test in H.
    cbn [Session.temp_name Session.temp_price Session.temp_qty] in H.
    congruence.
Qed.

(** X1 (the Add callback).  The callback takes the inputs exactly when the
    name is not blank and the price and the quantity are above zero. It then
    appends the item, with the name stripped, at the end of the list, resets
    the three inputs and leaves the success message; otherwise it leaves the
    list and the inputs as they are and leaves the error message. *)
Theorem add_item_and_reset_contract (st : Session.state) :
  let st' := Session.add_item_and_reset st in
  (accepts st ->
   Session.invoice_items st' =
     (Session.invoice_items st ++
      [Item (PyStr.strip (Session.temp_name st)) (Session.temp_price st)
         (Session.temp_qty st)])%list /\
   Session.temp_name st' = "" /\ Session.temp_price st' = 0%float /\
   Session.temp_qty st' = 1 /\
   Session.message st' =
     Session.notice_success
       ("Added " ++ Py.str_int (Session.temp_qty st) ++ " x "
        ++ PyStr.strip (Session.temp_name st) ++ " @ $"
        ++ Py.format_float 2 (Session.temp_price st)))
  /\ (~ accepts st ->
      Session.invoice_items st' = Session.invoice_items st /\
      Session.temp_name st' = Session.temp_name st /\
      Session.temp_price st' = Session.temp_price st /\
      Session.temp_qty st' = Session.temp_qty st /\
      Session.message st' = Session.notice_error Session.invalid_msg).
Proof.
  intros st'. subst st'. split; intros H.
  - rewrite (add_item_taken st H). cbn. repeat split.
  - rewrite (add_item_refused st H). cbn. repeat split.
Qed.

Lemma add_item_and_reset_contract_witness :
  accepts (Session.State oak_and_nails Session.no_notice "  Pine Board " 7.25 3)
  /\ Session.invoice_items
       (Session.add_item_and_reset
          (Session.State oak_and_nails Session.no_notice "  Pine Board " 7.25 3))
     = (oak_and_nails ++ [Item "Pine Board" 7.25 3])%list.
Proof.
  assert (H : accepts (Session.State oak_and_nails Session.no_notice
                         "  Pine Board " 7.25 3))
    by (repeat split; vm_compute; reflexivity).
  split; [exact H|].
  exact (proj1 (proj1 (add_item_and_reset_contract _) H)).
Defined.

(** X2 (the Add callback).  A second click on Add, with nothing typed in
    between, adds nothing and leaves the error message: after a click that
    took the inputs they are reset to an empty name, and after one that
    refused them they are still refused. *)
Theorem add_item_twice (st : Session.state) :
  Session.invoice_items
    (Session.add_item_and_reset (Session.add_item_and_reset st)) =
  Session.invoice_items (Session.add_item_and_reset st)
  /\ Session.message
       (Session.add_item_and_reset (Session.add_item_and_reset st)) =
     Session.notice_error Session.invalid_msg.
Proof.
  rewrite (add_item_refused _ (add_item_resets st)). split; reflexivity.
Qed.

(** The item a click appends is a valid one. *)
Lemma added_item_valid st :
  accepts st ->
  valid_item (Item (PyStr.strip (Session.temp_name st)) (Session.temp_price st)
                (Session.temp_qty st)).
Proof.
  intros (B & Hp & Hq). unfold valid_item. cbn.
  split; [intros E; apply strip_empty_iff in E; congruence|].
  split; [apply strip_idem|].
  split; [|lia].
  rewrite leb_spec. rewrite ltb_spec in Hp.
  unfold SFltb in Hp. unfold SFleb.
  destruct (SFcompare (Prim2SF 0) (Prim2SF (Session.temp_price st)))
    as [[]|]; (reflexivity || discriminate).
Qed.

Lemma add_item_keeps_valid st :
  Forall valid_item (Session.invoice_items st) ->
  Forall valid_item (Session.invoice_items (Session.add_item_and_reset st)).
Proof.
  intros H. unfold Session.add_item_and_reset.
  destruct (Py.truthy_str (PyStr.strip (Session.temp_name st))
            && (0 <? Session.temp_price st)%float
            && (0 <? Session.temp_qty st)) eqn:T; cbn; [|exact H].
  apply Forall_app. split; [exact H|].
  constructor; [|constructor].
  apply added_item_valid, add_item_test, T.
Qed.

(** ** The editable list *)

Lemma edit_rows_kept rows : forall i widgets keep shown keep' shown',
  Session.edit_rows i rows widgets keep shown = Some (keep', shown') ->
  keep' = (keep ++ kept i rows widgets)%list /\
  List.length shown' = (List.length shown + List.length rows)%nat.
Proof.
  induction rows as [|it rest IH]; intros i widgets keep shown keep' shown' H.
  - injection H as <- <-. rewrite app_nil_r. simpl. split; [reflexivity | lia].
  - cbn [Session.edit_rows] in H.
    destruct (Py.mul _ _) as [pre|]; [|discriminate].
    destruct (Py.mul pre _) as [post|]; [|discriminate].
    destruct (Py.format_f 2 pre) as [spre|]; [|discriminate].
    destruct (Py.format_f 2 post) as [spost|]; [|discriminate].
    cbn [kept].
    destruct (Session.remove (widgets i)).
    + apply IH in H as [-> Hlen]. split; [reflexivity|].
      rewrite Hlen, length_app. simpl. lia.
    + apply IH in H as [-> Hlen]. split.
      * rewrite <- app_assoc. reflexivity.
      * rewrite Hlen, length_app. simpl. lia.
Qed.

Lemma kept_length_le rows : forall i widgets,
  (List.length (kept i rows widgets) <= List.length rows)%nat.
Proof.
  induction rows as [|it rest IH]; intros i widgets; simpl; [lia|].
  specialize (IH (S i) widgets).
  destruct (Session.remove (widgets i)); simpl; lia.
Qed.

Lemma kept_unchanged_iff rows : forall i widgets,
  (List.length (kept i rows widgets) =? List.length rows)%nat
  && Session.items_eq rows (kept i rows widgets)
  = all_echo i rows widgets.
Proof.
  induction rows as [|it rest IH]; intros i widgets; [reflexivity|].
  cbn [kept all_echo].
  destruct (Session.remove (widgets i)).
  - pose proof (kept_length_le rest (S i) widgets) as Hle.
    destruct (Nat.eqb_spec (List.length (kept (S i) rest widgets))
                (List.length (it :: rest))) as [E|_]; [simpl in E; lia|].
    reflexivity.
  - cbn [List.length Session.items_eq negb andb].
    unfold Session.item_eq. cbn [description price quantity].
    rewrite String.eqb_refl. cbn [andb].
    rewrite <- IH. cbn [Nat.eqb].
    destruct (Nat.eqb _ _), (PrimFloat.eqb _ _), (Z.eqb _ _),
      (Session.items_eq _ _); reflexivity.
Qed.

Lemma all_echo_spec rows : forall i widgets,
  all_echo i rows widgets = true <->
  forall k it, nth_error rows k = Some it -> echoes (widgets (i + k)%nat) it.
Proof.
  induction rows as [|it rest IH]; intros i widgets; cbn [all_echo].
  - split; [|reflexivity]. intros _ k it' H. destruct k; discriminate.
  - rewrite !andb_true_iff, negb_true_iff, Z.eqb_eq, IH. split.
    + intros (((Hr & Hp) & Hq) & Hrest) k it' Hk.
      destruct k as [|k]; simpl in Hk.
      * injection Hk as <-. rewrite Nat.add_0_r. repeat split; assumption.
      * replace (i + S k)%nat with (S i + k)%nat by lia. auto.
    + intros H. split.
      * destruct (H 0%nat it eq_refl) as (Hr & Hp & Hq).
        rewrite Nat.add_0_r in *. auto.
      * intros k it' Hk.
        replace (S i + k)%nat with (i + S k)%nat by lia. apply H. exact Hk.
Qed.

Lemma kept_names rows : forall i widgets,
  map description (kept i rows widgets) =
  map description (unpressed i rows widgets).
Proof.
  induction rows as [|it rest IH]; intros i widgets; [reflexivity|].
  cbn [kept unpressed].
  destruct (Session.remove (widgets i)); simpl; rewrite IH; reflexivity.
Qed.

Lemma unpressed_sublist rows : forall i widgets,
  exists keep : list bool,
    List.length keep = List.length rows /\
    unpressed i rows widgets =
      map fst (filter snd (combine rows keep)).
Proof.
  induction rows as [|it rest IH]; intros i widgets.
  - exists []. split; reflexivity.
  - destruct (IH (S i) widgets) as (keep & Hlen & E).
    exists (negb (Session.remove (widgets i)) :: keep).
    split; [simpl; congruence|].
    cbn [unpressed combine filter snd].
    destruct (Session.remove (widgets i)); simpl; rewrite E; reflexivity.
Qed.

Lemma kept_valid rows : forall i widgets,
  rows_in_bounds widgets -> Forall valid_item rows ->
  Forall valid_item (kept i rows widgets).
Proof.
  induction rows as [|it rest IH]; intros i widgets Hw Hrows; [constructor|].
  inversion Hrows as [|? ? (Hd & Hs & _ & _) Hrest]; subst.
  cbn [kept]. destruct (Session.remove (widgets i)); [auto|].
  constructor; [|auto].
  destruct (Hw i) as [Hp Hq]. repeat split; assumption.
Qed.

(** The list section, case by case. *)
Lemma edit_list_Some items widgets r :
  Session.edit_list items widgets = Some r ->
  match r with
  | Session.rerun l =>
      items <> [] /\ l = kept 0 items widgets /\
      all_echo 0 items widgets = false
  | Session.table header lines =>
      items <> [] /\ all_echo 0 items widgets = true /\
      header = Session.list_header /\
      List.length lines = List.length items
  | Session.info _ => items = []
  end.
Proof.
  unfold Session.edit_list.
  destruct items as [|it rest]; [intros [= <-]; reflexivity|].
  cbn [Py.truthy_list].
  destruct (Session.edit_rows 0 (it :: rest) widgets [] [])
    as [[keep shown]|] eqn:E; [|discriminate].
  apply edit_rows_kept in E as [-> Hlen]. cbn [app] in *.
  pose proof (kept_unchanged_iff (it :: rest) 0 widgets) as Hiff.
  destruct (Nat.eqb (List.length (kept 0 (it :: rest) widgets))
              (List.length (it :: rest))); cbn [negb andb] in *.
  - destruct (Session.items_eq (it :: rest) (kept 0 (it :: rest) widgets));
      cbn [negb]; intros [= <-].
    + repeat split; try discriminate; auto.
    + repeat split; try discriminate; auto.
  - intros [= <-]. repeat split; try discriminate; auto.
Qed.

Lemma kept_rows i rows : forall widgets,
  kept i rows widgets =
  map (fun r => Item (description (snd r))
                  (Session.new_price (widgets (fst r)))
                  (Session.new_quantity (widgets (fst r))))
    (filter (fun r => negb (Session.remove (widgets (fst r))))
       (enumerate_from i rows)).
Proof.
  revert i. induction rows as [|it rest IH]; intros i widgets; [reflexivity|].
  unfold enumerate_from in *. cbn [kept List.length seq combine filter fst snd].
  destruct (Session.remove (widgets i)); cbn [negb map fst snd];
    rewrite IH; reflexivity.
Qed.

Lemma kept_length i rows : forall widgets,
  (List.length (kept i rows widgets)
   + List.length (filter (fun k => Session.remove (widgets k))
                    (seq i (List.length rows))))%nat
  = List.length rows.
Proof.
  revert i. induction rows as [|it rest IH]; intros i widgets; [reflexivity|].
  cbn [kept List.length seq filter].
  specialize (IH (S i) widgets).
  destruct (Session.remove (widgets i)); cbn [List.length]; lia.
Qed.

(** X3 (the editable list).  When the list section restarts the script, the
    list it stores holds exactly the rows whose remove button was not pressed,
    in their order, each with the name of its item and the price and quantity
    shown in its widgets; its length is the old length less the number of
    buttons pressed. *)
Theorem rerun_list_is_rows_kept (items : list item)
    (widgets : nat -> Session.reading) (l : list item) :
  Session.edit_list items widgets = Some (Session.rerun l) ->
  l = rows_kept items widgets /\
  map description l = map description (unpressed 0 items widgets) /\
  (List.length l + pressed (List.length items) widgets)%nat
  = List.length items.
Proof.
  intros H. apply edit_list_Some in H as (_ & -> & _).
  split; [apply kept_rows|].
  split; [apply kept_names|].
  apply kept_length.
Qed.

Lemma rerun_list_is_rows_kept_witness :
  Session.edit_list oak_and_nails first_removed
    = Some (Session.rerun [Item "Nail Box" 6 2]) /\
  [Item "Nail Box" 6 2] = rows_kept oak_and_nails first_removed.
Proof.
  assert (H : Session.edit_list oak_and_nails first_removed
              = Some (Session.rerun [Item "Nail Box" 6 2]))
    by (vm_compute; reflexivity).
  split; [exact H|].
  exact (proj1 (rerun_list_is_rows_kept oak_and_nails first_removed _ H)).
Defined.

(** X4 (the editable list).  On a list that is not empty, the list section
    goes on to the payment section exactly when no remove button is pressed
    and every row's widgets show the price and the quantity of its item;
    otherwise it restarts the script. *)
Theorem list_settles_iff (items : list item)
    (widgets : nat -> Session.reading) (r : Session.listing) :
  Session.edit_list items widgets = Some r ->
  items <> [] ->
  ((exists header lines, r = Session.table header lines) <->
   forall k it, nth_error items k = Some it -> echoes (widgets k) it)
  /\ ((exists l, r = Session.rerun l) <->
      ~ forall k it, nth_error items k = Some it -> echoes (widgets k) it).
Proof.
  intros H Hne. apply edit_list_Some in H.
  pose proof (all_echo_spec items 0 widgets) as Hspec. cbn [Nat.add] in Hspec.
  destruct r as [l | header lines | body].
  - destruct H as (_ & _ & Hfalse).
    split; split.
    + intros (? & ? & [=]).
    + intros Hall. apply Hspec in Hall. congruence.
    + intros _ Hall. apply Hspec in Hall. congruence.
    + eauto.
  - destruct H as (_ & Htrue & _ & _).
    split; split.
    + intros _. apply Hspec, Htrue.
    + eauto.
    + intros (? & [=]).
    + intros Hno. exfalso. apply Hno, Hspec, Htrue.
  - contradiction.
Qed.

Lemma list_settles_iff_witness :
  exists r, Session.edit_list oak_and_nails untouched = Some r /\
    exists header lines, r = Session.table header lines.
Proof.
  assert (H : exists r, Session.edit_list oak_and_nails untouched = Some r)
    by (vm_compute; eexists; reflexivity).
  destruct H as [r H]. exists r. split; [exact H|].
  apply (list_settles_iff oak_and_nails untouched r H); [discriminate|].
  intros k it Hk.
  destruct k as [|[|k]]; simpl in Hk; try (destruct k; discriminate);
    injection Hk as <-; repeat split; reflexivity.
Defined.

(** ** One execution of the script *)

Lemma show_message_state st :
  Session.invoice_items (snd (Session.show_message st))
    = Session.invoice_items st /\
  Session.message (snd (Session.show_message st)) = Session.no_notice /\
  Session.temp_name (snd (Session.show_message st)) = Session.temp_name st /\
  Session.temp_price (snd (Session.show_message st)) = Session.temp_price st /\
  Session.temp_qty (snd (Session.show_message st)) = Session.temp_qty st.
Proof.
  unfold Session.show_message.
  destruct (Session.message st) eqn:E; cbn; auto.
Qed.

Lemma script_Some v st w clock o :
  Session.script v st w clock = Some o ->
  Session.message (state_of o) = Session.no_notice /\
  Session.temp_name (state_of o) = Session.temp_name st /\
  Session.temp_price (state_of o) = Session.temp_price st /\
  Session.temp_qty (state_of o) = Session.temp_qty st /\
  match o with
  | Session.restarted st' =>
      Session.invoice_items st <> [] /\
      Session.invoice_items st' =
        kept 0 (Session.invoice_items st) (Session.in_rows w) /\
      all_echo 0 (Session.invoice_items st) (Session.in_rows w) = false
  | Session.finished notices shown page st' =>
      Session.invoice_items st' = Session.invoice_items st /\
      notices = fst (Session.show_message st) /\
      Session.edit_list (Session.invoice_items st) (Session.in_rows w)
        = Some shown /\
      (forall l, shown <> Session.rerun l) /\
      run v (Form (Session.in_client_name w) (Session.in_phone w)
             (Session.in_location w) (Session.invoice_items st)
             (Session.in_payment w) (Session.in_cash w)) clock = Some page
  end.
Proof.
  unfold Session.script.
  destruct (show_message_state st) as (Hi & Hm & Hn & Hp & Hq).
  destruct (Session.show_message st) as [notices st1]. cbn [fst snd] in *.
  destruct (calculate_totals v (Session.invoice_items st1)); [|discriminate].
  destruct (Session.edit_list (Session.invoice_items st1) (Session.in_rows w))
    as [shown|] eqn:E; [|discriminate].
  destruct shown as [l | header lines | body].
  - intros [= <-]. cbn. apply edit_list_Some in E as (Hne & -> & He).
    rewrite Hi in *. repeat split; auto.
  - destruct (run _ _ clock) as [page|] eqn:R; [|discriminate].
    intros [= <-]. cbn. rewrite Hi in *.
    repeat split; auto. discriminate.
  - destruct (run _ _ clock) as [page|] eqn:R; [|discriminate].
    intros [= <-]. cbn. rewrite Hi in *.
    repeat split; auto. discriminate.
Qed.

(** X5 (the session).  Whatever the user does (typing into the Add row,
    clicking Add, letting the script run with the widgets of the list inside
    their bounds), every item of the list keeps a name that is not empty and
    has no white space at its ends, a price not below zero and a quantity of
    at least one. *)
Theorem session_items_valid (st : Session.state) :
  reachable st -> Forall valid_item (Session.invoice_items st).
Proof.
  induction 1 as [|st st' _ IH Hstep].
  - constructor.
  - destruct Hstep as [st name price qty | st | st v w clock o Hw Ho].
    + exact IH.
    + apply add_item_keeps_valid, IH.
    + apply script_Some in Ho as (_ & _ & _ & _ & Ho).
      destruct o as [st' | notices shown page st']; cbn [state_of].
      * destruct Ho as (_ & -> & _). apply kept_valid; assumption.
      * destruct Ho as (-> & _). exact IH.
Qed.

Lemma session_items_valid_witness :
  Forall valid_item
    (Session.invoice_items
       (Session.add_item_and_reset
          (Session.State [] Session.no_notice "  Oak Plank " 12.5 4))).
Proof.
  apply session_items_valid.
  eapply reach_step; [|apply step_add].
  eapply reach_step; [apply reach_initial|].
  exact (step_type Session.initial "  Oak Plank " 12.5 4).
Defined.

(** X6 (the session).  An execution of the script leaves no message pending,
    so the message of a click is shown by one execution only: the execution
    that follows shows none. The execution after a click that finishes shows
    exactly the message of that click: the success text with the quantity, the
    stripped name and the price when the inputs were taken, the error text
    when they were not. *)
Theorem message_shown_once (v : Py.summation) (st : Session.state)
    (w : Session.inputs) (clock : nat -> datetime) (o : Session.outcome) :
  Session.script v st w clock = Some o ->
  Session.message (state_of o) = Session.no_notice /\
  (forall v' w' clock' o',
     Session.script v' (state_of o) w' clock' = Some o' ->
     notices_of o' = []) /\
  (forall st0, st = Session.add_item_and_reset st0 ->
     forall notices shown page st',
       o = Session.finished notices shown page st' ->
       (accepts st0 ->
        notices =
          [success ("Added " ++ Py.str_int (Session.temp_qty st0) ++ " x "
                    ++ PyStr.strip (Session.temp_name st0) ++ " @ $"
                    ++ Py.format_float 2 (Session.temp_price st0))]) /\
       (~ accepts st0 -> notices = [error Session.invalid_msg])).
Proof.
  intros H. pose proof (script_Some _ _ _ _ _ H) as (Hm & _ & _ & _ & Ho).
  split; [exact Hm|]. split.
  - intros v' w' clock' o' H'.
    apply script_Some in H' as (_ & _ & _ & _ & Ho').
    destruct o' as [|notices shown page st'']; [reflexivity|].
    destruct Ho' as (_ & -> & _). cbn [notices_of].
    unfold Session.show_message. rewrite Hm. reflexivity.
  - intros st0 -> notices shown page st' ->.
    destruct Ho as (_ & -> & _).
    unfold Session.show_message, Session.add_item_and_reset.
    destruct (Py.truthy_str (PyStr.strip (Session.temp_name st0))
              && (0 <? Session.temp_price st0)%float
              && (0 <? Session.temp_qty st0)) eqn:T; cbn.
    + split; [reflexivity|]. intros Hno. exfalso. apply Hno, add_item_test, T.
    + split; [|reflexivity]. intros Hyes. apply add_item_test in Hyes.
      congruence.
Qed.

Lemma message_shown_once_witness :
  exists o, Session.script Py.compensated after_click at_counter steady = Some o /\
    Session.message (state_of o) = Session.no_notice /\
    notices_of o = [success "Added 4 x Oak Plank @ $12.50"].
Proof.
  assert (H : exists o, Session.script Py.compensated after_click at_counter steady = Some o
                        /\ notices_of o = [success "Added 4 x Oak Plank @ $12.50"])
    by (vm_compute; eexists; split; reflexivity).
  destruct H as (o & H & Hn). exists o. split; [exact H|].
  split; [|exact Hn].
  exact (proj1 (message_shown_once _ _ _ _ _ H)).
Defined.

(** * More on the totals *)

Lemma convertible_dec z : convertible z \/ overflows z.
Proof.
  unfold convertible, overflows.
  destruct (Py.float_of_int z) as [x|]; [left; eauto | right; reflexivity].
Qed.

Lemma not_convertible z : ~ convertible z <-> overflows z.
Proof.
  unfold convertible, overflows. split.
  - intros H. destruct (Py.float_of_int z) as [x|]; [|reflexivity].
    exfalso. apply H. eauto.
  - intros H [x Hx]. congruence.
Qed.

Lemma some_overflows (items : list item) :
  ~ Forall (fun it => convertible (quantity it)) items <->
  exists it, In it items /\ overflows (quantity it).
Proof.
  split.
  - intros H. induction items as [|a l IH].
    + exfalso. apply H. constructor.
    + destruct (convertible_dec (quantity a)) as [Ha|Ha].
      * destruct IH as (it & Hin & Hit).
        { intros Hl. apply H. constructor; assumption. }
        exists it. split; [right; exact Hin | exact Hit].
      * exists a. split; [left; reflexivity | exact Ha].
  - intros (it & Hin & Hit) H. rewrite Forall_forall in H.
    apply H in Hin. apply not_convertible in Hit. contradiction.
Qed.

Lemma float_sum_app xs x :
  float_sum (xs ++ [x]) = (float_sum xs + x)%float.
Proof. unfold float_sum. rewrite fold_left_app. reflexivity. Qed.

Lemma subtotal_as_float v items :
  Py.as_float match items with
              | [] => Py.Int 0
              | _ => Py.Float (sum_value v (map line_float items))
              end = Some (sum_value v (map line_float items)).
Proof. destruct items; reflexivity. Qed.

(** X7 (the totals).  [calculate_totals] raises exactly when the quantity of
    some item has no float value; names and prices never make it raise. *)
Theorem calculate_totals_fails_iff (v : Py.summation) (items : list item) :
  calculate_totals v items = None <->
  exists it, In it items /\ overflows (quantity it).
Proof.
  rewrite calculate_totals_raises. apply some_overflows.
Qed.

Lemma totals_snoc items it subtotal tax total :
  calculate_totals Py.left_to_right items = Some (subtotal, tax, total) ->
  convertible (quantity it) ->
  exists s, Py.as_float subtotal = Some s /\
    calculate_totals Py.left_to_right (items ++ [it]) =
      Some (Py.Float (s + line_float it),
            ((s + line_float it) * TAX_RATE)%float,
            ((s + line_float it) + (s + line_float it) * TAX_RATE)%float).
Proof.
  intros H Hit. pose proof (calculate_totals_Some _ _ _ _ _ H) as [Hq _].
  rewrite (calculate_totals_value _ items Hq) in H.
  apply Some_eq in H. injection H as -> _ _.
  exists (sum_value Py.left_to_right (map line_float items)).
  split; [apply subtotal_as_float|].
  assert (Hall : Forall (fun it => convertible (quantity it)) (items ++ [it]))
    by (apply Forall_app; split; [exact Hq | repeat constructor; exact Hit]).
  rewrite (calculate_totals_value _ _ Hall), map_app. cbn [map].
  rewrite !sum_value_left_to_right, float_sum_app.
  destruct items; reflexivity.
Qed.

(** X8 (the totals).  Under the summation from left to right (CPython
    before 3.12), appending an item whose quantity has a float value raises
    the subtotal by the line total of that item, in one float addition to
    the old subtotal, and the tax and the total follow from the new
    subtotal.  Under the compensated summation (CPython 3.12 and later) this
    does not hold: for nine tiles at 0.15 and a tenth, the new subtotal is
    not the old subtotal plus 0.15.  Under either summation, appending an
    item whose quantity has no float value makes the totals raise. *)
Theorem calculate_totals_append (items : list item) (it : item)
    (subtotal : Py.number) (tax total : float) :
  calculate_totals Py.left_to_right items = Some (subtotal, tax, total) ->
  (exists s, Py.as_float subtotal = Some s /\
     (convertible (quantity it) ->
      calculate_totals Py.left_to_right (items ++ [it]) =
        Some (Py.Float (s + line_float it),
              ((s + line_float it) * TAX_RATE)%float,
              ((s + line_float it) + (s + line_float it) * TAX_RATE)%float)))
  /\ (forall v, overflows (quantity it) ->
        calculate_totals v (items ++ [it]) = None)
  /\ (exists s tax0 total0 s' tax1 total1,
        calculate_totals Py.compensated nine_tiles
          = Some (Py.Float s, tax0, total0) /\
        calculate_totals Py.compensated (nine_tiles ++ [tenth_tile])
          = Some (Py.Float s', tax1, total1) /\
        (s' =? s + line_float tenth_tile)%float = false).
Proof.
  intros H. split; [|split].
  - pose proof (calculate_totals_Some _ _ _ _ _ H) as [Hq Hs].
    destruct Hs as [s Hs]. exists s. split; [exact Hs|].
    intros Hit. destruct (totals_snoc _ _ _ _ _ H Hit) as (s0 & Hs0 & Happ).
    rewrite Hs in Hs0. apply Some_eq in Hs0. subst s0. exact Happ.
  - intros v Hit. apply calculate_totals_raises, some_overflows.
    exists it. split; [apply in_or_app; right; left; reflexivity | exact Hit].
  - vm_compute. eexists _, _, _, _, _, _.
    split; [reflexivity|]. split; reflexivity.
Qed.

Lemma calculate_totals_append_witness :
  calculate_totals Py.left_to_right oak_and_nails
    = Some (Py.Float 60, 7.8000000000000007%float, 67.799999999999997%float) /\
  calculate_totals Py.left_to_right (oak_and_nails ++ [pine_board]) =
    Some (Py.Float 81.75, (81.75 * TAX_RATE)%float,
          (81.75 + 81.75 * TAX_RATE)%float).
Proof.
  assert (H : calculate_totals Py.left_to_right oak_and_nails
              = Some (Py.Float 60, 7.8000000000000007%float,
                      67.799999999999997%float))
    by (vm_compute; reflexivity).
  split; [exact H|].
  destruct (proj1 (calculate_totals_append oak_and_nails pine_board _ _ _ H))
    as (s & Hs & Happ).
  apply Some_eq in Hs. subst s.
  apply Happ. eexists. vm_compute. reflexivity.
Defined.

(** * More on the page *)

Lemma validate_open_iff name phone items p total cg :
  fst (validate name phone items p total cg) = true <->
  snd (validate name phone items p total cg) = [].
Proof.
  rewrite validate_eq. cbn [fst snd].
  destruct (Py.truthy_str name && Py.truthy_str phone && Py.truthy_list items),
    (cash_short p total cg); cbn; split; intros H; (reflexivity || discriminate).
Qed.

Lemma validate_errors name phone items p total cg msg :
  In msg (snd (validate name phone items p total cg)) ->
  msg = required_msg \/ msg = insufficient_msg.
Proof.
  rewrite validate_eq. cbn [snd].
  destruct (Py.truthy_str name && Py.truthy_str phone && Py.truthy_list items),
    (cash_short p total cg); cbn; intuition.
Qed.

Lemma cash_handling_no_error p total cash msg :
  ~ In (error msg) (snd (cash_handling p total cash)).
Proof.
  unfold cash_handling.
  destruct (is_cash p), (0 <? total)%float, (total <=? cash)%float; cbn;
    intros H; intuition discriminate.
Qed.

Lemma error_shown_above f total msg :
  In (error msg) (shown_above f total) <->
  In msg (snd (validate (client_name f) (phone f) (invoice_items f)
                 (payment_type f) total
                 (cash_given (fst (cash_handling (payment_type f) total
                                     (cash_input f)))))).
Proof.
  split; [|apply in_shown_above_error].
  unfold shown_above. cbn [app]. intros [H | H]; [discriminate|].
  apply in_app_or in H as [H | H].
  - exfalso. exact (cash_handling_no_error _ _ _ _ H).
  - apply in_map_iff in H as (m & [= ->] & Hm). exact Hm.
Qed.

Lemma run_cases v f clock out :
  run v f clock = Some out ->
  exists subtotal tax total,
    calculate_totals v (invoice_items f) = Some (subtotal, tax, total) /\
    let checks := validate (client_name f) (phone f) (invoice_items f)
                    (payment_type f) total
                    (cash_given (fst (cash_handling (payment_type f) total
                                        (cash_input f)))) in
    (fst checks = true /\
     exists d,
       create_invoice_pdf (client_name f) (phone f) (invoice_items f)
         (payment_label (payment_type f)) subtotal (Py.Float tax)
         (Py.Float total) (location f)
         (cash_given (fst (cash_handling (payment_type f) total (cash_input f))))
         (change (fst (cash_handling (payment_type f) total (cash_input f))))
         (clock 0%nat) = Some d /\
       out = (shown_above f total ++
              [ balloons;
                download_button "✅ Download Invoice PDF" d
                  (file_name_of (client_name f) (phone f) (clock 1%nat))
                  "application/pdf";
                success "Invoice PDF has been generated and is ready for download." ])%list)
    \/ (fst checks = false /\
        out = (shown_above f total ++ [disabled_button])%list).
Proof.
  rewrite run_eq.
  destruct (calculate_totals v (invoice_items f)) as [[[subtotal tax] total]|];
    [|discriminate].
  cbv zeta. intros H. exists subtotal, tax, total. split; [reflexivity|].
  destruct (fst (validate _ _ _ _ _ _)) eqn:V.
  - left. split; [reflexivity|].
    destruct (create_invoice_pdf _ _ _ _ _ _ _ _ _ _ _) as [d|]; [|discriminate].
    exists d. split; [reflexivity|]. apply Some_eq in H. exact H.
  - right. split; [reflexivity|]. apply Some_eq in H. exact H.
Qed.

Lemma shown_above_messages f total o :
  In o (shown_above f total) -> is_message o = true.
Proof.
  unfold shown_above. cbn [app]. intros [<- | H]; [reflexivity|].
  apply in_app_or in H as [H | H].
  - unfold cash_handling in H.
    destruct (is_cash (payment_type f)), (0 <? total)%float,
      (total <=? cash_input f)%float; cbn in H;
      repeat (destruct H as [H | H]; [subst o; reflexivity|]);
      contradiction.
  - apply in_map_iff in H as (m & <- & _). reflexivity.
Qed.

Lemma required_shown name phone items p total cg :
  In required_msg (snd (validate name phone items p total cg)) <->
  name = "" \/ phone = "" \/ items = [].
Proof.
  rewrite validate_eq. cbn [snd].
  destruct name as [|c name]; destruct phone as [|c' phone];
    destruct items as [|it items]; cbn [Py.truthy_str Py.truthy_list andb app];
    (split; [intros H | intros H]);
    try (left; reflexivity); try tauto;
    try (destruct (cash_short p total cg); cbn in H;
         repeat (destruct H as [H | H]; try discriminate H); tauto);
    try (destruct H as [H | [H | H]]; discriminate H).
Qed.

(** X9 (the page).  A run that ends shows the disabled button exactly when it
    shows an error line, and offers the download exactly when it shows none.
    The error lines are the two validation messages only; the first is shown
    exactly when the client name, the phone number or the item list is empty. *)
Theorem blocked_iff_error_shown (v : Py.summation) (f : form) (clock : nat -> datetime)
    (out : list output) :
  run v f clock = Some out ->
  (offered out <-> forall msg, ~ In (error msg) out) /\
  (In disabled_button out <-> exists msg, In (error msg) out) /\
  (forall msg, In (error msg) out ->
     msg = required_msg \/ msg = insufficient_msg) /\
  (In (error required_msg) out <->
   client_name f = "" \/ phone f = "" \/ invoice_items f = []).
Proof.
  intros H. apply run_cases in H as (subtotal & tax & total & _ & H).
  cbv zeta in H.
  set (checks := validate (client_name f) (phone f) (invoice_items f)
                   (payment_type f) total
                   (cash_given (fst (cash_handling (payment_type f) total
                                       (cash_input f))))) in *.
  assert (Herr : forall tail msg,
             (forall o, In o tail -> o <> error msg) ->
             (In (error msg) (shown_above f total ++ tail)%list <->
              In msg (snd checks))).
  { intros tail msg Htail. rewrite in_app_iff, error_shown_above. fold checks.
    split; [intros [Hin | Hin]; [exact Hin | exfalso; exact (Htail _ Hin eq_refl)]
           | auto]. }
  assert (Hbutton : forall tail,
             In disabled_button (shown_above f total ++ tail)%list <->
             In disabled_button tail).
  { intros tail. rewrite in_app_iff. split; [|auto].
    intros [Hin | Hin]; [|exact Hin].
    apply shown_above_messages in Hin. discriminate Hin. }
  destruct H as [(Hok & d & _ & ->) | (Hok & ->)].
  - assert (Hnone : snd checks = []) by (apply validate_open_iff, Hok).
    assert (Htail : forall msg o,
               In o [ balloons;
                      download_button "✅ Download Invoice PDF" d
                        (file_name_of (client_name f) (phone f) (clock 1%nat))
                        "application/pdf";
                      success "Invoice PDF has been generated and is ready for download." ] ->
               o <> error msg).
    { intros msg o [<- | [<- | [<- | []]]]; discriminate. }
    repeat split.
    + intros _ msg Hin. apply (proj1 (Herr _ msg (Htail msg))) in Hin.
      rewrite Hnone in Hin. exact Hin.
    + intros _. unfold offered. do 4 eexists.
      apply in_or_app. right. right. left. reflexivity.
    + intros Hin. apply (proj1 (Hbutton _)) in Hin. simpl in Hin.
      destruct Hin as [Hin | [Hin | [Hin | []]]]; discriminate Hin.
    + intros (msg & Hin). apply (proj1 (Herr _ msg (Htail msg))) in Hin.
      rewrite Hnone in Hin. contradiction.
    + intros msg Hin. apply (proj1 (Herr _ msg (Htail msg))) in Hin.
      rewrite Hnone in Hin. contradiction.
    + intros Hin. apply (proj1 (Herr _ _ (Htail _))) in Hin.
      apply required_shown in Hin. exact Hin.
    + intros Hf. apply (proj2 (Herr _ _ (Htail _))). apply required_shown, Hf.
  - assert (Hsome : snd checks <> []).
    { intros E. apply validate_open_iff in E. fold checks in E. congruence. }
    assert (Htail : forall msg o, In o [disabled_button] -> o <> error msg).
    { intros msg o [<- | []]. discriminate. }
    repeat split.
    + intros (label & d & name & mime & Hin) msg _.
      apply in_app_or in Hin as [Hin | [Hin | []]];
        [apply shown_above_no_download in Hin; exact Hin | discriminate Hin].
    + intros Hno. exfalso.
      destruct (snd checks) as [|msg rest] eqn:E; [congruence|].
      apply (Hno msg), (proj2 (Herr _ msg (Htail msg))). left. reflexivity.
    + intros _. destruct (snd checks) as [|msg rest] eqn:E; [congruence|].
      exists msg. apply (proj2 (Herr _ msg (Htail msg))). left. reflexivity.
    + intros _. apply (proj2 (Hbutton _)). left. reflexivity.
    + intros msg Hin. apply (proj1 (Herr _ msg (Htail msg))) in Hin.
      apply validate_errors in Hin. exact Hin.
    + intros Hin. apply (proj1 (Herr _ _ (Htail _))) in Hin.
      apply required_shown in Hin. exact Hin.
    + intros Hf. apply (proj2 (Herr _ _ (Htail _))). apply required_shown, Hf.
Qed.

Lemma blocked_iff_error_shown_witness :
  exists out, run Py.compensated ann_no_phone steady = Some out /\
    In disabled_button out /\ In (error required_msg) out.
Proof.
  assert (H : exists out, run Py.compensated ann_no_phone steady = Some out /\
                          In disabled_button out)
    by (vm_compute; eexists; split; [reflexivity | right; right; left; reflexivity]).
  destruct H as (out & H & Hb). exists out. split; [exact H|].
  split; [exact Hb|].
  apply (blocked_iff_error_shown Py.compensated ann_no_phone steady out H).
  right. left. reflexivity.
Defined.

Lemma insufficient_shown name phone items p total cg :
  In insufficient_msg (snd (validate name phone items p total cg)) <->
  cash_short p total cg = true.
Proof.
  rewrite validate_eq. cbn [snd].
  destruct (Py.truthy_str name && Py.truthy_str phone && Py.truthy_list items),
    (cash_short p total cg); cbn; split; intros H;
    try reflexivity; try discriminate H; try tauto;
    repeat (destruct H as [H | H]; try discriminate H); try contradiction.
Qed.

Lemma warning_shown f total m :
  In (warning m) (shown_above f total) ->
  is_cash (payment_type f) = true /\ (0 <? total)%float = true /\
  (total <=? cash_input f)%float = false /\
  m = "Cash given is less than total **$" ++ Py.format_float 2 total ++
      "**. Please input sufficient cash.".
Proof.
  unfold shown_above. cbn [app]. intros [H | H]; [discriminate H|].
  apply in_app_or in H as [H | H].
  - unfold cash_handling in H.
    destruct (is_cash (payment_type f)), (0 <? total)%float,
      (total <=? cash_input f)%float; cbn in H;
      repeat (destruct H as [H | H]; try discriminate H); try contradiction.
    injection H as <-. auto.
  - apply in_map_iff in H as (x & Hx & _). discriminate Hx.
Qed.

Lemma shown_warning f total :
  is_cash (payment_type f) = true -> (0 <? total)%float = true ->
  (total <=? cash_input f)%float = false ->
  In (warning ("Cash given is less than total **$" ++ Py.format_float 2 total
               ++ "**. Please input sufficient cash."))
     (shown_above f total).
Proof.
  intros Hc Hp Hle. unfold shown_above, cash_handling. rewrite Hc, Hp, Hle.
  cbn [snd app]. right. left. reflexivity.
Qed.

(** X10 (the page).  With a cash amount that is a number, a run that ends
    shows the warning under the cash input exactly when it shows the
    insufficient-cash error above the button; the warning names the total due
    to two decimals, and the run then offers no download. *)
Theorem warning_iff_insufficient (v : Py.summation) (f : form) (clock : nat -> datetime)
    (out : list output) :
  is_number (cash_input f) ->
  run v f clock = Some out ->
  ((exists m, In (warning m) out) <-> In (error insufficient_msg) out) /\
  (forall m, In (warning m) out ->
     exists subtotal tax total,
       calculate_totals v (invoice_items f) = Some (subtotal, tax, total) /\
       m = "Cash given is less than total **$" ++ Py.format_float 2 total ++
           "**. Please input sufficient cash.") /\
  ((exists m, In (warning m) out) -> ~ offered out).
Proof.
  intros Hnum H. apply run_cases in H as (subtotal & tax & total & Htot & H).
  cbv zeta in H.
  set (checks := validate (client_name f) (phone f) (invoice_items f)
                   (payment_type f) total
                   (cash_given (fst (cash_handling (payment_type f) total
                                       (cash_input f))))) in *.
  assert (Hshort : In insufficient_msg (snd checks) <->
                   exists m, In (warning m) (shown_above f total)).
  { unfold checks. rewrite insufficient_shown, cash_short_of_page. split.
    - intros Hs. apply andb_true_iff in Hs as [Hs Hlt].
      apply andb_true_iff in Hs as [Hc Hp].
      eexists. apply shown_warning; [exact Hc | exact Hp |].
      destruct (total <=? cash_input f)%float eqn:Hle; [|reflexivity].
      pose proof (proj1 (ltb_is_number _ _ Hlt)) as Hn1.
      pose proof (proj2 (ltb_is_number _ _ Hlt)) as Hn2.
      apply (not_ltb_iff_geb _ _ Hn1 Hn2) in Hle. congruence.
    - intros (m & Hm). apply warning_shown in Hm as (Hc & Hp & Hle & _).
      rewrite Hc, Hp. cbn [andb].
      destruct (cash_input f <? total)%float eqn:Hlt; [reflexivity|].
      apply (not_ltb_iff_geb _ _ Hnum (proj2 (ltb_is_number _ _ Hp))) in Hlt.
      congruence. }
  assert (Hwarn : forall tail m,
             (forall o, In o tail -> o <> warning m) ->
             In (warning m) (shown_above f total ++ tail)%list ->
             In (warning m) (shown_above f total)).
  { intros tail m Htail Hin. apply in_app_or in Hin as [Hin | Hin];
      [exact Hin | exfalso; exact (Htail _ Hin eq_refl)]. }
  assert (Herr : forall tail,
             (forall o, In o tail -> o <> error insufficient_msg) ->
             (In (error insufficient_msg) (shown_above f total ++ tail)%list
              <-> In insufficient_msg (snd checks))).
  { intros tail Htail. rewrite in_app_iff, error_shown_above. fold checks.
    split; [intros [Hin | Hin]; [exact Hin | exfalso; exact (Htail _ Hin eq_refl)]
           | auto]. }
  assert (Hgoal : forall tail,
             (forall o, In o tail -> is_message o = false \/ exists t, o = success t) ->
             out = (shown_above f total ++ tail)%list ->
             ((exists m, In (warning m) out) <-> In (error insufficient_msg) out)
             /\ (forall m, In (warning m) out ->
                   exists subtotal tax total,
                     calculate_totals v (invoice_items f)
                       = Some (subtotal, tax, total) /\
                     m = "Cash given is less than total **$"
                         ++ Py.format_float 2 total ++
                         "**. Please input sufficient cash.")).
  { intros tail Htail ->.
    assert (Hw : forall m o, In o tail -> o <> warning m).
    { intros m o Ho ->. destruct (Htail _ Ho) as [E | [t E]]; discriminate E. }
    assert (He : forall o, In o tail -> o <> error insufficient_msg).
    { intros o Ho ->. destruct (Htail _ Ho) as [E | [t E]]; discriminate E. }
    split; [split|].
    - intros (m & Hm). apply (proj2 (Herr tail He)), (proj2 Hshort).
      exists m. exact (Hwarn tail m (Hw m) Hm).
    - intros Hin. apply (proj1 (Herr tail He)), (proj1 Hshort) in Hin.
      destruct Hin as (m & Hm). exists m. apply in_or_app. left. exact Hm.
    - intros m Hm. apply (Hwarn tail m (Hw m)), warning_shown in Hm.
      destruct Hm as (_ & _ & _ & ->). exists subtotal, tax, total.
      split; [exact Htot | reflexivity]. }
  destruct H as [(Hok & d & _ & Hout) | (Hok & Hout)].
  - pose proof Hout as Hout'.
    eapply Hgoal in Hout' as [Hiff Htext];
      [|intros o [<- | [<- | [<- | []]]];
        [left; reflexivity | left; reflexivity | right; eexists; reflexivity]].
    split; [exact Hiff|]. split; [exact Htext|].
    intros Hw _. apply Hiff in Hw. subst out.
    eapply (fun Ht => proj1 (Herr _ Ht)) in Hw;
      [|intros o [<- | [<- | [<- | []]]]; discriminate].
    assert (Hnone : snd checks = []) by (apply validate_open_iff, Hok).
    rewrite Hnone in Hw. exact Hw.
  - pose proof Hout as Hout'.
    eapply Hgoal in Hout' as [Hiff Htext];
      [|intros o [<- | []]; left; reflexivity].
    split; [exact Hiff|]. split; [exact Htext|].
    intros _ (label & d & name & mime & Hin). subst out.
    apply in_app_or in Hin as [Hin | [Hin | []]];
      [apply shown_above_no_download in Hin; exact Hin | discriminate Hin].
Qed.

Lemma warning_iff_insufficient_witness :
  exists out, run Py.compensated ann_short steady = Some out /\
    In (warning "Cash given is less than total **$67.80**. Please input sufficient cash.") out /\
    In (error insufficient_msg) out.
Proof.
  assert (H : exists out, run Py.compensated ann_short steady = Some out /\
     In (warning "Cash given is less than total **$67.80**. Please input sufficient cash.") out)
    by (vm_compute; eexists; split; [reflexivity | right; left; reflexivity]).
  destruct H as (out & H & Hw). exists out. split; [exact H|].
  split; [exact Hw|].
  assert (Hnum : is_number (cash_input ann_short))
    by (vm_compute; discriminate).
  apply (proj1 (warning_iff_insufficient Py.compensated ann_short steady out Hnum H)).
  eexists. exact Hw.
Defined.

(** * Where the program raises *)

Lemma mapM_None {A B : Type} (f : A -> option B) (l : list A) :
  mapM f l = None <-> exists a, In a l /\ f a = None.
Proof.
  induction l as [|a l IH]; cbn [mapM].
  - split; [discriminate | intros (a & [] & _)].
  - destruct (f a) as [b|] eqn:E.
    + destruct (mapM f l) as [bs|].
      * split; [discriminate|].
        intros (x & [<- | Hx] & Hn); [congruence|].
        assert (Hbs : Some bs = None) by (apply IH; eauto).
        discriminate Hbs.
      * split; [|reflexivity].
        intros _. destruct (proj1 IH eq_refl) as (x & Hx & Hn).
        exists x. split; [right; exact Hx | exact Hn].
    + split; [|reflexivity]. intros _. exists a. split; [left; reflexivity | exact E].
Qed.

Lemma item_row_None it : item_row it = None <-> overflows (quantity it).
Proof.
  rewrite item_row_eq. unfold overflows.
  destruct (Py.float_of_int (quantity it)); split; congruence.
Qed.

(** X11 (the renderer).  A quantity without a float value, or an int
    without a float value among the three totals given, makes
    [create_invoice_pdf] raise, whatever the names, the prices, the payment
    type, the cash amounts and the clock are. *)
Theorem create_invoice_pdf_raises (client_name phone : string)
    (items : list item) (payment_type : string)
    (subtotal tax total : Py.number) (location : string)
    (cash_given change : option float) (now : datetime) :
  (exists it, In it items /\ overflows (quantity it)) \/
  Py.as_float subtotal = None \/ Py.as_float tax = None \/
  Py.as_float total = None ->
  create_invoice_pdf client_name phone items payment_type subtotal tax total
    location cash_given change now = None.
Proof.
  rewrite render_eq, summary_rows_eq.
  intros [(it & Hin & Hit) | H].
  - apply item_row_None in Hit.
    assert (Hn : mapM item_row items = None) by (apply mapM_None; eauto).
    rewrite Hn. reflexivity.
  - destruct (mapM item_row items) as [rows|]; [|reflexivity].
    destruct (Py.as_float subtotal), (Py.as_float tax), (Py.as_float total);
      try reflexivity;
      destruct H as [H | [H | H]]; discriminate H.
Qed.

Lemma create_invoice_pdf_raises_witness :
  overflows (2 ^ 1024) /\
  create_invoice_pdf "Ann Lee" "555 0100" too_many "Debit" (Py.Float 0)
    (Py.Float 0) (Py.Float 0) "NY" None None morning = None.
Proof.
  assert (H : overflows (2 ^ 1024)) by reflexivity.
  split; [exact H|].
  apply create_invoice_pdf_raises. left.
  exists (Item "Oak Plank" 12.5 (2 ^ 1024)).
  split; [left; reflexivity | exact H].
Defined.

(** * More on the invoice table *)

Lemma header_region (k : nat) (name : command) (a : list arg) (col r : Z) :
  let n := Z.of_nat k in
  0 <= col < 5 -> 0 <= r < n + 4 ->
  (covers (n + 4) 5 (Cmd name (0, 0) (-1, 0) a) col r = true <-> r = 0).
Proof. intros n Hcol Hr. geometry. Qed.

Lemma whole_table_region (k : nat) (name : command) (a : list arg) (col r : Z) :
  let n := Z.of_nat k in
  0 <= col < 5 -> 0 <= r < n + 4 ->
  covers (n + 4) 5 (Cmd name (0, 0) (-1, -1) a) col r = true.
Proof. intros n Hcol Hr. geometry. Qed.

Lemma body_region (k : nat) (name : command) (a : list arg) (col r : Z) :
  let n := Z.of_nat k in
  0 <= col < 5 -> 0 <= r < n + 4 ->
  (covers (n + 4) 5 (Cmd name (1, 1) (-1, -1) a) col r = true
   <-> 1 <= col /\ 1 <= r).
Proof. intros n Hcol Hr. geometry. Qed.

Lemma emphasis_commands n c :
  In c (table_style n) -> cmd c = BACKGROUND \/ cmd c = FONTNAME ->
  (c = Cmd (cmd c) (0, 0) (-1, 0) (args c) \/
   c = Cmd (cmd c) (3, -1) (4, -1) (args c)) /\
  args c = match cmd c with
           | BACKGROUND => [AColor lightgrey]
           | _ => [AStr "Helvetica-Bold"]
           end.
Proof.
  intros Hin Hc. simpl in Hin.
  split_commands Hin; destruct Hc as [Hc | Hc]; try discriminate Hc;
    cbn; auto.
Qed.

Lemma textcolor_unique n c :
  In c (table_style n) -> cmd c = TEXTCOLOR ->
  c = Cmd TEXTCOLOR (0, 0) (-1, 0) [AColor whitesmoke].
Proof.
  intros Hin Hc. simpl in Hin.
  split_commands Hin; try discriminate Hc; reflexivity.
Qed.

Lemma align_unique n c :
  In c (table_style n) -> cmd c = ALIGN ->
  c = Cmd ALIGN (1, 1) (-1, -1) [AStr "RIGHT"].
Proof.
  intros Hin Hc. simpl in Hin.
  split_commands Hin; try discriminate Hc; reflexivity.
Qed.

Lemma whole_table_commands n c :
  In c (table_style n) -> cmd c = VALIGN \/ cmd c = FONTSIZE ->
  c = Cmd (cmd c) (0, 0) (-1, -1) (args c) /\
  args c = match cmd c with
           | VALIGN => [AStr "TOP"]
           | _ => [AInt 8]
           end.
Proof.
  intros Hin Hc. simpl in Hin.
  split_commands Hin; destruct Hc as [Hc | Hc]; try discriminate Hc;
    cbn; auto.
Qed.

Section Styles.
Variables (client_name phone : string) (items : list item)
  (payment_type : string) (subtotal tax total : Py.number)
  (location : string) (cash_given change : option float).

Let render := create_invoice_pdf client_name phone items payment_type
                subtotal tax total location cash_given change.

(** X14 (the invoice table).  The style commands of the table give the
    light grey background (BACKGROUND) and the bold font (FONTNAME) to the
    header row, over all its columns, and to the last two cells of the TOTAL
    row, and to no other cell; the one TEXTCOLOR command gives white smoke to
    the header row only.  So no BACKGROUND, FONTNAME or TEXTCOLOR command
    covers a cell of an item row, of the Subtotal row or of the Tax row.
    This is about the style commands of the table; what the paragraph in a
    cell does with its own style and markup is apart from them. *)
Theorem emphasis_on_header_and_total (now : datetime) (d : document) :
  render now = Some d ->
  exists data widths style,
    let n := Z.of_nat (List.length items) in
    let nrows := nrows_of data in
    let ncols := ncols_of data in
    let in_table col r := 0 <= col < ncols /\ 0 <= r < nrows in
    table_of d = Some (data, widths, style) /\
    nrows = n + 4 /\ ncols = 5 /\
    (forall name, name = BACKGROUND \/ name = FONTNAME ->
     forall col r, in_table col r ->
       ((exists c, In c style /\ cmd c = name /\
                   covers nrows ncols c col r = true)
        <-> r = 0 \/ (3 <= col /\ r = n + 3))) /\
    (forall c, In c style -> cmd c = BACKGROUND ->
       args c = [AColor lightgrey]) /\
    (forall c, In c style -> cmd c = FONTNAME ->
       args c = [AStr "Helvetica-Bold"]) /\
    (exists c, In c style /\ cmd c = TEXTCOLOR) /\
    (forall c, In c style -> cmd c = TEXTCOLOR ->
       args c = [AColor whitesmoke] /\
       forall col r, in_table col r ->
         (covers nrows ncols c col r = true <-> r = 0)).
Proof.
  intros Hd.
  apply render_table in Hd
    as (rows & s & t & tot & _ & _ & _ & _ & Htable & Hn & Hc).
  eexists _, _, _. cbv zeta.
  split; [exact Htable|]. split; [exact Hn|]. split; [exact Hc|].
  rewrite Hn, Hc.
  set (n := Z.of_nat (List.length items)) in *.
  split; [|split; [|split; [|split]]].
  - intros name Hname col r [Hcol Hr]. split.
    + intros (c & Hin & Hcmd & Hcov).
      assert (Hk : cmd c = BACKGROUND \/ cmd c = FONTNAME) by (rewrite Hcmd; exact Hname).
      destruct (emphasis_commands n c Hin Hk) as [[E | E] _];
        rewrite E in Hcov.
      * left. apply (header_region (List.length items)) in Hcov; assumption.
      * right.
        apply (last_two_cells_region (List.length items) _ _ 3) in Hcov;
          [exact Hcov | lia | assumption | assumption].
    + intros [-> | [Hcol3 ->]].
      * destruct Hname as [-> | ->].
        -- exists (Cmd BACKGROUND (0, 0) (-1, 0) [AColor lightgrey]).
           split; [simpl; tauto|]. split; [reflexivity|].
           apply (header_region (List.length items)); [assumption | lia | reflexivity].
        -- exists (Cmd FONTNAME (0, 0) (-1, 0) [AStr "Helvetica-Bold"]).
           split; [simpl; tauto|]. split; [reflexivity|].
           apply (header_region (List.length items)); [assumption | lia | reflexivity].
      * destruct Hname as [-> | ->].
        -- exists (Cmd BACKGROUND (3, -1) (4, -1) [AColor lightgrey]).
           split; [simpl; tauto|]. split; [reflexivity|].
           apply (last_two_cells_region (List.length items) _ _ 3);
             [lia | assumption | assumption | split; [exact Hcol3 | reflexivity]].
        -- exists (Cmd FONTNAME (3, -1) (4, -1) [AStr "Helvetica-Bold"]).
           split; [simpl; tauto|]. split; [reflexivity|].
           apply (last_two_cells_region (List.length items) _ _ 3);
             [lia | assumption | assumption | split; [exact Hcol3 | reflexivity]].
  - intros c Hin Hcmd.
    destruct (emphasis_commands n c Hin (or_introl Hcmd)) as [_ E].
    rewrite E, Hcmd. reflexivity.
  - intros c Hin Hcmd.
    destruct (emphasis_commands n c Hin (or_intror Hcmd)) as [_ E].
    rewrite E, Hcmd. reflexivity.
  - exists (Cmd TEXTCOLOR (0, 0) (-1, 0) [AColor whitesmoke]).
    split; [simpl; tauto | reflexivity].
  - intros c Hin Hcmd. rewrite (textcolor_unique n c Hin Hcmd).
    split; [reflexivity|]. intros col r [Hcol Hr].
    apply (header_region (List.length items)); assumption.
Qed.

(** X15 (the invoice table).  Right alignment is given to every cell outside
    the first column and the header row, and to no cell of the first column or
    of the header row; font size 8 and top alignment are given to every cell
    of the table. *)
Theorem alignment_and_size (now : datetime) (d : document) :
  render now = Some d ->
  exists data widths style,
    let nrows := nrows_of data in
    let ncols := ncols_of data in
    let in_table col r := 0 <= col < ncols /\ 0 <= r < nrows in
    table_of d = Some (data, widths, style) /\
    nrows = Z.of_nat (List.length items) + 4 /\ ncols = 5 /\
    (exists c, In c style /\ cmd c = ALIGN) /\
    (forall c, In c style -> cmd c = ALIGN ->
       args c = [AStr "RIGHT"] /\
       forall col r, in_table col r ->
         (covers nrows ncols c col r = true <-> 1 <= col /\ 1 <= r)) /\
    (exists c, In c style /\ cmd c = VALIGN) /\
    (forall c, In c style -> cmd c = VALIGN ->
       args c = [AStr "TOP"] /\
       forall col r, in_table col r -> covers nrows ncols c col r = true) /\
    (exists c, In c style /\ cmd c = FONTSIZE) /\
    (forall c, In c style -> cmd c = FONTSIZE ->
       args c = [AInt 8] /\
       forall col r, in_table col r -> covers nrows ncols c col r = true).
Proof.
  intros Hd.
  apply render_table in Hd
    as (rows & s & t & tot & _ & _ & _ & _ & Htable & Hn & Hc).
  eexists _, _, _. cbv zeta.
  split; [exact Htable|]. split; [exact Hn|]. split; [exact Hc|].
  rewrite Hn, Hc.
  set (n := Z.of_nat (List.length items)) in *.
  split; [|split; [|split; [|split; [|split]]]].
  - exists (Cmd ALIGN (1, 1) (-1, -1) [AStr "RIGHT"]).
    split; [simpl; tauto | reflexivity].
  - intros c Hin Hcmd. rewrite (align_unique n c Hin Hcmd).
    split; [reflexivity|]. intros col r [Hcol Hr].
    apply (body_region (List.length items)); assumption.
  - exists (Cmd VALIGN (0, 0) (-1, -1) [AStr "TOP"]).
    split; [simpl; tauto | reflexivity].
  - intros c Hin Hcmd.
    destruct (whole_table_commands n c Hin (or_introl Hcmd)) as [E Ha].
    split; [rewrite Ha, Hcmd; reflexivity|].
    intros col r [Hcol Hr]. rewrite E.
    apply (whole_table_region (List.length items)); assumption.
  - exists (Cmd FONTSIZE (0, 0) (-1, -1) [AInt 8]).
    split; [simpl; tauto | reflexivity].
  - intros c Hin Hcmd.
    destruct (whole_table_commands n c Hin (or_intror Hcmd)) as [E Ha].
    split; [rewrite Ha, Hcmd; reflexivity|].
    intros col r [Hcol Hr]. rewrite E.
    apply (whole_table_region (List.length items)); assumption.
Qed.

End Styles.

Lemma emphasis_on_header_and_total_witness :
  exists d data widths style,
    sample_render morning = Some d /\
    table_of d = Some (data, widths, style) /\
    nrows_of data = 6 /\ ncols_of data = 5 /\
    forall c, In c style -> cmd c = BACKGROUND -> args c = [AColor lightgrey].
Proof.
  assert (H : exists d, sample_render morning = Some d)
    by (vm_compute; eexists; reflexivity).
  destruct H as [d H]. exists d.
  destruct (emphasis_on_header_and_total _ _ _ _ _ _ _ _ _ _ _ _ H)
    as (data & widths & style & Ht & Hn & Hc & _ & Hbg & _).
  exists data, widths, style.
  split; [exact H|]. split; [exact Ht|]. split; [exact Hn|].
  split; [exact Hc | exact Hbg].
Defined.

Lemma alignment_and_size_witness :
  exists d data widths style,
    sample_render morning = Some d /\
    table_of d = Some (data, widths, style) /\
    exists c, In c style /\ cmd c = ALIGN.
Proof.
  assert (H : exists d, sample_render morning = Some d)
    by (vm_compute; eexists; reflexivity).
  destruct H as [d H]. exists d.
  destruct (alignment_and_size _ _ _ _ _ _ _ _ _ _ _ _ H)
    as (data & widths & style & Ht & _ & _ & Ha & _).
  exists data, widths, style.
  split; [exact H|]. split; [exact Ht | exact Ha].
Defined.

Lemma row_of_length it q : List.length (row_of it q) = 5%nat.
Proof. reflexivity. Qed.

Lemma item_rows_length items rows :
  Forall2 (fun it r => item_row it = Some r) items rows ->
  Forall (fun r : row => List.length r = 5%nat) rows.
Proof.
  induction 1 as [|it r items rows Hr _ IH]; constructor; [|exact IH].
  rewrite item_row_eq in Hr.
  destruct (Py.float_of_int (quantity it)) as [q|]; [|discriminate Hr].
  apply Some_eq in Hr. subst r. reflexivity.
Qed.

(** X16 (the invoice table).  The table of every document the renderer returns
    is rectangular: the header row, every item row and every summary row has
    five cells, as many as there are column widths, and the table has one row
    for the header, one for each item and three for the summary. *)
Theorem table_is_rectangular (client_name phone : string) (items : list item)
    (payment_type : string) (subtotal tax total : Py.number)
    (location : string) (cash_given change : option float) (now : datetime)
    (d : document) :
  create_invoice_pdf client_name phone items payment_type subtotal tax total
    location cash_given change now = Some d ->
  exists data widths style,
    table_of d = Some (data, widths, style) /\
    List.length widths = 5%nat /\
    Forall (fun r : row => List.length r = List.length widths) data /\
    List.length data = (List.length items + 4)%nat.
Proof.
  intros Hd.
  apply render_Some in Hd as (rows & s & t & tot & Hrows & _ & _ & _ & ->).
  eexists _, _, _. split; [reflexivity|]. split; [reflexivity|].
  split.
  - constructor; [reflexivity|]. apply Forall_app. split.
    + apply item_rows_length in Hrows. exact Hrows.
    + repeat constructor.
  - cbn [List.length]. rewrite length_app.
    apply Forall2_length in Hrows. rewrite <- Hrows. cbn. lia.
Qed.

Lemma table_is_rectangular_witness :
  exists d data widths style,
    sample_render morning = Some d /\
    table_of d = Some (data, widths, style) /\
    List.length data = 6%nat.
Proof.
  assert (H : exists d, sample_render morning = Some d)
    by (vm_compute; eexists; reflexivity).
  destruct H as [d H]. exists d.
  destruct (table_is_rectangular _ _ _ _ _ _ _ _ _ _ _ _ H)
    as (data & widths & style & Ht & _ & _ & Hlen).
  exists data, widths, style.
  split; [exact H|]. split; [exact Ht | exact Hlen].
Defined.

(** X17 (the page and the invoice).  When the download is offered, the summary
    rows of the invoice hold the subtotal, the tax and the total that
    [calculate_totals] gives for the item list of the page, each to two
    decimals, and the TOTAL cell shows the same amount as the Total Due line
    at the head of the payment section. *)
Theorem invoice_shows_page_totals (v : Py.summation) (f : form) (clock : nat -> datetime)
    (out : list output) (label : string) (d : document) (name mime : string) :
  run v f clock = Some out ->
  In (download_button label d name mime) out ->
  exists subtotal tax total s data widths style,
    calculate_totals v (invoice_items f) = Some (subtotal, tax, total) /\
    Py.as_float subtotal = Some s /\
    hd_error out =
      Some (markdown ("#### Total Due: $" ++ Py.format_float 2 total)) /\
    table_of d = Some (data, widths, style) /\
    skipn (S (List.length (invoice_items f))) data =
      [ [ Str ""; Str ""; Str ""; P "Subtotal" Normal;
          P (Py.format_float 2 s) Normal ];
        [ Str ""; Str ""; Str ""; P "Tax (13%)" Normal;
          P (Py.format_float 2 tax) Normal ];
        [ Str ""; Str ""; Str ""; P "<b>TOTAL</b>" Normal;
          P ("<b>" ++ Py.format_float 2 total ++ "</b>") Normal ] ].
Proof.
  intros Hrun Hin.
  destruct (run_offered _ _ _ _ _ _ _ _ Hrun Hin)
    as (subtotal & tax & total & Htot & _ & Hd & _).
  destruct (run_cases _ _ _ _ Hrun)
    as (subtotal' & tax' & total' & Htot' & Hcases).
  rewrite Htot in Htot'. apply Some_eq in Htot'.
  injection Htot' as -> -> ->.
  apply render_table in Hd
    as (rows & s & t & tot & Hlen & Hs & Ht & Htt & Htable & _ & _).
  cbn [Py.as_float] in Ht, Htt. apply Some_eq in Ht. apply Some_eq in Htt.
  subst t tot.
  exists subtotal, tax, total, s. eexists _, _, _.
  split; [exact Htot|]. split; [exact Hs|].
  split.
  - cbv zeta in Hcases.
    destruct Hcases as [(_ & d' & _ & ->) | (_ & ->)]; reflexivity.
  - split; [exact Htable|].
    rewrite <- Hlen. apply skipn_summary.
Qed.

Lemma invoice_shows_page_totals_witness :
  exists out label d name mime data widths style,
    run Py.compensated ann steady = Some out /\
    In (download_button label d name mime) out /\
    hd_error out = Some (markdown "#### Total Due: $67.80") /\
    table_of d = Some (data, widths, style) /\
    nth_error data 5 =
      Some [ Str ""; Str ""; Str ""; P "<b>TOTAL</b>" Normal;
             P "<b>67.80</b>" Normal ].
Proof.
  assert (Hoffer : exists out label d name mime,
            run Py.compensated ann steady = Some out /\
            In (download_button label d name mime) out).
  { vm_compute. eexists _, _, _, _, _. split; [reflexivity|].
    do 3 right. left. reflexivity. }
  destruct Hoffer as (out & label & d & name & mime & Hrun & Hin).
  destruct (invoice_shows_page_totals Py.compensated ann steady out label d name mime Hrun Hin)
    as (subtotal & tax & total & s & data & widths & style
        & Htot & Hs & Hhd & Ht & Hsum).
  vm_compute in Htot. injection Htot as <- <- <-.
  exists out, label, d, name, mime, data, widths, style.
  split; [exact Hrun|]. split; [exact Hin|]. split; [exact Hhd|].
  split; [exact Ht|].
  change 5%nat with (S (List.length (invoice_items ann)) + 2)%nat.
  rewrite <- nth_error_skipn, Hsum. reflexivity.
Defined.

(** * More on the session *)

Lemma run_head v f clock out :
  run v f clock = Some out ->
  exists subtotal tax total,
    calculate_totals v (invoice_items f) = Some (subtotal, tax, total) /\
    hd_error out =
      Some (markdown ("#### Total Due: $" ++ Py.format_float 2 total)).
Proof.
  intros H. apply run_cases in H as (subtotal & tax & total & Htot & H).
  exists subtotal, tax, total. split; [exact Htot|].
  cbv zeta in H. destruct H as [(_ & d & _ & ->) | (_ & ->)]; reflexivity.
Qed.

(** X18 (the session).  On an empty item list an execution of the script
    always finishes: the list section shows "No items added yet.", the payment
    section shows a total due of $0.00 and the required-fields error, and the
    download button is the disabled one, whatever the other inputs are. *)
Theorem empty_list_page (v : Py.summation) (st : Session.state)
    (w : Session.inputs)
    (clock : nat -> datetime) :
  Session.invoice_items st = [] ->
  exists notices page st',
    Session.script v st w clock =
      Some (Session.finished notices (Session.info "No items added yet.")
              page st') /\
    Session.invoice_items st' = [] /\
    hd_error page = Some (markdown "#### Total Due: $0.00") /\
    In (error required_msg) page /\
    In disabled_button page /\
    ~ offered page.
Proof.
  intros Hempty.
  destruct (Session.script v st w clock) as [o|] eqn:E.
  - pose proof (script_Some _ _ _ _ _ E) as (_ & _ & _ & _ & Ho).
    destruct o as [st' | notices shown page st'].
    + destruct Ho as (Hne & _). contradiction.
    + destruct Ho as (Hitems & _ & Hshown & _ & Hrun).
      rewrite Hempty in Hshown, Hrun, Hitems.
      cbn in Hshown. apply Some_eq in Hshown. subst shown.
      exists notices, page, st'. split; [reflexivity|].
      split; [exact Hitems|].
      destruct (run_head _ _ _ _ Hrun) as (subtotal & tax & total & Htot & Hhd).
      cbn [invoice_items] in Htot. vm_compute in Htot.
      apply Some_eq in Htot. injection Htot as -> -> ->.
      split; [exact Hhd|].
      apply run_cases in Hrun as (subtotal & tax & total & _ & Hrun).
      cbv zeta in Hrun. cbn [client_name phone invoice_items payment_type] in Hrun.
      assert (Hreq : forall total,
                In (error required_msg)
                   (shown_above
                      (Form (Session.in_client_name w) (Session.in_phone w)
                         (Session.in_location w) [] (Session.in_payment w)
                         (Session.in_cash w)) total)).
      { intros total0. apply in_shown_above_error, required_shown.
        right. right. reflexivity. }
      destruct Hrun as [(Hok & _) | (_ & ->)].
      * rewrite validate_eq in Hok. cbn [fst Py.truthy_list] in Hok.
        rewrite !andb_false_r in Hok. discriminate Hok.
      * split; [apply in_or_app; left; apply Hreq|].
        split; [apply in_or_app; right; left; reflexivity|].
        intros (label & d & name & mime & Hin).
        apply in_app_or in Hin as [Hin | [Hin | []]];
          [apply shown_above_no_download in Hin; exact Hin | discriminate Hin].
  - exfalso. unfold Session.script in E.
    destruct (Session.show_message st) as [notices st1] eqn:Hm.
    assert (Hst1 : Session.invoice_items st1 = []).
    { unfold Session.show_message in Hm.
      destruct (Session.message st); apply pair_equal_spec in Hm as [_ <-];
        exact Hempty. }
    rewrite Hst1 in E.
    assert (Htot : calculate_totals v [] = Some (Py.Int 0, 0%float, 0%float))
      by reflexivity.
    rewrite Htot in E. cbn [Session.edit_list Py.truthy_list] in E.
    cbv zeta in E.
    erewrite run_blocked in E; [discriminate E | exact Htot |].
    rewrite validate_eq. cbn [fst invoice_items Py.truthy_list].
    rewrite !andb_false_r. reflexivity.
Qed.

Lemma empty_list_page_witness :
  exists notices page st',
    Session.script Py.compensated Session.initial at_counter steady =
      Some (Session.finished notices (Session.info "No items added yet.")
              page st') /\
    In disabled_button page.
Proof.
  destruct (empty_list_page Py.compensated Session.initial at_counter steady eq_refl)
    as (notices & page & st' & H & _ & _ & _ & Hb & _).
  exists notices, page, st'. split; [exact H | exact Hb].
Defined.

(** X19 (the session).  After a click on Add that takes the inputs, the
    execution that finishes works on the old list with the new item at its
    end, and the total due it shows is the total of [calculate_totals] on
    that list, to two decimals.  Where the interpreter sums from left to
    right (CPython before 3.12), that total is computed from the old subtotal
    plus the price times the quantity of the new item: that sum plus its tax
    at [TAX_RATE]. *)
Theorem total_due_after_add (v : Py.summation) (st : Session.state)
    (w : Session.inputs)
    (clock : nat -> datetime)
    (notices : list output) (shown : Session.listing) (page : list output)
    (st' : Session.state) :
  accepts st ->
  Session.script v (Session.add_item_and_reset st) w clock =
    Some (Session.finished notices shown page st') ->
  let new_item :=
    Item (PyStr.strip (Session.temp_name st)) (Session.temp_price st)
      (Session.temp_qty st) in
  Session.invoice_items st' = (Session.invoice_items st ++ [new_item])%list /\
  (exists subtotal tax total,
     calculate_totals v (Session.invoice_items st ++ [new_item]) =
       Some (subtotal, tax, total) /\
     hd_error page =
       Some (markdown ("#### Total Due: $" ++ Py.format_float 2 total))) /\
  (v = Py.left_to_right ->
   forall subtotal tax total,
     calculate_totals v (Session.invoice_items st) =
       Some (subtotal, tax, total) ->
     exists s q,
       Py.as_float subtotal = Some s /\
       Py.float_of_int (Session.temp_qty st) = Some q /\
       hd_error page =
         Some (markdown
                 ("#### Total Due: $" ++
                  Py.format_float 2
                    ((s + Session.temp_price st * q)
                     + (s + Session.temp_price st * q) * TAX_RATE)%float))).
Proof.
  intros Hacc Hscript new_item.
  apply script_Some in Hscript as (_ & _ & _ & _ & Hitems & _ & _ & _ & Hrun).
  rewrite (add_item_taken st Hacc) in Hitems, Hrun.
  cbn [Session.invoice_items] in Hitems, Hrun.
  apply run_head in Hrun as (subtotal' & tax' & total' & Htot' & Hhd).
  cbn [invoice_items] in Htot'.
  split; [exact Hitems|]. split; [eauto|].
  intros -> subtotal tax total Htot.
  pose proof (calculate_totals_Some _ _ _ _ _ Htot') as [Hq _].
  apply Forall_app in Hq as [_ Hq]. inversion Hq as [|? ? Hnew _]; subst.
  destruct (totals_snoc _ _ _ _ _ Htot Hnew) as (s & Hs & Happ).
  cbn [quantity] in Hnew.
  rewrite Happ in Htot'. apply Some_eq in Htot'.
  injection Htot' as -> -> ->.
  destruct Hnew as [q Hqv].
  exists s, q. split; [exact Hs|]. split; [exact Hqv|].
  rewrite Hhd. unfold line_float. cbn [price quantity].
  rewrite (float_of_int_to_float _ _ Hqv). reflexivity.
Qed.

Lemma total_due_after_add_witness :
  exists notices shown page st',
    Session.script Py.left_to_right (Session.add_item_and_reset pine_typed)
      by_card steady =
      Some (Session.finished notices shown page st') /\
    hd_error page = Some (markdown "#### Total Due: $92.38").
Proof.
  assert (H : exists notices shown page st',
    Session.script Py.left_to_right (Session.add_item_and_reset pine_typed)
      by_card steady =
      Some (Session.finished notices shown page st'))
    by (vm_compute; eexists _, _, _, _; reflexivity).
  destruct H as (notices & shown & page & st' & H).
  assert (Hacc : accepts pine_typed)
    by (repeat split; vm_compute; reflexivity).
  assert (Htot : calculate_totals Py.left_to_right
                   (Session.invoice_items pine_typed)
                 = Some (Py.Float 60, 7.8000000000000007%float,
                         67.799999999999997%float))
    by (vm_compute; reflexivity).
  destruct (total_due_after_add _ _ _ _ _ _ _ _ Hacc H) as (_ & _ & Hleft).
  destruct (Hleft eq_refl _ _ _ Htot) as (s & q & Hs & Hq & Hhd).
  exists notices, shown, page, st'.
  split; [exact H|].
  apply Some_eq in Hs. subst s.
  vm_compute in Hq. apply Some_eq in Hq. subst q.
  rewrite Hhd. vm_compute. reflexivity.
Defined.

Lemma edit_rows_shown rows : forall i widgets keep shown keep' shown',
  Session.edit_rows i rows widgets keep shown = Some (keep', shown') ->
  exists lines,
    shown' = (shown ++ lines)%list /\
    List.length lines = List.length rows /\
    forall k it, nth_error rows k = Some it ->
      exists q,
        Py.float_of_int (Session.new_quantity (widgets (i + k)%nat)) = Some q /\
        nth_error lines k =
          Some (Session.Line (description it)
                  ("**$" ++ Py.format_float 2
                              (Session.new_price (widgets (i + k)%nat) * q)
                   ++ "**")
                  ("**$" ++ Py.format_float 2
                              (Session.new_price (widgets (i + k)%nat) * q
                               * (1 + TAX_RATE))
                   ++ "**")).
Proof.
  induction rows as [|it rest IH]; intros i widgets keep shown keep' shown' H.
  - cbn in H. apply Some_eq in H. injection H as -> ->.
    exists []. rewrite app_nil_r. split; [reflexivity|].
    split; [reflexivity|]. intros [|k] it' Hk; discriminate Hk.
  - cbn [Session.edit_rows Py.mul Py.as_float] in H.
    destruct (Py.float_of_int (Session.new_quantity (widgets i))) as [q|] eqn:Q;
      [|discriminate H].
    cbn [Py.mul Py.as_float Py.format_f] in H.
    assert (Hrest : exists keep0,
               Session.edit_rows (S i) rest widgets keep0
                 (shown ++
                  [Session.Line (description it)
                     ("**$" ++ Py.format_float 2
                                 (Session.new_price (widgets i) * q) ++ "**")
                     ("**$" ++ Py.format_float 2
                                 (Session.new_price (widgets i) * q
                                  * (1 + TAX_RATE)) ++ "**")])%list
               = Some (keep', shown')).
    { destruct (Session.remove (widgets i)); eexists; exact H. }
    destruct Hrest as (keep0 & Hrest).
    apply IH in Hrest as (lines & -> & Hlen & Hnth).
    eexists (_ :: lines). rewrite <- app_assoc. split; [reflexivity|].
    split; [cbn; rewrite Hlen; reflexivity|].
    intros [|k] it' Hk.
    + cbn in Hk. apply Some_eq in Hk. subst it'.
      rewrite Nat.add_0_r. exists q. split; [exact Q | reflexivity].
    + cbn in Hk. destruct (Hnth k it' Hk) as (q' & Hq' & Hl).
      replace (i + S k)%nat with (S i + k)%nat by lia.
      exists q'. split; [exact Hq' | exact Hl].
Qed.

(** X20 (the editable list).  When the list section goes on, it has shown the
    five column titles and one line for each item, in the order of the list:
    the name of the item and, between "**$" and "**", the price of the row
    times the quantity of the item to two decimals, and that product times 1 +
    [TAX_RATE] to two decimals. The price of the row then equals the price of
    the item. *)
Theorem list_shows_line_totals (items : list item)
    (widgets : nat -> Session.reading) (header : list string)
    (lines : list Session.line) :
  Session.edit_list items widgets = Some (Session.table header lines) ->
  header = [ "**Description**"; "**Unit Price ($)**"; "**Quantity**";
             "**Total ($)**"; "**Total After Tax (13%)**" ] /\
  List.length lines = List.length items /\
  forall k it, nth_error items k = Some it ->
    (price it =? Session.new_price (widgets k))%float = true /\
    exists q,
      Py.float_of_int (quantity it) = Some q /\
      nth_error lines k =
        Some (Session.Line (description it)
                ("**$" ++ Py.format_float 2 (Session.new_price (widgets k) * q)
                 ++ "**")
                ("**$" ++ Py.format_float 2
                            (Session.new_price (widgets k) * q
                             * (1 + TAX_RATE))
                 ++ "**")).
Proof.
  intros H.
  pose proof (edit_list_Some _ _ _ H) as (Hne & Hecho & -> & Hlen).
  split; [reflexivity|]. split; [exact Hlen|].
  unfold Session.edit_list in H.
  destruct items as [|it0 rest]; [contradiction|].
  cbn [Py.truthy_list] in H.
  destruct (Session.edit_rows 0 (it0 :: rest) widgets [] [])
    as [[items_to_keep shown]|] eqn:E; [|discriminate H].
  apply edit_rows_shown in E as (lines' & -> & _ & Hnth).
  cbn [app] in H.
  assert (Hl : lines = lines').
  { destruct (negb _) in H; [discriminate H|].
    destruct (negb _) in H; [discriminate H|].
    apply Some_eq in H. injection H as ->. reflexivity. }
  subst lines'.
  intros k it Hk.
  pose proof (proj1 (all_echo_spec _ 0 widgets) Hecho k it Hk)
    as (_ & Hprice & Hqty).
  cbn [Nat.add] in Hprice, Hqty.
  split; [exact Hprice|].
  destruct (Hnth k it Hk) as (q & Hq & Hline). cbn [Nat.add] in Hq, Hline.
  exists q. rewrite Hqty. split; [exact Hq | exact Hline].
Qed.

Lemma list_shows_line_totals_witness :
  exists header lines,
    Session.edit_list oak_and_nails untouched
      = Some (Session.table header lines) /\
    nth_error lines 0 =
      Some (Session.Line "Oak Plank" "**$50.00**" "**$56.50**").
Proof.
  assert (H : exists header lines,
             Session.edit_list oak_and_nails untouched
               = Some (Session.table header lines))
    by (vm_compute; eexists _, _; reflexivity).
  destruct H as (header & lines & H). exists header, lines.
  split; [exact H|].
  destruct (list_shows_line_totals _ _ _ _ H) as (_ & _ & Hnth).
  destruct (Hnth 0%nat (Item "Oak Plank" 12.5 4) eq_refl)
    as (_ & q & Hq & Hline).
  vm_compute in Hq. apply Some_eq in Hq. subst q.
  rewrite Hline. vm_compute. reflexivity.
Defined.

(** X21 (the page).  A run of the payment section shows a change line exactly
    for a cash payment against a total above zero that the cash covers, and
    the line then gives the cash less the total to two decimals; for Debit and
    Credit it shows neither a change line nor a cash warning. *)
Theorem change_line_iff (v : Py.summation) (f : form) (clock : nat -> datetime)
    (out : list output) (subtotal : Py.number) (tax total : float) :
  calculate_totals v (invoice_items f) = Some (subtotal, tax, total) ->
  run v f clock = Some out ->
  (forall x,
     In (success ("Change to return: **$" ++ x)) out <->
     payment_type f = Cash /\ (0 <? total)%float = true /\
     (total <=? cash_input f)%float = true /\
     x = Py.format_float 2 (cash_input f - total) ++ "**") /\
  (payment_type f <> Cash -> forall m, ~ In (warning m) out).
Proof.
  intros Htot Hrun.
  apply run_cases in Hrun as (subtotal' & tax' & total' & Htot' & Hrun).
  rewrite Htot in Htot'. apply Some_eq in Htot'.
  injection Htot' as -> -> ->. cbv zeta in Hrun.
  assert (Hcash : forall o,
             In o (shown_above f total) ->
             (exists x, o = success x) \/ (exists m, o = warning m) ->
             In o (snd (cash_handling (payment_type f) total (cash_input f)))).
  { intros o Hin Ho. unfold shown_above in Hin. cbn [app] in Hin.
    destruct Hin as [<- | Hin];
      [destruct Ho as [(x & E) | (m & E)]; discriminate E|].
    apply in_app_or in Hin as [Hin | Hin]; [exact Hin|].
    apply in_map_iff in Hin as (m' & <- & _).
    destruct Ho as [(x & E) | (m & E)]; discriminate E. }
  assert (Hin_out : forall o,
             (exists x, o = success ("Change to return: **$" ++ x))
             \/ (exists m, o = warning m) ->
             (In o out <->
              In o (snd (cash_handling (payment_type f) total (cash_input f))))).
  { intros o Ho. split.
    - intros Hin.
      assert (Hin' : In o (shown_above f total)).
      { destruct Hrun as [(_ & d & _ & ->) | (_ & ->)];
          apply in_app_or in Hin as [Hin | Hin]; try exact Hin; exfalso;
          simpl in Hin;
          repeat (destruct Hin as [Hin | Hin];
                  [subst o; destruct Ho as [(x & E) | (m & E)]; discriminate E|]);
          exact Hin. }
      apply Hcash; [exact Hin'|].
      destruct Ho as [(x & ->) | Ho]; [left; eauto | right; exact Ho].
    - intros Hin.
      assert (Hin' : In o (shown_above f total)).
      { unfold shown_above. cbn [app]. right. apply in_or_app. left. exact Hin. }
      destruct Hrun as [(_ & d & _ & ->) | (_ & ->)];
        apply in_or_app; left; exact Hin'. }
  split.
  - intros x. rewrite (Hin_out _ (or_introl (ex_intro _ x eq_refl))).
    unfold cash_handling. rewrite <- is_cash_true.
    destruct (is_cash (payment_type f)), (0 <? total)%float,
      (total <=? cash_input f)%float; cbn [snd In];
      split; intros H;
      try (destruct H as [H | []]); try contradiction;
      try discriminate H;
      try (destruct H as (H1 & H2 & H3 & H4); discriminate).
    + injection H as <-. auto.
    + destruct H as (_ & _ & _ & ->). left. reflexivity.
  - intros Hno m Hin.
    apply (Hin_out _ (or_intror (ex_intro _ m eq_refl))) in Hin.
    unfold cash_handling in Hin.
    destruct (is_cash (payment_type f)) eqn:C.
    + apply is_cash_true in C. contradiction.
    + exact Hin.
Qed.

Lemma change_line_iff_witness :
  exists out, run Py.compensated ann steady = Some out /\
    In (success "Change to return: **$2.20**") out.
Proof.
  assert (H : exists out, run Py.compensated ann steady = Some out)
    by (vm_compute; eexists; reflexivity).
  destruct H as (out & H). exists out. split; [exact H|].
  assert (Htot : calculate_totals Py.compensated (invoice_items ann)
                 = Some (Py.Float 60, 7.8000000000000007%float,
                         67.799999999999997%float))
    by (vm_compute; reflexivity).
  apply (proj1 (change_line_iff Py.compensated ann steady out _ _ _ Htot H)).
  repeat split; vm_compute; reflexivity.
Defined.

(** * The sign of the totals *)

Lemma leb0_iff x : (0 <=? x)%float = true <-> sf_nonneg (Prim2SF x).
Proof.
  rewrite leb_spec. change (Prim2SF 0) with (S754_zero false).
  unfold SFleb, SFcompare, sf_nonneg.
  destruct (Prim2SF x) as [s|[]| |[] m e]; cbn; split; intros H;
    try reflexivity; try exact I; try discriminate H; try contradiction.
Qed.

Lemma shr_1_nonneg mrs : 0 <= shr_m mrs -> 0 <= shr_m (shr_1 mrs).
Proof.
  destruct mrs as [m r s]. cbn [shr_m]. intros H.
  destruct m as [|[p|p|]|p]; cbn; lia.
Qed.

Lemma iter_shr_1_nonneg p : forall mrs,
  0 <= shr_m mrs -> 0 <= shr_m (iter_pos shr_1 p mrs).
Proof.
  induction p as [p IH|p IH|]; intros mrs H; cbn [iter_pos].
  - apply IH, IH, shr_1_nonneg, H.
  - apply IH, IH, H.
  - apply shr_1_nonneg, H.
Qed.

Lemma shr_fexp_nonneg m e l :
  0 <= m -> 0 <= shr_m (fst (shr_fexp prec emax m e l)).
Proof.
  intros H. unfold shr_fexp, shr.
  assert (H0 : 0 <= shr_m (shr_record_of_loc m l))
    by (destruct l as [|[]]; exact H).
  destruct (fexp prec emax (Zdigits2 m + e) - e) as [|p|p]; cbn [fst];
    [exact H0 | apply iter_shr_1_nonneg, H0 | exact H0].
Qed.

Lemma round_nearest_even_nonneg m l : 0 <= m -> 0 <= round_nearest_even m l.
Proof.
  intros H. unfold round_nearest_even.
  destruct l as [|[]]; [exact H | | exact H | lia].
  destruct (Z.even m); lia.
Qed.

Lemma binary_round_aux_nonneg m e l :
  0 <= m -> sf_nonneg (binary_round_aux prec emax false m e l).
Proof.
  intros H. unfold binary_round_aux.
  pose proof (shr_fexp_nonneg m e l H) as H1.
  destruct (shr_fexp prec emax m e l) as [mrs' e']. cbn [fst] in H1.
  pose proof (shr_fexp_nonneg _ e' loc_Exact
                (round_nearest_even_nonneg _ (loc_of_shr_record mrs') H1)) as H2.
  destruct (shr_fexp prec emax
              (round_nearest_even (shr_m mrs') (loc_of_shr_record mrs')) e'
              loc_Exact) as [mrs'' e''].
  cbn [fst] in H2.
  destruct (shr_m mrs'') as [|p|p]; [exact I | | lia].
  destruct (e'' <=? emax - prec); exact I.
Qed.

Lemma binary_round_nonneg m e : sf_nonneg (binary_round prec emax false m e).
Proof.
  unfold binary_round.
  destruct (shl_align m e (fexp prec emax (Z.pos (digits2_pos m) + e)))
    as [mz ez].
  apply binary_round_aux_nonneg. lia.
Qed.

Lemma SFmul_nonneg x y m e :
  sf_nonneg x -> y = S754_finite false m e -> sf_nonneg (SFmul prec emax x y).
Proof.
  intros Hx ->. destruct x as [s|[]| |[] mx ex]; cbn in Hx |- *;
    try contradiction; try exact I.
  apply binary_round_aux_nonneg. lia.
Qed.

Lemma SFadd_nonneg x y :
  sf_nonneg x -> sf_nonneg y -> sf_nonneg (SFadd prec emax x y).
Proof.
  intros Hx Hy.
  destruct x as [sx|[]| |[] mx ex]; cbn in Hx; try contradiction;
    destruct y as [sy|[]| |[] my ey]; cbn in Hy; try contradiction;
    cbn [SFadd]; try exact I.
  - destruct sx, sy; exact I.
  - cbn [cond_Zopp]. cbn [Z.add binary_normalize].
    apply binary_round_nonneg.
Qed.

Lemma mul_nonneg x y m e :
  (0 <=? x)%float = true -> Prim2SF y = S754_finite false m e ->
  (0 <=? x * y)%float = true.
Proof.
  rewrite !leb0_iff, mul_spec. intros Hx Hy.
  exact (SFmul_nonneg _ _ m e Hx Hy).
Qed.

Lemma add_nonneg x y :
  (0 <=? x)%float = true -> (0 <=? y)%float = true ->
  (0 <=? x + y)%float = true.
Proof.
  rewrite !leb0_iff, add_spec. apply SFadd_nonneg.
Qed.

(** The float of a quantity from 1 to below [2^53] is a positive number. *)
Lemma to_float_positive q :
  1 <= q < 2 ^ 53 ->
  exists m e, Prim2SF (to_float q) = S754_finite false m e.
Proof.
  intros Hq. unfold to_float.
  destruct q as [|p|p]; try lia. cbn [binary_normalize].
  pose proof (digits2_pos_bound 53 p ltac:(lia)) as Hd.
  assert (Hd1 : 1 <= Z.pos (digits2_pos p)) by lia.
  set (d := Z.pos (digits2_pos p)) in *.
  assert (E1 : fexp prec emax (d + 0) = d - 53)
    by (unfold fexp, emin, prec, emax; lia).
  assert (E2 : fexp prec emax (53 + (d - 53)) = d - 53)
    by (unfold fexp, emin, prec, emax; lia).
  assert (Hal : exists mz, shl_align p 0 (d - 53) = (mz, d - 53)
                 /\ Z.pos (digits2_pos mz) = 53).
  { unfold shl_align. destruct (d - 53 - 0) as [|k|k] eqn:E.
    - exists p. split; [f_equal; lia | fold d; lia].
    - lia.
    - exists (Pos.iter xO p k). split; [reflexivity|].
      rewrite digits2_pos_iter_xO, Pos2Z.inj_add. fold d. lia. }
  destruct Hal as (mz & Hal & Hmz).
  assert (Hround : binary_round prec emax false p 0
                   = S754_finite false mz (d - 53)).
  { unfold binary_round. fold d. rewrite E1, Hal.
    unfold binary_round_aux, shr_fexp. cbn [Zdigits2 shr_record_of_loc].
    rewrite Hmz, E2, Z.sub_diag.
    cbn [shr shr_m loc_of_shr_record round_nearest_even Zdigits2].
    rewrite Hmz, E2, Z.sub_diag. cbn [shr shr_m shr_record_of_loc].
    destruct (Z.leb_spec (d - 53) (emax - prec)) as [_|H]; [reflexivity|].
    unfold emax, prec in H. lia. }
  rewrite Hround. exists mz, (d - 53).
  apply Prim2SF_SF2Prim.
  unfold valid_binary, bounded, canonical_mantissa.
  rewrite Hmz, E2, Z.eqb_refl. cbn [andb].
  apply Z.leb_le. unfold emax, prec. lia.
Qed.

Lemma line_float_nonneg it : in_bounds it -> (0 <=? line_float it)%float = true.
Proof.
  intros [Hp Hq]. unfold line_float.
  destruct (to_float_positive _ Hq) as (m & e & Hf).
  exact (mul_nonneg _ _ m e Hp Hf).
Qed.

Lemma fold_add_nonneg xs : forall a,
  (0 <=? a)%float = true ->
  Forall (fun x => (0 <=? x)%float = true) xs ->
  (0 <=? fold_left PrimFloat.add xs a)%float = true.
Proof.
  induction xs as [|x xs IH]; intros a Ha Hxs; cbn [fold_left].
  - exact Ha.
  - inversion Hxs as [|? ? Hx Hrest]; subst.
    apply IH; [apply add_nonneg; assumption | exact Hrest].
Qed.

(** X22 (the totals).  For items with a price not below zero and a quantity
    from 1 to below 2^53, [calculate_totals] returns under either summation,
    and the tax and the total are not below zero when the subtotal is not;
    where the interpreter sums from left to right the subtotal, the tax and
    the total are not below zero; in particular none of them is NaN or a
    negative number. *)
Theorem totals_not_negative (v : Py.summation) (items : list item) :
  Forall in_bounds items ->
  exists subtotal s tax total,
    calculate_totals v items = Some (subtotal, tax, total) /\
    Py.as_float subtotal = Some s /\
    ((0 <=? s)%float = true ->
     (0 <=? tax)%float = true /\ (0 <=? total)%float = true) /\
    (v = Py.left_to_right ->
     (0 <=? s)%float = true /\ (0 <=? tax)%float = true /\
     (0 <=? total)%float = true).
Proof.
  intros H.
  assert (Hq : Forall (fun it => convertible (quantity it)) items).
  { eapply Forall_impl; [|exact H]. intros it [_ Hit].
    apply convertible_below_2_53. lia. }
  rewrite (calculate_totals_value v items Hq).
  eexists _, _, _, _. split; [reflexivity|].
  split; [apply subtotal_as_float|].
  assert (Htax : (0 <=? sum_value v (map line_float items))%float = true ->
            (0 <=? sum_value v (map line_float items) * 0.13)%float = true /\
            (0 <=? sum_value v (map line_float items)
                   + sum_value v (map line_float items) * 0.13)%float = true).
  { intros Hs.
    assert (Ht : (0 <=? sum_value v (map line_float items) * 0.13)%float
                 = true)
      by (eapply mul_nonneg; [exact Hs|]; vm_compute; reflexivity).
    split; [exact Ht | apply add_nonneg; assumption]. }
  split; [exact Htax|].
  intros ->.
  assert (Hs : (0 <=? sum_value Py.left_to_right (map line_float items))%float
               = true).
  { rewrite sum_value_left_to_right.
    unfold float_sum. apply fold_add_nonneg; [reflexivity|].
    apply Forall_map. eapply Forall_impl; [|exact H].
    intros it Hit. apply line_float_nonneg, Hit. }
  split; [exact Hs | exact (Htax Hs)].
Qed.

Lemma totals_not_negative_witness :
  Forall in_bounds oak_and_nails /\
  exists subtotal s tax total,
    calculate_totals Py.left_to_right oak_and_nails
      = Some (subtotal, tax, total) /\
    Py.as_float subtotal = Some s /\ (0 <=? total)%float = true.
Proof.
  assert (H : Forall in_bounds oak_and_nails)
    by (repeat constructor; cbn; lia).
  split; [exact H|].
  destruct (totals_not_negative Py.left_to_right oak_and_nails H)
    as (subtotal & s & tax & total & Htot & Hs & _ & Hpos).
  exists subtotal, s, tax, total.
  split; [exact Htot|]. split; [exact Hs|]. apply (Hpos eq_refl).
Defined.

(** * The sign of the change *)

Lemma digits2_pos_spec m :
  2 ^ (Z.pos (digits2_pos m) - 1) <= Z.pos m < 2 ^ Z.pos (digits2_pos m).
Proof.
  induction m as [p IH|p IH|]; cbn [digits2_pos].
  - rewrite Pos2Z.inj_succ.
    replace (Z.succ (Z.pos (digits2_pos p)) - 1)
      with (Z.succ (Z.pos (digits2_pos p) - 1)) by lia.
    rewrite !Z.pow_succ_r by lia. lia.
  - rewrite Pos2Z.inj_succ.
    replace (Z.succ (Z.pos (digits2_pos p)) - 1)
      with (Z.succ (Z.pos (digits2_pos p) - 1)) by lia.
    rewrite !Z.pow_succ_r by lia. lia.
  - cbn. lia.
Qed.

Lemma iter_xO_value m d : Z.pos (Pos.iter xO m d) = Z.pos m * 2 ^ Z.pos d.
Proof.
  induction d as [|d IH] using Pos.peano_ind.
  - cbn. lia.
  - rewrite Pos.iter_succ, Pos2Z.inj_succ, Z.pow_succ_r by lia.
    rewrite Pos2Z.inj_xO, IH. lia.
Qed.

Lemma valid_finite s m e :
  valid_binary (S754_finite s m e) = true ->
  -1074 <= e /\ Z.pos (digits2_pos m) <= 53 /\
  (-1074 < e -> Z.pos (digits2_pos m) = 53).
Proof.
  unfold valid_binary, bounded, canonical_mantissa, fexp, SpecFloat.emin.
  intros H. apply andb_true_iff in H as [H _]. apply Z.eqb_eq in H.
  unfold prec, emax in *. lia.
Qed.

Lemma SFsub_nonneg x my ey :
  valid_binary x = true -> valid_binary (S754_finite false my ey) = true ->
  SFleb (S754_finite false my ey) x = true ->
  sf_nonneg (SFsub prec emax x (S754_finite false my ey)).
Proof.
  intros Vx Vy Hle.
  destruct x as [sx|[]| |[] mx ex]; cbn in Hle; try discriminate Hle;
    cbn [SFsub]; try exact I.
  cbn [cond_Zopp].
  apply valid_finite in Vx as (Hex & Hdx & Hnx).
  apply valid_finite in Vy as (Hey & Hdy & Hny).
  pose proof (digits2_pos_spec mx) as Hmx.
  pose proof (digits2_pos_spec my) as Hmy.
  assert (Hdiff : 0 <= Z.pos (fst (shl_align mx ex (Z.min ex ey)))
                       - Z.pos (fst (shl_align my ey (Z.min ex ey)))).
  { destruct (Z.compare_spec ey ex) as [E | E | E]; [| |discriminate Hle].
    - subst ey. rewrite Z.min_id. unfold shl_align. rewrite Z.sub_diag.
      cbn [fst].
      assert (Hc : (my <= mx)%positive).
      { unfold Pos.le. change (my ?= mx)%positive
          with (PosDef.Pos.compare_cont Eq my mx).
        destruct (PosDef.Pos.compare_cont Eq my mx);
          [discriminate | discriminate | discriminate Hle]. }
      lia.
    - rewrite Z.min_r by lia. unfold shl_align. rewrite Z.sub_diag.
      cbn [fst].
      destruct (ey - ex) as [|k|k] eqn:K; try lia. cbn [fst].
      rewrite iter_xO_value.
      assert (Hd : Z.pos (digits2_pos mx) = 53) by (apply Hnx; lia).
      rewrite Hd in Hmx.
      assert (Hk : 2 <= 2 ^ Z.pos k).
      { change 2 with (2 ^ 1) at 1. apply Z.pow_le_mono_r; lia. }
      assert (Hy : Z.pos my < 2 ^ 53).
      { eapply Z.lt_le_trans; [apply Hmy|].
        apply Z.pow_le_mono_r; lia. }
      change (2 ^ (53 - 1)) with 4503599627370496 in Hmx.
      change (2 ^ 53) with 9007199254740992 in Hy.
      nia. }
  destruct (Z.pos (fst (shl_align mx ex (Z.min ex ey)))
            - Z.pos (fst (shl_align my ey (Z.min ex ey)))) as [|p|p] eqn:D;
    cbn [binary_normalize]; [exact I | apply binary_round_nonneg | lia].
Qed.

Lemma sub_nonneg cash total :
  (0 <? total)%float = true -> (total <? infinity)%float = true ->
  (total <=? cash)%float = true ->
  (0 <=? cash - total)%float = true.
Proof.
  rewrite leb0_iff, sub_spec, !ltb_spec, leb_spec.
  change (Prim2SF 0) with (S754_zero false).
  change (Prim2SF infinity) with (S754_infinity false).
  pose proof (Prim2SF_valid cash) as Vc.
  pose proof (Prim2SF_valid total) as Vt.
  destruct (Prim2SF total) as [s|s| |s m e]; cbn;
    try discriminate; try (destruct s; discriminate).
  destruct s; [discriminate|]. intros _ _ Hle.
  apply SFsub_nonneg; assumption.
Qed.

(** X23 (the page).  Whenever the cash block computes a change, against a
    total that is not infinite, the change is the cash given less the total
    and is not below zero; in particular it is not NaN. *)
Theorem change_not_negative (p : payment) (total cash c : float) :
  change (fst (cash_handling p total cash)) = Some c ->
  (total <? infinity)%float = true ->
  c = (cash - total)%float /\ (0 <=? c)%float = true /\
  p = Cash /\ (0 <? total)%float = true /\ (total <=? cash)%float = true.
Proof.
  rewrite change_of_handling. intros H Hfin.
  destruct (is_cash p) eqn:C; [|discriminate H].
  destruct (0 <? total)%float eqn:Hp; [|discriminate H].
  destruct (total <=? cash)%float eqn:Hle; [|discriminate H].
  cbn in H. apply Some_eq in H. subst c.
  split; [reflexivity|].
  split; [apply sub_nonneg; assumption|].
  split; [apply is_cash_true, C|]. split; reflexivity.
Qed.

Lemma change_not_negative_witness :
  change (fst (cash_handling Cash 67.799999999999997 70))
    = Some (70 - 67.799999999999997)%float /\
  (0 <=? 70 - 67.799999999999997)%float = true.
Proof.
  assert (H : change (fst (cash_handling Cash 67.799999999999997 70))
              = Some (70 - 67.799999999999997)%float)
    by (vm_compute; reflexivity).
  split; [exact H|].
  apply (change_not_negative Cash _ _ _ H). vm_compute. reflexivity.
Defined.
